(** * PypeIt: per-exposure calibration and master-frame management

    A shallow embedding of [src/arsciexp.py] (class [ScienceExposure]) and of
    the bad-pixel-mask generators of [pypit/spectrographs], with the
    properties of the specification stated and proved over it.

    Python objects live in an explicit store: an [ndarray] is a heap cell
    addressed by a location, the per-detector slot lists hold references,
    and an exception leaves behind every mutation made before it was
    raised. *)

From Stdlib Require Import ZArith List Bool Lia.
From Stdlib Require Import Floats Ascii.
From stdpp Require Import base option list strings gmap.

Local Open Scope string_scope.
Local Open Scope list_scope.
Local Open Scope Z_scope.

(** ** Python values *)

(** The exceptions the modelled code can raise.  [PypitError] is what
    [msgs.error] raises; [External] is a failure of a collaborator that is
    not part of this module (frame loading, combination, ...); [Dangling]
    stands for a reference to no array object, which no world built by the
    code contains. *)
Inductive exn :=
| AttributeError (what : string)
| TypeError (what : string)
| IndexError
| KeyError (what : string)
| ValueError (what : string)
| ZeroDivisionError
| PypitError (msg : string)
| External (what : string)
| Dangling.

Definition loc := nat.

(** What a slot, an argument or a return value can be: [None], a [str], or a
    reference to an [ndarray] object. *)
Inductive pyobj :=
| PyNone
| PyStr (s : string)
| PyArr (l : loc).
Arguments PyArr l%_nat_scope.

(** A configuration value as found in the [argflag] dictionary. *)
Inductive cfgval :=
| CNone
| CInt (z : Z)
| CStr (s : string).

(** ** numpy arrays: a shape and a row-major buffer *)

Inductive dtype := DInt | DFloat | DObject.

Record ndarray := { dtype_of : dtype; shape : list nat; data : list float }.

Definition size_of (sh : list nat) : nat := fold_right Nat.mul 1%nat sh.

Fixpoint chunks {A} (n sz : nat) (d : list A) : list (list A) :=
  match n with
  | O => []
  | S n' => take sz d :: chunks n' sz (drop sz d)
  end.

(** The columns of a list of rows, each of length [sz]. *)
Definition columns {A} (sz : nat) (rows : list (list A)) : list (list A) :=
  map (fun j => omap (fun r : list A => r !! j) rows) (seq 0 sz).

(** [a.T] reverses the axes; on the buffer, the sub-arrays along the first axis
    are transposed and then interleaved. *)
Fixpoint transpose_data {A} (sh : list nat) (d : list A) : list A :=
  match sh with
  | [] => d
  | n :: rest =>
      concat (columns (size_of rest) (map (transpose_data rest) (chunks n (size_of rest) d)))
  end.

Definition T (a : ndarray) : ndarray :=
  {| dtype_of := dtype_of a; shape := rev (shape a); data := transpose_data (shape a) (data a) |}.

(** [np.zeros(sh, dtype)] and an array of ones of a given shape. *)
Definition np_zeros (dt : dtype) (sh : list nat) : ndarray :=
  {| dtype_of := dt; shape := sh; data := replicate (size_of sh) 0%float |}.

Definition np_ones (dt : dtype) (sh : list nat) : ndarray :=
  {| dtype_of := dt; shape := sh; data := replicate (size_of sh) 1%float |}.

(** Python list indexing: negative indices count from the end. *)
Definition py_index (n : nat) (i : Z) : option nat :=
  if (0 <=? i) && (i <? Z.of_nat n) then Some (Z.to_nat i)
  else if (- Z.of_nat n <=? i) && (i <? 0) then Some (Z.to_nat (Z.of_nat n + i))
  else None.

(** ** Configuration, detector parameters and headers *)

Definition kwargs := list (string * cfgval).

(** The entries of [argflag] the modelled methods read. *)
Record ArgFlag := {
  reduce_usebias : string;
  reduce_usearc : string;
  reduce_usetrace : string;
  reduce_useflat : string;
  reduce_usepixflat : option string;
  reduce_flatfield : bool;
  reduce_arcmatch : float;
  reduce_flatmatch : float;
  reduce_trim : bool;
  trace_disp_direction : cfgval;
  trace_disp_window : cfgval;
  run_masterdir : string;
  arc_comb : kwargs;
  bias_comb : kwargs;
  trace_comb : kwargs;
  pixflat_comb : kwargs
}.

(** A section descriptor such as [[[0, 1024], [0, 2048]]]. *)
Abbreviation section := (list (list Z)).

(** One entry of [spect['det']].  The keys ['ampsec{0:02d}'.format(n)],
    ['datasec..'] and ['oscansec..'] are three finite maps indexed by the
    amplifier number [n]. *)
Record DetPar := {
  xgap : float;
  ygap : float;
  ysize : float;
  saturation : float;
  nonlinear : float;
  numamplifiers : Z;
  ampsec : gmap nat section;
  datasec : gmap nat section;
  oscansec : gmap nat section
}.

Record FitsDict := { naxis0 : list Z; naxis1 : list Z }.

(** ** The exposure object *)

(** The per-detector list attributes that [SetFrame] is handed. *)
Inductive attr :=
| a_ampsec | a_bpix | a_msarc | a_msbias | a_mstrace
| a_mspixflat | a_mspixflatnrm | a_msblaze.

#[export] Instance attr_eq_dec : EqDecision attr.
Proof. solve_decision. Defined.

Record Frames := {
  _ampsec : list pyobj;
  _bpix : list pyobj;
  _msarc : list pyobj;
  _msbias : list pyobj;
  _mstrace : list pyobj;
  _mspixflat : list pyobj;
  _mspixflatnrm : list pyobj;
  _msblaze : list pyobj
}.

Definition slot (a : attr) (f : Frames) : list pyobj :=
  match a with
  | a_ampsec => _ampsec f | a_bpix => _bpix f | a_msarc => _msarc f
  | a_msbias => _msbias f | a_mstrace => _mstrace f | a_mspixflat => _mspixflat f
  | a_mspixflatnrm => _mspixflatnrm f | a_msblaze => _msblaze f
  end.

Definition set_slot (a : attr) (l : list pyobj) (f : Frames) : Frames :=
  match a with
  | a_ampsec => {| _ampsec := l; _bpix := _bpix f; _msarc := _msarc f; _msbias := _msbias f;
                   _mstrace := _mstrace f; _mspixflat := _mspixflat f;
                   _mspixflatnrm := _mspixflatnrm f; _msblaze := _msblaze f |}
  | a_bpix => {| _ampsec := _ampsec f; _bpix := l; _msarc := _msarc f; _msbias := _msbias f;
                 _mstrace := _mstrace f; _mspixflat := _mspixflat f;
                 _mspixflatnrm := _mspixflatnrm f; _msblaze := _msblaze f |}
  | a_msarc => {| _ampsec := _ampsec f; _bpix := _bpix f; _msarc := l; _msbias := _msbias f;
                  _mstrace := _mstrace f; _mspixflat := _mspixflat f;
                  _mspixflatnrm := _mspixflatnrm f; _msblaze := _msblaze f |}
  | a_msbias => {| _ampsec := _ampsec f; _bpix := _bpix f; _msarc := _msarc f; _msbias := l;
                   _mstrace := _mstrace f; _mspixflat := _mspixflat f;
                   _mspixflatnrm := _mspixflatnrm f; _msblaze := _msblaze f |}
  | a_mstrace => {| _ampsec := _ampsec f; _bpix := _bpix f; _msarc := _msarc f;
                    _msbias := _msbias f; _mstrace := l; _mspixflat := _mspixflat f;
                    _mspixflatnrm := _mspixflatnrm f; _msblaze := _msblaze f |}
  | a_mspixflat => {| _ampsec := _ampsec f; _bpix := _bpix f; _msarc := _msarc f;
                      _msbias := _msbias f; _mstrace := _mstrace f; _mspixflat := l;
                      _mspixflatnrm := _mspixflatnrm f; _msblaze := _msblaze f |}
  | a_mspixflatnrm => {| _ampsec := _ampsec f; _bpix := _bpix f; _msarc := _msarc f;
                         _msbias := _msbias f; _mstrace := _mstrace f;
                         _mspixflat := _mspixflat f; _mspixflatnrm := l;
                         _msblaze := _msblaze f |}
  | a_msblaze => {| _ampsec := _ampsec f; _bpix := _bpix f; _msarc := _msarc f;
                    _msbias := _msbias f; _mstrace := _mstrace f; _mspixflat := _mspixflat f;
                    _mspixflatnrm := _mspixflatnrm f; _msblaze := l |}
  end.

Record ScienceExposure := {
  _argflag : ArgFlag;
  _det : list DetPar;              (* self._spect['det'] *)
  _transpose : bool;
  _idx_arcs : list Z;
  _idx_bias : list Z;
  _idx_trace : list Z;
  _idx_flat : list Z;
  _nonlinear : list float;
  _dispaxis : option Z;
  _nspec : list (option nat);
  _nspat : list (option nat);
  _frames : Frames
}.

Inductive level := Info | Warn | Work | Bug.

(** Everything a call can read or mutate: the exposure object, the array
    objects, the [fitsdict] the caller passes by reference, and the log. *)
Record world := {
  self : ScienceExposure;
  heap : list ndarray;
  fitsdict : FitsDict;
  msgs : list (level * string)
}.

Definition with_self (f : ScienceExposure -> ScienceExposure) (w : world) : world :=
  {| self := f (self w); heap := heap w; fitsdict := fitsdict w; msgs := msgs w |}.

Definition with_frames (f : Frames -> Frames) (s : ScienceExposure) : ScienceExposure :=
  {| _argflag := _argflag s; _det := _det s; _transpose := _transpose s;
     _idx_arcs := _idx_arcs s; _idx_bias := _idx_bias s; _idx_trace := _idx_trace s;
     _idx_flat := _idx_flat s; _nonlinear := _nonlinear s; _dispaxis := _dispaxis s;
     _nspec := _nspec s; _nspat := _nspat s; _frames := f (_frames s) |}.

Definition with_det (f : list DetPar -> list DetPar) (s : ScienceExposure) : ScienceExposure :=
  {| _argflag := _argflag s; _det := f (_det s); _transpose := _transpose s;
     _idx_arcs := _idx_arcs s; _idx_bias := _idx_bias s; _idx_trace := _idx_trace s;
     _idx_flat := _idx_flat s; _nonlinear := _nonlinear s; _dispaxis := _dispaxis s;
     _nspec := _nspec s; _nspat := _nspat s; _frames := _frames s |}.

Definition with_transpose (b : bool) (s : ScienceExposure) : ScienceExposure :=
  {| _argflag := _argflag s; _det := _det s; _transpose := b;
     _idx_arcs := _idx_arcs s; _idx_bias := _idx_bias s; _idx_trace := _idx_trace s;
     _idx_flat := _idx_flat s; _nonlinear := _nonlinear s; _dispaxis := _dispaxis s;
     _nspec := _nspec s; _nspat := _nspat s; _frames := _frames s |}.

Definition with_dispaxis (d : option Z) (s : ScienceExposure) : ScienceExposure :=
  {| _argflag := _argflag s; _det := _det s; _transpose := _transpose s;
     _idx_arcs := _idx_arcs s; _idx_bias := _idx_bias s; _idx_trace := _idx_trace s;
     _idx_flat := _idx_flat s; _nonlinear := _nonlinear s; _dispaxis := d;
     _nspec := _nspec s; _nspat := _nspat s; _frames := _frames s |}.

Definition with_npix (ns np : list (option nat)) (s : ScienceExposure) : ScienceExposure :=
  {| _argflag := _argflag s; _det := _det s; _transpose := _transpose s;
     _idx_arcs := _idx_arcs s; _idx_bias := _idx_bias s; _idx_trace := _idx_trace s;
     _idx_flat := _idx_flat s; _nonlinear := _nonlinear s; _dispaxis := _dispaxis s;
     _nspec := ns; _nspat := np; _frames := _frames s |}.

(** ** The monad of a method body: state, with exceptions that keep the state *)

Inductive outcome (A : Type) :=
| Ret (a : A) (w : world)
| Raise (e : exn) (w : world).
Arguments Ret {A} a w.
Arguments Raise {A} e w.

Definition M (A : Type) : Type := world -> outcome A.

Definition ret {A} (a : A) : M A := fun w => Ret a w.
Definition raise {A} (e : exn) : M A := fun w => Raise e w.
Definition bind {A B} (m : M A) (k : A -> M B) : M B :=
  fun w => match m w with
           | Ret a w' => k a w'
           | Raise e w' => Raise e w'
           end.

#[export] Instance M_ret : MRet M := @ret.
#[export] Instance M_bind : MBind M := fun A B k m => bind m k.

Definition gets {A} (f : world -> A) : M A := fun w => Ret (f w) w.
Definition modify (f : world -> world) : M unit := fun w => Ret tt (f w).

Definition final {A} (o : outcome A) : world :=
  match o with Ret _ w => w | Raise _ w => w end.

(** [for x in xs: body x] *)
Fixpoint for_each {A} (xs : list A) (body : A -> M unit) : M unit :=
  match xs with
  | [] => ret tt
  | x :: xs' => body x;; for_each xs' body
  end.

(** [range(n)] for a Python int [n]. *)
Definition range (n : Z) : list nat := seq 0 (Z.to_nat n).

(** Modelled from the spec: the logger [msgs] (module [armsgs]) is not among the
    sources.  Its [info], [warn], [work] and [bug] append a line to the log
    and go on; its [error] is fatal (section 7) and is modelled as raising
    [PypitError]; its [newline()] is a line break. *)
Definition msg (l : level) (s : string) : M unit :=
  modify (fun w => {| self := self w; heap := heap w; fitsdict := fitsdict w;
                      msgs := msgs w ++ [(l, s)] |}).
Definition msgs_error {A} (s : string) : M A := raise (PypitError s).

(** ** Primitive operations on Python objects *)

Definition alloc (a : ndarray) : M loc :=
  fun w => Ret (length (heap w))
               {| self := self w; heap := heap w ++ [a]; fitsdict := fitsdict w;
                  msgs := msgs w |}.

Definition deref (l : loc) : M ndarray :=
  fun w => match heap w !! l with
           | Some a => Ret a w
           | None => Raise Dangling w
           end.

(** [l[i]] *)
Definition getitem {A} (l : list A) (i : Z) : M A :=
  match py_index (length l) i with
  | Some k => match l !! k with Some x => ret x | None => raise IndexError end
  | None => raise IndexError
  end.

(** [o.copy()] *)
Definition py_copy (o : pyobj) : M pyobj :=
  match o with
  | PyArr l => a ← deref l; l' ← alloc a; ret (PyArr l')
  | PyNone => raise (AttributeError "'NoneType' object has no attribute 'copy'")
  | PyStr _ => raise (AttributeError "'str' object has no attribute 'copy'")
  end.

(** [o.T]: a new array object holding the transposed contents. *)
Definition py_T (o : pyobj) : M pyobj :=
  match o with
  | PyArr l => a ← deref l; l' ← alloc (T a); ret (PyArr l')
  | PyNone => raise (AttributeError "'NoneType' object has no attribute 'T'")
  | PyStr _ => raise (AttributeError "'str' object has no attribute 'T'")
  end.

(** [o.shape] *)
Definition py_shape (o : pyobj) : M (list nat) :=
  match o with
  | PyArr l => a ← deref l; ret (shape a)
  | PyNone => raise (AttributeError "'NoneType' object has no attribute 'shape'")
  | PyStr _ => raise (AttributeError "'str' object has no attribute 'shape'")
  end.

(** [toarray[i] = v] on one of the slot lists of [self]. *)
Definition setslot (toarray : attr) (i : Z) (v : pyobj) : M unit :=
  l ← gets (fun w => slot toarray (_frames (self w)));
  match py_index (length l) i with
  | Some k => modify (with_self (with_frames (set_slot toarray (<[k:=v]> l))))
  | None => raise IndexError
  end.

Definition getslot (a : attr) (i : Z) : M pyobj :=
  l ← gets (fun w => slot a (_frames (self w))); getitem l i.

(** ** Setters and getters of [ScienceExposure] *)

(** [SetFrame(toarray, value, det, copy=True)] *)
Definition SetFrame (toarray : attr) (value : pyobj) (det : Z) (copy : bool) : M unit :=
  if copy then v ← py_copy value; setslot toarray (det - 1) v
  else setslot toarray (det - 1) value.

(** [SetMasterFrame(self, frame, ftype, det, copy=True)] *)
Definition SetMasterFrame (frame : pyobj) (ftype : string) (det : Z) (copy : bool) : M unit :=
  let det := det - 1 in
  cpf ← (if copy then py_copy frame else ret frame);
  if String.eqb ftype "arc" then setslot a_msarc det cpf
  else if String.eqb ftype "bias" then setslot a_msbias det cpf
  else if String.eqb ftype "normpixflat" then setslot a_mspixflatnrm det cpf
  else if String.eqb ftype "pixflat" then setslot a_mspixflat det cpf
  else if String.eqb ftype "trace" then setslot a_mstrace det cpf
  else
    msg Bug ("I could not set master frame of type: " +:+ ftype);;
    msgs_error "Please contact the authors".

(** [GetFrame(getarray, det, copy=True)] *)
Definition GetFrame (getarray : attr) (det : Z) (copy : bool) : M pyobj :=
  if copy then v ← getslot getarray (det - 1); py_copy v
  else getslot getarray (det - 1).

(** [GetMasterFrame(self, ftype, det, copy=True)].  Both arms of [if copy]
    dispatch on [ftype] in the same order. *)
Definition GetMasterFrame (ftype : string) (det : Z) (copy : bool) : M pyobj :=
  let det := det - 1 in
  let fetch (a : attr) : M pyobj :=
    if copy then v ← getslot a det; py_copy v else getslot a det in
  if String.eqb ftype "arc" then fetch a_msarc
  else if String.eqb ftype "bias" then fetch a_msbias
  else if String.eqb ftype "normpixflat" then fetch a_mspixflatnrm
  else if String.eqb ftype "pixflat" then fetch a_mspixflat
  else if String.eqb ftype "trace" then fetch a_mstrace
  else
    msg Bug ("I could not get master frame of type: " +:+ ftype);;
    msgs_error "Please contact the authors".

(** ** Detector parameters and headers, mutated in place *)

Definition getdet (i : Z) : M DetPar :=
  l ← gets (fun w => _det (self w)); getitem l i.

Definition setdet (i : Z) (d : DetPar) : M unit :=
  l ← gets (fun w => _det (self w));
  match py_index (length l) i with
  | Some k => modify (with_self (with_det (fun _ => <[k:=d]> l)))
  | None => raise IndexError
  end.

Definition with_gaps (x y : float) (d : DetPar) : DetPar :=
  {| xgap := x; ygap := y; ysize := ysize d; saturation := saturation d;
     nonlinear := nonlinear d; numamplifiers := numamplifiers d;
     ampsec := ampsec d; datasec := datasec d; oscansec := oscansec d |}.

Definition with_ysize (y : float) (d : DetPar) : DetPar :=
  {| xgap := xgap d; ygap := ygap d; ysize := y; saturation := saturation d;
     nonlinear := nonlinear d; numamplifiers := numamplifiers d;
     ampsec := ampsec d; datasec := datasec d; oscansec := oscansec d |}.

Definition with_secs (a b c : gmap nat section) (d : DetPar) : DetPar :=
  {| xgap := xgap d; ygap := ygap d; ysize := ysize d; saturation := saturation d;
     nonlinear := nonlinear d; numamplifiers := numamplifiers d;
     ampsec := a; datasec := b; oscansec := c |}.

(** [d[key] = d[key][::-1]] for the three section keys of amplifier [i+1]. *)
Definition flip_sections (det1 : Z) (i : nat) : M unit :=
  let n := S i in
  d ← getdet det1;
  match ampsec d !! n with
  | None => raise (KeyError "ampsec")
  | Some s =>
      setdet det1 (with_secs (<[n := rev s]> (ampsec d)) (datasec d) (oscansec d) d);;
      d ← getdet det1;
      match datasec d !! n with
      | None => raise (KeyError "datasec")
      | Some s =>
          setdet det1 (with_secs (ampsec d) (<[n := rev s]> (datasec d)) (oscansec d) d);;
          d ← getdet det1;
          match oscansec d !! n with
          | None => raise (KeyError "oscansec")
          | Some s =>
              setdet det1 (with_secs (ampsec d) (datasec d) (<[n := rev s]> (oscansec d)) d)
          end
      end
  end.

(** One round of the loop that exchanges [naxis0[i]] and [naxis1[i]]. *)
Definition swap_naxis (i : nat) : M unit :=
  fd ← gets fitsdict;
  temp ← getitem (naxis0 fd) (Z.of_nat i);
  v ← getitem (naxis1 fd) (Z.of_nat i);
  modify (fun w => {| self := self w; heap := heap w;
                      fitsdict := {| naxis0 := <[i := v]> (naxis0 (fitsdict w));
                                     naxis1 := naxis1 (fitsdict w) |};
                      msgs := msgs w |});;
  modify (fun w => {| self := self w; heap := heap w;
                      fitsdict := {| naxis0 := naxis0 (fitsdict w);
                                     naxis1 := <[i := temp]> (naxis1 (fitsdict w)) |};
                      msgs := msgs w |}).

Definition newline : string := String (Ascii.ascii_of_nat 10) EmptyString.

Definition msg_direction : string :=
  "The argument for the dispersion direction (trace+disp+direction)" +:+ newline +:+
  "must be either:" +:+ newline +:+
  "  0 if the dispersion axis is predominantly along a row" +:+ newline +:+
  "  1 if the dispersion axis is predominantly along a column".

Definition msg_shorter : string :=
  "The dispersion axis is set to the shorter axis, is this correct?".

Definition set_dispaxis (d : option Z) : M unit := modify (with_self (with_dispaxis d)).
Definition get_dispaxis : M (option Z) := gets (fun w => _dispaxis (self w)).

Definition is_axis (d : option Z) (z : Z) : bool :=
  match d with Some x => x =? z | None => false end.

(** A collaborator outside this module: a function of the current world that
    returns a value or fails, and mutates nothing. *)
Definition extern (A : Type) : Type := world -> exn + A.

Definition call {A} (f : extern A) : M A :=
  fun w => match f w with inr a => Ret a w | inl e => Raise e w end.

Section GeometryState.

(** [artrace.dispdir(msarc, dispwin=window, mode=0)] *)
Variable dispdir : pyobj -> cfgval -> extern Z.

(** Lines 167-174: settle [self._dispaxis]. *)
Definition detect_axis (det : Z) : M unit :=
  direction ← gets (fun w => trace_disp_direction (_argflag (self w)));
  match direction with
  | CNone =>
      arc ← getslot a_msarc (det - 1);
      window ← gets (fun w => trace_disp_window (_argflag (self w)));
      ax ← call (dispdir arc window);
      set_dispaxis (Some ax)
  | CInt z =>
      if (z =? 0) || (z =? 1) then set_dispaxis (Some z)
      else msgs_error msg_direction
  | CStr _ => msgs_error msg_direction
  end.

(** Lines 176-179: warn when the dispersion axis is the shorter one. *)
Definition check_longest (det : Z) : M unit :=
  arc ← getslot a_msarc (det - 1); sh ← py_shape arc; s0 ← getitem sh 0;
  arc ← getslot a_msarc (det - 1); sh ← py_shape arc; s1 ← getitem sh 1;
  ax ← get_dispaxis;
  if (s1 <? s0)%nat then
    (if is_axis ax 1 then msg Warn msg_shorter else ret tt)
  else
    (if is_axis ax 0 then msg Warn msg_shorter else ret tt).

(** Lines 184-219, the body of [if self._dispaxis == 1], block by block. *)

(** Transpose the master bias frame, if it is an array. *)
Definition transpose_bias (det : Z) : M unit :=
  bias ← getslot a_msbias (det - 1);
  match bias with
  | PyNone => ret tt
  | PyStr _ => ret tt
  | PyArr _ =>
      bias ← getslot a_msbias (det - 1); t ← py_T bias;
      SetMasterFrame t "bias" det true
  end.

(** Transpose the master arc, and save it. *)
Definition transpose_arc (det : Z) : M unit :=
  arc ← getslot a_msarc (det - 1); t ← py_T arc;
  SetMasterFrame t "arc" det true.

(** Transpose the bad pixel mask. *)
Definition transpose_bpix (det : Z) : M unit :=
  bpix ← getslot a_bpix (det - 1);
  match bpix with
  | PyNone => ret tt
  | _ => bpix ← getslot a_bpix (det - 1); t ← py_T bpix; SetFrame a_bpix t det true
  end.

(** Transpose the amplifier sections frame. *)
Definition transpose_ampsec (det : Z) : M unit :=
  amp ← getslot a_ampsec (det - 1); t ← py_T amp;
  SetFrame a_ampsec t det true.

(** Update the keywords of the fits files. *)
Definition swap_keywords : M unit :=
  n ← gets (fun w => length (naxis0 (fitsdict w)));
  for_each (seq 0 n) swap_naxis.

(** Change the user-specified (x,y) pixel sizes. *)
Definition swap_gaps (det : Z) : M unit :=
  d ← getdet (det - 1);
  let tmp := xgap d in
  d ← getdet (det - 1);
  setdet (det - 1) (with_gaps (ygap d) (ygap d) d);;
  d ← getdet (det - 1);
  setdet (det - 1) (with_gaps (xgap d) tmp d).

Definition invert_ysize (det : Z) : M unit :=
  d ← getdet (det - 1);
  if PrimFloat.eqb (ysize d) 0 then raise ZeroDivisionError
  else setdet (det - 1) (with_ysize (1 / ysize d)%float d).

(** Update the amplifier/data/overscan sections. *)
Definition flip_all_sections (det : Z) : M unit :=
  d ← getdet (det - 1);
  for_each (range (numamplifiers d)) (flip_sections (det - 1)).

Definition transpose_frames (det : Z) : M unit :=
  msg Info "Transposing frames and keywords";;
  modify (with_self (with_transpose true));;
  transpose_bias det;;
  transpose_arc det;;
  transpose_bpix det;;
  transpose_ampsec det;;
  swap_keywords;;
  swap_gaps det;;
  invert_ysize det;;
  flip_all_sections det;;
  msg Work "Transpose gain and readnoise frames";;
  set_dispaxis (Some 0).

(** Line 221: [self._nspec[det-1], self._nspat[det-1] = self._msarc[det-1].shape] *)
Definition set_npix (det : Z) : M unit :=
  arc ← getslot a_msarc (det - 1); sh ← py_shape arc;
  match sh with
  | [a; b] =>
      ns ← gets (fun w => _nspec (self w));
      match py_index (length ns) (det - 1) with
      | None => raise IndexError
      | Some k =>
          modify (with_self (fun s => with_npix (<[k := Some a]> (_nspec s)) (_nspat s) s));;
          np ← gets (fun w => _nspat (self w));
          match py_index (length np) (det - 1) with
          | None => raise IndexError
          | Some k =>
              modify (with_self (fun s => with_npix (_nspec s) (<[k := Some b]> (_nspat s)) s))
          end
      end
  | _ => raise (ValueError "unpack")
  end.

(** [GetDispersionDirection(self, fitsdict, det)]; the [fitsdict] argument is
    the object held in the world, and it is what the call returns. *)
Definition GetDispersionDirection (det : Z) : M FitsDict :=
  detect_axis det;;
  check_longest det;;
  ax ← get_dispaxis;
  (if is_axis ax 1 then transpose_frames det else ret tt);;
  set_npix det;;
  gets fitsdict.

End GeometryState.

(** ** Building the master frames *)

(** [satlevel=] is handed a single level or the whole per-detector list. *)
Inductive satlevel := SatOne (f : float) | SatAll (l : list float).

Definition store (l : loc) (a : ndarray) : M unit :=
  fun w => match heap w !! l with
           | Some _ => Ret tt {| self := self w; heap := <[l := a]> (heap w);
                                 fitsdict := fitsdict w; msgs := msgs w |}
           | None => Raise Dangling w
           end.

(** [sub[:, :, i] = x] on the buffers: [sub] has shape [(r, c, k)] and [x]
    shape [(r, c)]; any other combination of shapes is reported as numpy's
    broadcast error. *)
Definition set_plane (sub : ndarray) (i : nat) (x : ndarray) : exn + ndarray :=
  match shape sub with
  | [r; c; k] =>
      if decide (shape x = [r; c] ∧ (i < k)%nat) then
        inr {| dtype_of := dtype_of sub; shape := shape sub;
               data := imap (fun j v => if (j mod k =? i)%nat
                                        then default v (data x !! (j / k)%nat) else v)
                            (data sub) |}
      else inl (ValueError "could not broadcast input array")
  | _ => inl (ValueError "could not broadcast input array")
  end.

Definition dtype_join (a b : dtype) : dtype :=
  match a, b with
  | DObject, _ | _, DObject => DObject
  | DInt, DInt => DInt
  | _, _ => DFloat
  end.

Definition derefs (l : list pyobj) : M (option (list ndarray)) :=
  fun w => Ret (mapM (fun o => match o with PyArr k => heap w !! k | _ => None end) l) w.

Section Calibration.

(** The collaborators, named as the code calls them. *)
Variable load_frames :
  list Z -> Z -> string -> option pyobj -> option bool -> option bool -> extern ndarray.
Variable match_frames :
  pyobj -> float -> bool -> string -> satlevel -> extern (list ndarray).
Variable comb_frames :
  pyobj -> Z -> string -> option (list nat) -> kwargs -> extern ndarray.
Variable load_master : string -> bool -> option string -> extern ndarray.
Variable flatnorm : Z -> pyobj -> extern (ndarray * ndarray).
(** [np.array] of a list that is neither empty, nor all [None], nor arrays of
    one common shape: what numpy makes of it depends on its version. *)
Variable np_array_ragged : list pyobj -> extern ndarray.

Definition call_arr (f : extern ndarray) : M pyobj :=
  a ← call f; l ← alloc a; ret (PyArr l).

(** The loop over the sub-groups: each is combined to a sub-master that is
    stored in plane [i] of [subframes]; [numarr] collects the group sizes. *)
Fixpoint sub_masters (sframes : list pyobj) (i : nat) (subframes : loc) (numarr : list nat)
         (det : Z) (frametype : string) (comb : kwargs) : M (list nat) :=
  match sframes with
  | [] => ret numarr
  | sf :: rest =>
      sh ← py_shape sf; n ← getitem sh 2;
      let numarr := (numarr ++ [n])%list in
      ms ← call_arr (comb_frames sf det frametype None comb);
      cp ← py_copy ms;
      x ← match cp with PyArr l => deref l | _ => raise Dangling end;
      sub ← deref subframes;
      match set_plane sub i x with
      | inl e => raise e
      | inr sub' => store subframes sub'
      end;;
      sub_masters rest (S i) subframes numarr det frametype comb
  end.

(** From the matched groups to the final master: [np.zeros], the loop, and the
    weighted combination of the sub-masters. *)
Definition combine_groups (frames : pyobj) (sframes : list ndarray) (det : Z)
           (frametype : string) (comb : kwargs) : M pyobj :=
  sfs ← mapM (fun a => l ← alloc a; ret (PyArr l)) sframes;
  sh ← py_shape frames; r ← getitem sh 0;
  sh ← py_shape frames; c ← getitem sh 1;
  subframes ← alloc (np_zeros DFloat [r; c; length sfs]);
  numarr ← sub_masters sfs 0 subframes [] det frametype comb;
  call_arr (comb_frames (PyArr subframes) det frametype (Some numarr) comb).

(** [MasterArc(self, fitsdict, det)] *)
Definition MasterArc (det : Z) : M bool :=
  cur ← getslot a_msarc (det - 1);
  match cur with
  | PyNone =>
      af ← gets (fun w => _argflag (self w));
      (if String.eqb (reduce_usearc af) "arc" then
         msg Info "Preparing a master arc frame";;
         ind ← gets (fun w => _idx_arcs (self w));
         bias ← getslot a_msbias (det - 1);
         frames ← call_arr (load_frames ind det "arc" (Some bias) None None);
         if PrimFloat.ltb 0 (reduce_arcmatch af) then
           (* satlevel=self._spect['det']['saturation']*...: a list indexed by a str *)
           raise (TypeError "list indices must be integers, not str")
         else
           call_arr (comb_frames frames det "arc" None (arc_comb af))
       else
         let msarc_name := run_masterdir af +:+ "/" +:+ reduce_usearc af in
         call_arr (load_master msarc_name false None))
      ≫= fun msarc =>
      SetMasterFrame msarc "arc" det true;;
      ret true
  | _ =>
      msg Info "An identical master arc frame already exists";;
      ret false
  end.

(** [MasterBias(self, fitsdict, det)] *)
Definition MasterBias (det : Z) : M bool :=
  cur ← getslot a_msbias (det - 1);
  af ← gets (fun w => _argflag (self w));
  let usebias := reduce_usebias af in
  match cur with
  | PyNone =>
      if String.eqb usebias "bias" || String.eqb usebias "dark" then
        msg Info ("Preparing a master " +:+ usebias +:+ " frame");;
        ind ← gets (fun w => _idx_bias (self w));
        tr ← gets (fun w => _transpose (self w));
        frames ← call_arr (load_frames ind det usebias None None (Some tr));
        msbias ← call_arr (comb_frames frames det usebias None (bias_comb af));
        SetMasterFrame msbias "bias" det true;;
        ret true
      else if String.eqb usebias "overscan" then
        SetMasterFrame (PyStr "overscan") "bias" det false;;
        ret false
      else if String.eqb usebias "none" then
        msg Info "Not performing a bias/dark subtraction";;
        SetMasterFrame PyNone "bias" det false;;
        ret false
      else
        let msbias_name := run_masterdir af +:+ "/" +:+ usebias in
        msbias ← call_arr (load_master msbias_name false (Some "bias"));
        SetMasterFrame msbias "bias" det true;;
        ret true
  | _ =>
      msg Info ("An identical master " +:+ usebias +:+ " frame already exists");;
      ret false
  end.

(** [MasterTrace(self, fitsdict, det)] *)
Definition MasterTrace (det : Z) : M bool :=
  cur ← getslot a_mstrace (det - 1);
  match cur with
  | PyNone =>
      af ← gets (fun w => _argflag (self w));
      let usetrace := reduce_usetrace af in
      (if String.eqb usetrace "trace" || String.eqb usetrace "blzflat" then
         msg Info ("Preparing a master trace frame with " +:+ usetrace);;
         ind ← gets (fun w => _idx_trace (self w));
         bias ← getslot a_msbias (det - 1);
         tr ← gets (fun w => _transpose (self w));
         frames ← call_arr (load_frames ind det "trace" (Some bias)
                                        (Some (reduce_trim af)) (Some tr));
         if PrimFloat.ltb 0 (reduce_flatmatch af) then
           d ← getdet (det - 1);
           d' ← getdet (det - 1);
           sframes ← call (match_frames frames (reduce_flatmatch af) true "trace"
                                        (SatOne (saturation d * nonlinear d')%float));
           combine_groups frames sframes det "trace" (trace_comb af)
         else
           call_arr (comb_frames frames det "trace" None (trace_comb af))
       else if String.eqb usetrace "science" then
         msgs_error "Tracing with a science frame is not yet implemented"
       else
         let mstrace_name := run_masterdir af +:+ "/" +:+ usetrace in
         call_arr (load_master mstrace_name false None))
      ≫= fun mstrace =>
      SetMasterFrame mstrace "trace" det true;;
      ret true
  | _ =>
      msg Info "An identical master trace frame already exists";;
      ret false
  end.

(** [np.ones_like(l)] for a Python list [l] of slot values. *)
Definition np_ones_like_list (l : list pyobj) : M pyobj :=
  arrs ← derefs l;
  match l, arrs with
  | [], _ => call_arr (fun _ => inr (np_ones DFloat [0%nat]))
  | _, Some (a :: rest) =>
      if forallb (fun b => bool_decide (shape b = shape a)) rest then
        call_arr (fun _ => inr (np_ones (fold_right dtype_join (dtype_of a) (map dtype_of rest))
                                        (length l :: shape a)))
      else a ← call (np_array_ragged l);
           call_arr (fun _ => inr (np_ones (dtype_of a) (shape a)))
  | _, _ =>
      if forallb (fun o => match o with PyNone => true | _ => false end) l then
        call_arr (fun _ => inr (np_ones DObject [length l]))
      else a ← call (np_array_ragged l);
           call_arr (fun _ => inr (np_ones (dtype_of a) (shape a)))
  end.

(** [MasterFlatField(self, fitsdict, det)] *)
Definition MasterFlatField (det : Z) : M bool :=
  af ← gets (fun w => _argflag (self w));
  if reduce_flatfield af then
    cur ← getslot a_mspixflat (det - 1);
    match cur with
    | PyNone =>
        (if String.eqb (reduce_useflat af) "pixflat" || String.eqb (reduce_useflat af) "blzflat"
         then
           msg Info ("Preparing a master pixel flat frame with " +:+ reduce_useflat af);;
           ind ← gets (fun w => _idx_flat (self w));
           bias ← getslot a_msbias (det - 1);
           tr ← gets (fun w => _transpose (self w));
           frames ← call_arr (load_frames ind det "pixel flat" (Some bias) None (Some tr));
           if PrimFloat.ltb 0 (reduce_flatmatch af) then
             nl ← gets (fun w => _nonlinear (self w));
             sframes ← call (match_frames frames (reduce_flatmatch af) false "pixel flat"
                                          (SatAll nl));
             combine_groups frames sframes det "pixel flat" (pixflat_comb af)
           else
             call_arr (comb_frames frames det "pixel flat" None (pixflat_comb af))
         else
           match reduce_usepixflat af with
           | None => raise (KeyError "usepixflat")
           | Some f =>
               let mspixflat_name := run_masterdir af +:+ "/" +:+ f in
               call_arr (load_master mspixflat_name true None)
           end)
        ≫= fun mspixflat =>
        '(nrm, blaze) ← call (flatnorm det mspixflat);
        mspixflatnrm ← call_arr (fun _ => inr nrm);
        msblaze ← call_arr (fun _ => inr blaze);
        SetFrame a_msblaze msblaze det true;;
        SetMasterFrame mspixflat "pixflat" det true;;
        SetMasterFrame mspixflatnrm "normpixflat" det true;;
        ret true
    | _ =>
        msg Info "An identical master pixflat frame already exists";;
        nrm ← getslot a_mspixflatnrm (det - 1);
        match nrm with
        | PyNone =>
            msg Info "Normalizing the pixel flat";;
            pf ← GetMasterFrame "pixflat" det true;
            '(nrm, blaze) ← call (flatnorm det pf);
            mspixflatnrm ← call_arr (fun _ => inr nrm);
            msblaze ← call_arr (fun _ => inr blaze);
            SetFrame a_msblaze msblaze det true;;
            SetMasterFrame mspixflatnrm "normpixflat" det true
        | _ => ret tt
        end;;
        ret false
    end
  else
    msg Work "Pixel Flat arrays need to be generated when not flat fielding";;
    msg Bug "Blaze is currently undefined";;
    msarc ← gets (fun w => _msarc (_frames (self w)));
    mspixflat ← np_ones_like_list msarc;
    msarc ← gets (fun w => _msarc (_frames (self w)));
    mspixflatnrm ← np_ones_like_list msarc;
    SetMasterFrame mspixflat "pixflat" det true;;
    SetMasterFrame mspixflatnrm "normpixflat" det true;;
    ret true.

End Calibration.

(** ** Bad-pixel-mask generators of [pypit/spectrographs] *)

Module Spectrographs.

(** What a method leaves behind it: its return value ([None] is Python's
    [None]) and the instance, or an exception and the instance. *)
Record instance := {
  spectrograph : string;
  inst_shape : option (list nat);   (* [self.shape], when a caller has set it *)
  inst_bpm : option ndarray;        (* [self.bpm], when it is bound on the instance *)
  inst_log : list string
}.

Definition tuple_item (t : list nat) (i : nat) : exn + nat :=
  match t !! i with Some x => inr x | None => inl IndexError end.

(** [a[:, lo:hi] = v] on a 2-D array, with the slice bounds given as a test on
    the column index. *)
Definition set_columns (sel : nat -> bool) (v : float) (a : ndarray) : ndarray :=
  match shape a with
  | [r; c] => {| dtype_of := dtype_of a; shape := shape a;
                 data := imap (fun j x => if sel (j mod c)%nat then v else x) (data a) |}
  | _ => a
  end.

(** [Spectrograph.bpm(self, shape=None, **null_kwargs)] *)
Definition bpm (self : instance) (shape : option (list nat))
  : (exn + option ndarray) * instance :=
  match shape with
  | None => (inl (TypeError "'NoneType' object is not subscriptable"), self)
  | Some sh =>
      match tuple_item sh 0, tuple_item sh 1 with
      | inr s0, inr s1 => (inr (Some (np_zeros DInt [s0; s1])), self)
      | inl e, _ | _, inl e => (inl e, self)
      end
  end.

(** [KeckNIRSPECSpectrograph.bpm(self, shape=None, **null_kwargs)]: the mask is
    built from [self.shape] and bound to [self.bpm]; the body has no
    [return]. *)
Definition KeckNIRSPEC_bpm (self : instance) (shape : option (list nat))
  : (exn + option ndarray) * instance :=
  let self := {| spectrograph := spectrograph self; inst_shape := inst_shape self;
                 inst_bpm := inst_bpm self;
                 inst_log := (inst_log self ++ ["Custom bad pixel mask for NIRSPEC"])%list |} in
  match inst_shape self with
  | None => (inl (AttributeError "'KeckNIRSPECSpectrograph' object has no attribute 'shape'"),
             self)
  | Some sh =>
      match tuple_item sh 0, tuple_item sh 1 with
      | inr s0, inr s1 =>
          let m := np_zeros DFloat [s0; s1] in
          let m := set_columns (fun j => j <? 20)%nat 1%float m in
          let m := set_columns (fun j => 1000 <=? j)%nat 1%float m in
          (inr None,
           {| spectrograph := spectrograph self; inst_shape := inst_shape self;
              inst_bpm := Some m; inst_log := inst_log self |})
      | inl e, _ | _, inl e => (inl e, self)
      end
  end.

Definition KeckNIRSPEC : instance :=
  {| spectrograph := "keck_nirspec"; inst_shape := None; inst_bpm := None; inst_log := [] |}.

End Spectrographs.

(** * Vocabulary of the statements *)

(** The slot list a master-frame kind is stored in, as [SetMasterFrame] and
    [GetMasterFrame] dispatch on it. *)
Definition kind_attr (ftype : string) : option attr :=
  if String.eqb ftype "arc" then Some a_msarc
  else if String.eqb ftype "bias" then Some a_msbias
  else if String.eqb ftype "normpixflat" then Some a_mspixflatnrm
  else if String.eqb ftype "pixflat" then Some a_mspixflat
  else if String.eqb ftype "trace" then Some a_mstrace
  else None.

Definition slots_of (a : attr) (w : world) : list pyobj := slot a (_frames (self w)).

(** The world after [slots[k] = v] on the list [a]. *)
Definition put_slot (a : attr) (k : nat) (v : pyobj) (w : world) : world :=
  with_self (with_frames (set_slot a (<[k := v]> (slots_of a w)))) w.

Arguments put_slot a k%_nat_scope v w.

(** Slot [k] of the list [a] refers to an array whose contents are [arr]. *)
Definition frame_is (w : world) (a : attr) (k : nat) (arr : ndarray) : Prop :=
  exists l, slots_of a w !! k = Some (PyArr l) /\ heap w !! l = Some arr.

(** ** Concrete exposures *)

Definition arc23 : ndarray :=
  {| dtype_of := DFloat; shape := [2; 3]%nat; data := [1; 2; 3; 4; 5; 6]%float |}.

Definition amp23 : ndarray :=
  {| dtype_of := DInt; shape := [2; 3]%nat; data := [1; 1; 1; 2; 2; 2]%float |}.

Definition sec0 : section := [[0; 1024]; [0; 2048]].

Definition detpar0 : DetPar :=
  {| xgap := 0; ygap := 1; ysize := 2; saturation := 65535; nonlinear := 0.5;
     numamplifiers := 1;
     ampsec := {[ 1%nat := sec0 ]}; datasec := {[ 1%nat := sec0 ]};
     oscansec := {[ 1%nat := sec0 ]} |}.

Definition argflag0 (direction : cfgval) (flatfield : bool) (mode : string) : ArgFlag :=
  {| reduce_usebias := mode; reduce_usearc := mode; reduce_usetrace := mode;
     reduce_useflat := "pixflat"; reduce_usepixflat := None;
     reduce_flatfield := flatfield; reduce_arcmatch := (-1)%float;
     reduce_flatmatch := (-1)%float; reduce_trim := true;
     trace_disp_direction := direction; trace_disp_window := CNone;
     run_masterdir := "MasterFrames";
     arc_comb := []; bias_comb := []; trace_comb := []; pixflat_comb := [] |}.

(** The exposure as [__init__] leaves it: every slot of every detector [None]. *)
Definition fresh (ndet : nat) (af : ArgFlag) : world :=
  let none := replicate ndet PyNone in
  {| self := {| _argflag := af; _det := replicate ndet detpar0; _transpose := false;
                _idx_arcs := [0]; _idx_bias := [1]; _idx_trace := [2]; _idx_flat := [3];
                _nonlinear := replicate ndet 32767.5%float; _dispaxis := None;
                _nspec := replicate ndet None; _nspat := replicate ndet None;
                _frames := {| _ampsec := none; _bpix := none; _msarc := none;
                              _msbias := none; _mstrace := none; _mspixflat := none;
                              _mspixflatnrm := none; _msblaze := none |} |};
     heap := []; fitsdict := {| naxis0 := [2; 2; 2]; naxis1 := [3; 3; 3] |}; msgs := [] |}.

Definition with_heap (h : list ndarray) (w : world) : world :=
  {| self := self w; heap := h; fitsdict := fitsdict w; msgs := msgs w |}.

(** One detector with its master arc stored, and nothing else. *)
Definition arc_only (af : ArgFlag) : world :=
  put_slot a_msarc 0 (PyArr 0) (with_heap [arc23] (fresh 1 af)).

(** One detector, and two, with the master arc and the amplifier frame stored. *)
Definition loaded (af : ArgFlag) : world :=
  put_slot a_ampsec 0 (PyArr 1) (put_slot a_msarc 0 (PyArr 0)
    (with_heap [arc23; amp23] (fresh 1 af))).

Definition loaded2 (af : ArgFlag) : world :=
  put_slot a_ampsec 1 (PyArr 3) (put_slot a_msarc 1 (PyArr 2)
    (put_slot a_ampsec 0 (PyArr 1) (put_slot a_msarc 0 (PyArr 0)
      (with_heap [arc23; amp23; arc23; amp23] (fresh 2 af))))).

(** Collaborators for the concrete runs. *)
Definition dispdir_const (z : Z) : pyobj -> cfgval -> extern Z := fun _ _ _ => inr z.

(** The world after one more line in the log. *)
Definition logged (l : level) (s : string) (w : world) : world :=
  {| self := self w; heap := heap w; fitsdict := fitsdict w; msgs := msgs w ++ [(l, s)] |}.

(** The product of kind [a] is already stored for detector [det]. *)
Definition cached (a : attr) (det : Z) (w : world) : Prop :=
  exists k o, py_index (length (slots_of a w)) (det - 1) = Some k /\
              slots_of a w !! k = Some o /\ o <> PyNone.

(** Collaborators that are never reached, and a normalization that answers. *)
Definition no_frames :
  list Z -> Z -> string -> option pyobj -> option bool -> option bool -> extern ndarray :=
  fun _ _ _ _ _ _ _ => inl (External "load_frames").
Definition no_match : pyobj -> float -> bool -> string -> satlevel -> extern (list ndarray) :=
  fun _ _ _ _ _ _ => inl (External "match_frames").
Definition no_comb : pyobj -> Z -> string -> option (list nat) -> kwargs -> extern ndarray :=
  fun _ _ _ _ _ _ => inl (External "comb_frames").
Definition no_master : string -> bool -> option string -> extern ndarray :=
  fun _ _ _ _ => inl (External "IOError: no such master frame").
Definition no_ragged : list pyobj -> extern ndarray :=
  fun _ _ => inl (ValueError "inhomogeneous shape").
Definition flatnorm_const : Z -> pyobj -> extern (ndarray * ndarray) :=
  fun _ _ _ => inr (arc23, amp23).

(** One detector whose pixel flat is stored and whose normalized flat is not. *)
Definition flat_only (af : ArgFlag) : world :=
  put_slot a_mspixflat 0 (PyArr 0) (with_heap [arc23] (fresh 1 af)).

(** What loading a saved master by name amounts to: the loader's failure as it
    is, or its frame allocated, copied into slot [k] of the list [a], and
    [True]. *)
Definition loads_named_master (load_master : string -> bool -> option string -> extern ndarray)
           (name : string) (frametype : option string) (a : attr) (k : nat) (w : world)
  : outcome bool :=
  match load_master name false frametype w with
  | inl e => Raise e w
  | inr arr =>
      Ret true (put_slot a k (PyArr (S (length (heap w)))) (with_heap (heap w ++ [arr; arr]) w))
  end.

(** A loader that knows exactly one saved master. *)
Definition master_named (n : string) : string -> bool -> option string -> extern ndarray :=
  fun name _ _ _ =>
    if String.eqb name n then inr arc23 else inl (External "IOError: no such master frame").

(** ** Observations on a detector, by its number *)

(** What the list [a] holds for detector [det], the array it refers to, and the
    detector's parameters; [None] where the code would raise. *)
Definition slot_at (a : attr) (det : Z) (w : world) : option pyobj :=
  match py_index (length (slots_of a w)) (det - 1) with
  | Some k => slots_of a w !! k
  | None => None
  end.

Definition arr_at (a : attr) (det : Z) (w : world) : option ndarray :=
  match slot_at a det w with
  | Some (PyArr l) => heap w !! l
  | _ => None
  end.

Definition det_at (det : Z) (w : world) : option DetPar :=
  match py_index (length (_det (self w))) (det - 1) with
  | Some k => _det (self w) !! k
  | None => None
  end.

(** ** The flipped world, written out *)

(** Slot [det - 1] of [a] made to refer to a new copy of the transpose of
    [arr]; the transposed view and its copy are the two new heap cells. *)
Definition retarget (a : attr) (det : Z) (arr : ndarray) (w : world) : world :=
  match py_index (length (slots_of a w)) (det - 1) with
  | Some k => put_slot a k (PyArr (S (length (heap w))))
                       (with_heap (heap w ++ [T arr; T arr]) w)
  | None => w
  end.

Definition flip_slot (a : attr) (det : Z) (w : world) : world :=
  match arr_at a det w with
  | Some arr => retarget a det arr w
  | None => w
  end.

Definition swap_fits (fd : FitsDict) : FitsDict :=
  let n := length (naxis0 fd) in
  {| naxis0 := take n (naxis1 fd);
     naxis1 := naxis0 fd ++ drop n (naxis1 fd) |}.

Definition with_fits (fd : FitsDict) (w : world) : world :=
  {| self := self w; heap := heap w; fitsdict := fd; msgs := msgs w |}.

(** One round of the loop over the amplifiers, on the parameters. *)
Definition flip_one (i : nat) (d : DetPar) : DetPar :=
  with_secs (alter (@rev (list Z)) (S i) (ampsec d)) (alter (@rev (list Z)) (S i) (datasec d))
            (alter (@rev (list Z)) (S i) (oscansec d)) d.

Definition flip_secs (n : Z) (m : gmap nat section) : gmap nat section :=
  foldl (fun m i => alter (@rev (list Z)) (S i) m) m (range n).

Definition flip_det (d : DetPar) : DetPar :=
  {| xgap := ygap d; ygap := xgap d; ysize := (1 / ysize d)%float;
     saturation := saturation d; nonlinear := nonlinear d;
     numamplifiers := numamplifiers d;
     ampsec := flip_secs (numamplifiers d) (ampsec d);
     datasec := flip_secs (numamplifiers d) (datasec d);
     oscansec := flip_secs (numamplifiers d) (oscansec d) |}.

Definition put_det (det : Z) (d : DetPar) (w : world) : world :=
  match py_index (length (_det (self w))) (det - 1) with
  | Some k => with_self (with_det (fun l => <[k := d]> l)) w
  | None => w
  end.

Definition flip_params (det : Z) (w : world) : world :=
  match det_at det w with
  | Some d => put_det det (flip_det d) w
  | None => w
  end.

Definition put_npix (det : Z) (w : world) : world :=
  match arr_at a_msarc det w with
  | Some a =>
      match shape a, py_index (length (_nspec (self w))) (det - 1),
            py_index (length (_nspat (self w))) (det - 1) with
      | [r; c], Some k, Some k' =>
          with_self (fun s => with_npix (<[k := Some r]> (_nspec s))
                                        (<[k' := Some c]> (_nspat s)) s) w
      | _, _, _ => w
      end
  | None => w
  end.

Definition warn_if (b : bool) (w : world) : world :=
  if b then logged Warn msg_shorter w else w.

(** The world the transposing branch ends in, and the world the whole call ends
    in when it takes that branch. *)
Definition transposed (det : Z) (w : world) : world :=
  let w := logged Info "Transposing frames and keywords" w in
  let w := with_self (with_transpose true) w in
  let w := flip_slot a_msbias det w in
  let w := flip_slot a_msarc det w in
  let w := flip_slot a_bpix det w in
  let w := flip_slot a_ampsec det w in
  let w := with_fits (swap_fits (fitsdict w)) w in
  let w := flip_params det w in
  let w := logged Work "Transpose gain and readnoise frames" w in
  with_self (with_dispaxis (Some 0)) w.

Definition longer_rows (det : Z) (w : world) : bool :=
  match arr_at a_msarc det w with
  | Some a => match shape a with
              | r :: c :: _ => (c <? r)%nat
              | _ => false
              end
  | None => false
  end.

Definition normalized (det : Z) (w : world) : world :=
  let w := with_self (with_dispaxis (Some 1)) w in
  let w := warn_if (longer_rows det w) w in
  put_npix det (transposed det w).

(** The detector is ready to be normalized: everything the transposing branch
    dereferences is there. *)
Definition sections_present (d : DetPar) : Prop :=
  forall i, In i (range (numamplifiers d)) ->
            is_Some (ampsec d !! S i) /\ is_Some (datasec d !! S i) /\
            is_Some (oscansec d !! S i).

Definition ready (det : Z) (w : world) : Prop :=
  (exists a r c, arr_at a_msarc det w = Some a /\ shape a = [r; c]) /\
  (slot_at a_msbias det w = Some PyNone \/ (exists s, slot_at a_msbias det w = Some (PyStr s)) \/
   is_Some (arr_at a_msbias det w)) /\
  (slot_at a_bpix det w = Some PyNone \/ is_Some (arr_at a_bpix det w)) /\
  is_Some (arr_at a_ampsec det w) /\
  (length (naxis0 (fitsdict w)) <= length (naxis1 (fitsdict w)))%nat /\
  (exists d, det_at det w = Some d /\ PrimFloat.eqb (ysize d) 0 = false /\
             sections_present d) /\
  is_Some (py_index (length (_nspec (self w))) (det - 1)) /\
  is_Some (py_index (length (_nspat (self w))) (det - 1)).

(** The dispersion axis comes out as 1: configured so, or detected so. *)
Definition axis_one (dispdir : pyobj -> cfgval -> extern Z) (det : Z) (w : world) : Prop :=
  trace_disp_direction (_argflag (self w)) = CInt 1 \/
  (trace_disp_direction (_argflag (self w)) = CNone /\
   exists o, slot_at a_msarc det w = Some o /\
             dispdir o (trace_disp_window (_argflag (self w))) w = inr 1).

(** The sections of amplifier [n] of [d'] are those of [d], order reversed. *)
Definition sections_reversed (d d' : DetPar) : Prop :=
  forall n : nat, (1 <= n)%nat -> Z.of_nat n <= numamplifiers d ->
    ampsec d' !! n = @rev (list Z) <$> ampsec d !! n /\
    datasec d' !! n = @rev (list Z) <$> datasec d !! n /\
    oscansec d' !! n = @rev (list Z) <$> oscansec d !! n.

(** The frames the transposing branch transposes. *)
Definition dependent_frames : list attr := [a_msarc; a_msbias; a_bpix; a_ampsec].

(** The same detector with a pixel size of zero. *)
Definition zero_size (w : world) : world := put_det 1 (with_ysize 0 detpar0) w.

(** ** Frame conditions *)

(** Every world a computation can end in, returning or raising, is related to
    the world it started from. *)
Definition respects (R : world -> world -> Prop) {A} (m : M A) : Prop :=
  forall w, R w (final (m w)).

(** The headers and the configuration are as they were. *)
Definition same_headers (w w' : world) : Prop :=
  fitsdict w' = fitsdict w /\ _argflag (self w') = _argflag (self w).

(** Nothing but the log has changed. *)
Definition same_exposure (w w' : world) : Prop :=
  self w' = self w /\ heap w' = heap w /\ fitsdict w' = fitsdict w.

(** Both header lists exchanged. *)
Definition swapped (fd : FitsDict) : FitsDict := {| naxis0 := naxis1 fd; naxis1 := naxis0 fd |}.

(** The geometry step of the pipeline, run for one detector after another. *)
Definition normalize_all (dispdir : pyobj -> cfgval -> extern Z) (dets : list Z) : M unit :=
  for_each dets (fun det => GetDispersionDirection dispdir det;; ret tt).


(** * Further code of the same modules *)

(** ** Results without a world: a value or an exception *)

#[export] Instance exn_ret : MRet (sum exn) := fun A a => inr a.
#[export] Instance exn_bind : MBind (sum exn) :=
  fun A B k x => match x with inl e => inl e | inr a => k a end.

(** [l[i]] outside the exposure. *)
Definition item {A} (l : list A) (i : Z) : exn + A :=
  match py_index (length l) i with
  | Some k => match l !! k with Some x => inr x | None => inl IndexError end
  | None => inl IndexError
  end.

(** ** [BadPixelMask] *)

Section BadPixels.

(** [arproc.badpix(self, det, frame)] *)
Variable badpix : Z -> pyobj -> extern ndarray.

(** [BadPixelMask(self, det)].  The entry [argflag['reduce']['badpix']], which
    is not among the entries of [ArgFlag], is the first argument. *)
Definition BadPixelMask (reduce_badpix : bool) (det : Z) : M bool :=
  if reduce_badpix then
    msg Info "Preparing a bad pixel mask";;
    idx ← gets (fun w => _idx_bias (self w));
    if (length idx =? 0)%nat then
      msg Warn "No bias frames available to determine bad pixel mask";;
      msg Info "Not preparing a bad pixel mask";;
      ret false
    else
      bias ← GetMasterFrame "bias" det true;
      bpix ← call_arr (badpix det bias);
      SetFrame a_bpix bpix det true;;
      ret true
  else
    msg Info "Not preparing a bad pixel mask";;
    ret false.

End BadPixels.

(** ** [__init__] and [SetBaseName] *)

(** The entries of [spect] that the constructor reads: for each role the list
    [spect[role]['index']], one list of frame indices per science frame. *)
Record Spect := {
  science_index : list (list Z);
  arc_index : list (list Z);
  trace_index : list (list Z);
  bias_index : list (list Z);
  dark_index : list (list Z);
  blzflat_index : list (list Z);
  pixflat_index : list (list Z);
  mosaic_ndet : Z;
  spect_det : list DetPar
}.

(** The columns of [fitsdict] that the constructor reads. *)
Record Headers := {
  hd_target : list string;
  hd_date : list string;
  hd_time : list float
}.

(** What the constructor leaves on the new object: the attributes of
    [ScienceExposure] and the four that the record does not hold. *)
Record Constructed := {
  c_self : ScienceExposure;
  c_idx_sci : list Z;
  c_basename : string;
  c_target_name : string;
  c_qa : string
}.

(** [c in s] for a one-character [c], [s.split(c)] and [s.replace(c, "")]. *)
Definition has_char (c : Ascii.ascii) (s : string) : bool :=
  existsb (Ascii.eqb c) (String.list_ascii_of_string s).

Fixpoint split_chars (c : Ascii.ascii) (cur : list Ascii.ascii) (s : list Ascii.ascii)
  : list string :=
  match s with
  | [] => [String.string_of_list_ascii (rev cur)]
  | x :: s' => if Ascii.eqb x c then String.string_of_list_ascii (rev cur) :: split_chars c [] s'
               else split_chars c (x :: cur) s'
  end.

Definition py_split (c : Ascii.ascii) (s : string) : list string :=
  split_chars c [] (String.list_ascii_of_string s).

Definition py_remove (c : Ascii.ascii) (s : string) : string :=
  String.string_of_list_ascii (filter (fun x => negb (Ascii.eqb x c))
                                     (String.list_ascii_of_string s)).

Section Constructor.

(** The date and time library, and the QA document. *)
Variable datetime : Type.
Variable mjd_isot : float -> exn + string.          (* Time(mjd, scale='tt', format='mjd').isot *)
Variable strptime : string -> exn + datetime.       (* format '%Y-%m-%dT%H:%M:%S.%f' *)
Variable strftime : datetime -> string.             (* format '%Y%b%dT' *)
Variable PdfPages : string -> exn + unit.

(** [SetBaseName(self, fitsdict)], returning the new [self._basename]. *)
Definition SetBaseName (idx_sci : list Z) (fd : Headers) : exn + string :=
  scidx ← item idx_sci 0;
  date ← item (hd_date fd) scidx;
  tbname ← (if has_char "T"%char date then item (hd_date fd) scidx
            else t ← item (hd_time fd) scidx; mjd_isot (t / 24)%float);
  tval ← strptime tbname;
  rest ← item (py_split "T"%char tbname) 1;
  mret (strftime tval +:+ rest).

(** [__init__(self, snum, argflag, spect, fitsdict)].  The entry
    [argflag['run']['plotsdir']] is the first argument. *)
Definition init (run_plotsdir : string) (snum : Z) (argflag : ArgFlag) (spect : Spect)
           (fd : Headers) : exn + Constructed :=
  idx_sci ← item (science_index spect) snum;
  idx_arcs ← item (arc_index spect) snum;
  _ ← item (trace_index spect) snum;
  idx_bias ← (if String.eqb (reduce_usebias argflag) "bias" then item (bias_index spect) snum
              else if String.eqb (reduce_usebias argflag) "dark"
                   then item (dark_index spect) snum
                   else inr []);
  idx_trace ← (if String.eqb (reduce_usetrace argflag) "trace"
               then item (trace_index spect) snum
               else if String.eqb (reduce_usetrace argflag) "blzflat"
                    then item (blzflat_index spect) snum
                    else inr []);
  idx_flat ← (if String.eqb (reduce_useflat argflag) "pixflat"
              then item (pixflat_index spect) snum
              else if String.eqb (reduce_useflat argflag) "blzflat"
                   then item (blzflat_index spect) snum
                   else inr []);
  basename ← SetBaseName idx_sci fd;
  scidx ← item idx_sci 0;
  target ← item (hd_target fd) scidx;
  let qafn := run_plotsdir +:+ "/QA_" +:+ basename +:+ ".pdf" in
  _ ← PdfPages qafn;
  let ndet := mosaic_ndet spect in
  nonlin ← mapM (fun det : nat =>
                   d ← item (spect_det spect) (Z.of_nat det - 1);
                   d' ← item (spect_det spect) (Z.of_nat det - 1);
                   mret (saturation d * nonlinear d')%float) (range ndet);
  let none := replicate (Z.to_nat ndet) PyNone in
  mret {| c_self := {| _argflag := argflag; _det := spect_det spect; _transpose := false;
                       _idx_arcs := idx_arcs; _idx_bias := idx_bias; _idx_trace := idx_trace;
                       _idx_flat := idx_flat; _nonlinear := nonlin; _dispaxis := None;
                       _nspec := replicate (Z.to_nat ndet) None;
                       _nspat := replicate (Z.to_nat ndet) None;
                       _frames := {| _ampsec := none; _bpix := none; _msarc := none;
                                     _msbias := none; _mstrace := none; _mspixflat := none;
                                     _mspixflatnrm := none; _msblaze := none |} |};
          c_idx_sci := idx_sci; c_basename := basename;
          c_target_name := py_remove " "%char target; c_qa := qafn |}.

End Constructor.

(** The world in which a newly constructed exposure starts its reduction. *)
Definition start (c : Constructed) (fd : FitsDict) : world :=
  {| self := c_self c; heap := []; fitsdict := fd; msgs := [] |}.

(** ** The generic [Spectrograph] class *)

Module SpectrographClass.

(** A [DetectorPar] parameter set, by the keys the class reads. *)
Record DetectorPar := {
  par_dataext : Z;
  par_dispaxis : Z;
  par_datasec : list string;
  par_oscansec : list string
}.

(** [self.detector]: [None], one parameter set, or a list of them. *)
Inductive detector_attr :=
| DetNone
| DetOne (p : DetectorPar)
| DetList (l : list DetectorPar).

(** One header-data unit of an opened FITS file. *)
Record hdu := { hdu_data : option ndarray; hdu_header : string }.

Definition astype_float (a : ndarray) : ndarray :=
  {| dtype_of := DFloat; shape := shape a; data := data a |}.

Section Raw.

(** [fits.open(raw_file)] *)
Variable fits_open : string -> exn + list hdu.

(** [load_raw_img_head(self, raw_file, dataext, **null_kwargs)] *)
Definition load_raw_img_head (raw_file : string) (dataext : option Z)
  : exn + (option ndarray * string) :=
  hdulist ← fits_open raw_file;
  match dataext with
  | None => inl (TypeError "list indices must be integers or slices, not NoneType")
  | Some ext =>
      h ← item hdulist ext;
      h0 ← item hdulist 0;
      mret (hdu_data h, hdu_header h0)
  end.

(** [load_raw_frame(self, raw_file, disp_dir, dataext=None, det=None)] *)
Definition load_raw_frame (raw_file : string) (disp_dir : Z) (dataext : option Z)
  : exn + (ndarray * string) :=
  '(raw_img, head0) ← load_raw_img_head raw_file dataext;
  match raw_img with
  | None => inl (AttributeError "'NoneType' object has no attribute 'astype'")
  | Some raw =>
      let img := astype_float raw in
      let img := if disp_dir =? 1 then T img else img in
      mret (img, head0)
  end.

(** [get_datasec(self, filename, det)] *)
Definition get_datasec (detector : detector_attr) (filename : string)
  : exn + (list string * list string * list nat) :=
  match detector with
  | DetNone => inl (ValueError "Must first define spectrograph detector parameters!")
  | DetList _ =>
      inl (TypeError "Detector parameters must be specified using a DetectorPar instance.")
  | DetOne p =>
      '(temp, _) ← load_raw_frame filename (par_dispaxis p) (Some (par_dataext p));
      mret (par_datasec p, par_oscansec p, shape temp)
  end.

End Raw.

Section Count.

(** [len(p)] of a parameter set, which is not a count of detectors. *)
Variable par_len : DetectorPar -> nat.

(** The property [ndet]. *)
Definition ndet (detector : detector_attr) : nat :=
  match detector with
  | DetNone => 0
  | DetOne p => par_len p
  | DetList l => length l
  end.

End Count.

End SpectrographClass.

(** ** [ql_mos.main]: the frame types handed to the sorted table *)

Section QuickLook.

(** The type bits, whatever they are, and [os.path.basename]. *)
Variable bits : Type.
Variable basename : string -> string.

(** [l.index(x)] *)
Fixpoint py_list_index (x : string) (l : list string) : exn + nat :=
  match l with
  | [] => inl (ValueError "is not in list")
  | y :: l' => if String.eqb y x then inr O
               else k ← py_list_index x l'; mret (S k)
  end.

(** The loop that fills [asrt]: for every data file, its row in the table. *)
Definition sort_rows (filenames : list string) (data_files : list string) : exn + list nat :=
  mapM (fun ifile => py_list_index (basename ifile) filenames) data_files.

(** [file_bits[asrt]] *)
Definition take_rows (file_bits : list bits) (asrt : list nat) : exn + list bits :=
  mapM (fun k => match file_bits !! k with Some b => inr b | None => inl IndexError end) asrt.

(** The argument of [set_frame_types]: one entry per row of the table. *)
Definition frame_type_bits (filenames data_files : list string) (file_bits : list bits)
  : exn + list bits :=
  asrt ← sort_rows filenames data_files;
  take_rows file_bits asrt.

End QuickLook.

(** ** Calling [bpm] through a NIRSPEC instance *)

(** [spec.bpm(shape=...)] as a caller writes it: the attribute is looked up on
    the instance before the class, and [KeckNIRSPEC_bpm] binds [self.bpm] to
    the mask it builds. *)
Definition call_bpm (self : Spectrographs.instance) (shape : option (list nat))
  : (exn + option ndarray) * Spectrographs.instance :=
  match Spectrographs.inst_bpm self with
  | Some _ => (inl (TypeError "'numpy.ndarray' object is not callable"), self)
  | None => Spectrographs.KeckNIRSPEC_bpm self shape
  end.

(** * Vocabulary of the further statements *)

(** From [w] to [w'] nothing changed but, at most, the entry of the list [a]
    that the index [i] selects, the log, and new objects on the heap. *)
Definition only_slot_changed (a : attr) (i : Z) (w w' : world) : Prop :=
  (forall b, length (slots_of b w') = length (slots_of b w)) /\
  (forall b j, b <> a \/ py_index (length (slots_of a w)) i <> Some j ->
               slots_of b w' !! j = slots_of b w !! j) /\
  (forall l x, heap w !! l = Some x -> heap w' !! l = Some x) /\
  _det (self w') = _det (self w) /\ fitsdict w' = fitsdict w /\
  _transpose (self w') = _transpose (self w) /\ _dispaxis (self w') = _dispaxis (self w).

(** From [w] to [w'] the exposure and the headers are the same, and the heap
    has at most grown. *)
Definition reads_only (w w' : world) : Prop :=
  self w' = self w /\ fitsdict w' = fitsdict w /\ exists ext, heap w' = heap w ++ ext.

(** No slot list has changed. *)
Definition same_slots (w w' : world) : Prop := _frames (self w') = _frames (self w).

(** The exposure object and the headers are as they were; the heap and the
    log may differ. *)
Definition same_object (w w' : world) : Prop := self w' = self w /\ fitsdict w' = fitsdict w.

(** A computation that, when it raises, has not touched the exposure or the
    headers. *)
Definition quiet_failure {A} (m : M A) : Prop :=
  forall w e w', m w = Raise e w' -> same_object w w'.

(** Collaborators that answer with a given frame. *)
Definition frames_const (f : ndarray) :
  list Z -> Z -> string -> option pyobj -> option bool -> option bool -> extern ndarray :=
  fun _ _ _ _ _ _ _ => inr f.
Definition comb_const (m : ndarray) :
  pyobj -> Z -> string -> option (list nat) -> kwargs -> extern ndarray :=
  fun _ _ _ _ _ _ => inr m.

(** The configuration [af] with arc matching switched on at threshold [x]. *)
Definition with_arcmatch (x : float) (af : ArgFlag) : ArgFlag :=
  {| reduce_usebias := reduce_usebias af; reduce_usearc := reduce_usearc af;
     reduce_usetrace := reduce_usetrace af; reduce_useflat := reduce_useflat af;
     reduce_usepixflat := reduce_usepixflat af; reduce_flatfield := reduce_flatfield af;
     reduce_arcmatch := x; reduce_flatmatch := reduce_flatmatch af;
     reduce_trim := reduce_trim af; trace_disp_direction := trace_disp_direction af;
     trace_disp_window := trace_disp_window af; run_masterdir := run_masterdir af;
     arc_comb := arc_comb af; bias_comb := bias_comb af; trace_comb := trace_comb af;
     pixflat_comb := pixflat_comb af |}.

(** One weight per group of matched frames: the length of the group's third
    axis. *)
Definition group_sizes (sframes : list ndarray) (numarr : list nat) : Prop :=
  Forall2 (fun a n => shape a !! 2%nat = Some n) sframes numarr.

(** Two matched groups, of two frames and of one frame of 2x3 pixels. *)
Definition group2 : ndarray := np_ones DFloat [2; 3; 2]%nat.
Definition group1 : ndarray := np_ones DFloat [2; 3; 1]%nat.

(** The level at which a detector stops being linear. *)
Definition linear_limit (d : DetPar) : float := (saturation d * nonlinear d)%float.

(** A two-detector instrument whose detectors differ in their saturation, and
    the headers of its four frames. *)
Definition detpar1 : DetPar :=
  {| xgap := 0; ygap := 1; ysize := 2; saturation := 1000; nonlinear := 0.5;
     numamplifiers := 1;
     ampsec := {[ 1%nat := sec0 ]}; datasec := {[ 1%nat := sec0 ]};
     oscansec := {[ 1%nat := sec0 ]} |}.

Definition spect0 : Spect :=
  {| science_index := [[0]]; arc_index := [[1]]; trace_index := [[2]];
     bias_index := [[3]]; dark_index := [[]]; blzflat_index := [[2]];
     pixflat_index := [[2]]; mosaic_ndet := 2; spect_det := [detpar0; detpar1] |}.

Definition headers0 : Headers :=
  {| hd_target := ["HD 1234"; "arc"; "flat"; "bias"];
     hd_date := ["2015-01-01T10:20:30.5"; ""; ""; ""];
     hd_time := [0; 0; 0; 0]%float |}.

(** A date library that parses everything and prints one date. *)
Definition strptime0 : string -> exn + string := fun s => inr s.
Definition strftime0 : string -> string := fun _ => "2015Jan01T".
Definition mjd_isot0 : float -> exn + string := fun _ => inr "2015-01-01T00:00:00.0".
Definition PdfPages0 : string -> exn + unit := fun _ => inr tt.

(** The dispersion axis comes out as [ax]: configured so (0 or 1), or
    detected so on whatever the arc slot holds. *)
Definition axis_is (dispdir : pyobj -> cfgval -> extern Z) (det : Z) (w : world) (ax : Z)
  : Prop :=
  (trace_disp_direction (_argflag (self w)) = CInt ax /\ (ax = 0 \/ ax = 1)) \/
  (trace_disp_direction (_argflag (self w)) = CNone /\
   exists o, slot_at a_msarc det w = Some o /\
             dispdir o (trace_disp_window (_argflag (self w))) w = inr ax).

(** The headers after the keyword loop has stopped at the end of a shorter
    [naxis1]. *)
Definition half_swapped (fd : FitsDict) : FitsDict :=
  let n := length (naxis1 fd) in
  {| naxis0 := naxis1 fd ++ drop n (naxis0 fd); naxis1 := take n (naxis0 fd) |}.

(** A FITS file of two units, the image in the second. *)
Definition fits2 : string -> exn + list SpectrographClass.hdu :=
  fun _ => inr [ {| SpectrographClass.hdu_data := None;
                    SpectrographClass.hdu_header := "primary" |};
                 {| SpectrographClass.hdu_data := Some amp23;
                    SpectrographClass.hdu_header := "image" |} ].

Definition par0 : SpectrographClass.DetectorPar :=
  {| SpectrographClass.par_dataext := 1; SpectrographClass.par_dispaxis := 1;
     SpectrographClass.par_datasec := ["[1:2,1:3]"];
     SpectrographClass.par_oscansec := ["[1:2,4:5]"] |}.

(** Every table row that holds data file [j] carries the bits of file [j]. *)
Definition rows_typed {bits} (asrt : list nat) (file_bits r : list bits) : Prop :=
  forall j i, asrt !! j = Some i -> r !! i = file_bits !! j.

(** The permutation is its own inverse. *)
Definition self_inverse (asrt : list nat) : Prop :=
  forall j i, asrt !! j = Some i -> asrt !! i = Some j.



(** The world after a master has been built from loaded frames: one log
    line, the frames [f], the master [m] as combined, and the copy of [m] that
    slot [k] of the list [a] refers to. *)
Definition built (a : attr) (k : nat) (line : string) (f m : ndarray) (w : world) : world :=
  put_slot a k (PyArr (length (heap w) + 2))
           (with_heap (heap w ++ [f; m; m]) (logged Info line w)).

(** A NIRSPEC instance on which a caller has set [shape]. *)
Definition nirspec_with_shape (sh : list nat) : Spectrographs.instance :=
  {| Spectrographs.spectrograph := "keck_nirspec"; Spectrographs.inst_shape := Some sh;
     Spectrographs.inst_bpm := None; Spectrographs.inst_log := [] |}.

(** The value of the NIRSPEC mask in column [j]. *)
Definition edge_value (j : nat) : float :=
  if (j <? 20)%nat || (1000 <=? j)%nat then 1%float else 0%float.

(** The configuration [af] with another flat mode and [usepixflat] entry. *)
Definition with_useflat (u : string) (p : option string) (af : ArgFlag) : ArgFlag :=
  {| reduce_usebias := reduce_usebias af; reduce_usearc := reduce_usearc af;
     reduce_usetrace := reduce_usetrace af; reduce_useflat := u;
     reduce_usepixflat := p; reduce_flatfield := reduce_flatfield af;
     reduce_arcmatch := reduce_arcmatch af; reduce_flatmatch := reduce_flatmatch af;
     reduce_trim := reduce_trim af; trace_disp_direction := trace_disp_direction af;
     trace_disp_window := trace_disp_window af; run_masterdir := run_masterdir af;
     arc_comb := arc_comb af; bias_comb := bias_comb af; trace_comb := trace_comb af;
     pixflat_comb := pixflat_comb af |}.

(** * Properties *)

Ltac munfold :=
  unfold mbind, M_bind, mret, M_ret, bind, ret, raise, msgs_error, gets, modify, call in *.

Lemma bind_Ret {A B} (m : M A) (k : A -> M B) w a w1 :
  m w = Ret a w1 -> (m ≫= k) w = k a w1.
Proof. intros H. munfold. now rewrite H. Qed.

Lemma bind_Raise {A B} (m : M A) (k : A -> M B) w e w1 :
  m w = Raise e w1 -> (m ≫= k) w = Raise e w1.
Proof. intros H. munfold. now rewrite H. Qed.

Lemma py_index_in (n : nat) (i : Z) :
  0 <= i < Z.of_nat n -> py_index n i = Some (Z.to_nat i).
Proof.
  intros H. unfold py_index.
  destruct (Z.leb_spec 0 i), (Z.ltb_spec i (Z.of_nat n)); try lia. reflexivity.
Qed.

Lemma py_index_neg (n : nat) (i : Z) :
  - Z.of_nat n <= i < 0 -> py_index n i = Some (Z.to_nat (Z.of_nat n + i)).
Proof.
  intros H. unfold py_index.
  destruct (Z.leb_spec 0 i), (Z.ltb_spec i (Z.of_nat n)); try lia; cbn;
    destruct (Z.leb_spec (- Z.of_nat n) i), (Z.ltb_spec i 0); try lia; reflexivity.
Qed.

Lemma py_index_out (n : nat) (i : Z) :
  Z.of_nat n <= i \/ i < - Z.of_nat n -> py_index n i = None.
Proof.
  intros H. unfold py_index.
  destruct (Z.leb_spec 0 i), (Z.ltb_spec i (Z.of_nat n)); try lia; cbn;
    destruct (Z.leb_spec (- Z.of_nat n) i), (Z.ltb_spec i 0); try lia; reflexivity.
Qed.

Lemma py_index_lt (n : nat) (i : Z) k : py_index n i = Some k -> (k < n)%nat.
Proof.
  intros H.
  destruct (Z_lt_le_dec i 0) as [Hneg|Hpos].
  - destruct (Z_lt_le_dec i (- Z.of_nat n)).
    + rewrite py_index_out in H by lia. discriminate.
    + rewrite py_index_neg in H by lia. injection H as <-. lia.
  - destruct (Z_lt_le_dec i (Z.of_nat n)).
    + rewrite py_index_in in H by lia. injection H as <-. lia.
    + rewrite py_index_out in H by lia. discriminate.
Qed.

Lemma getitem_Some {A} (l : list A) i k x w :
  py_index (length l) i = Some k -> l !! k = Some x -> getitem l i w = Ret x w.
Proof. intros Hi Hx. unfold getitem. now rewrite Hi, Hx. Qed.

Lemma getitem_None {A} (l : list A) i w :
  py_index (length l) i = None -> getitem l i w = Raise IndexError w.
Proof. intros Hi. unfold getitem. now rewrite Hi. Qed.

Lemma getslot_Some a i k v w :
  py_index (length (slots_of a w)) i = Some k -> slots_of a w !! k = Some v ->
  getslot a i w = Ret v w.
Proof. intros Hi Hv. unfold getslot. munfold. now apply getitem_Some with k. Qed.

Lemma getslot_None a i w :
  py_index (length (slots_of a w)) i = None -> getslot a i w = Raise IndexError w.
Proof. intros Hi. unfold getslot. munfold. now apply getitem_None. Qed.

Lemma setslot_Some a i k v w :
  py_index (length (slots_of a w)) i = Some k -> setslot a i v w = Ret tt (put_slot a k v w).
Proof. intros Hi. unfold setslot. munfold. fold (slots_of a w). now rewrite Hi. Qed.

Lemma setslot_None a i v w :
  py_index (length (slots_of a w)) i = None -> setslot a i v w = Raise IndexError w.
Proof. intros Hi. unfold setslot. munfold. fold (slots_of a w). now rewrite Hi. Qed.

Lemma kind_attr_cases ftype a :
  kind_attr ftype = Some a ->
  (ftype = "arc" /\ a = a_msarc) \/ (ftype = "bias" /\ a = a_msbias) \/
  (ftype = "normpixflat" /\ a = a_mspixflatnrm) \/ (ftype = "pixflat" /\ a = a_mspixflat) \/
  (ftype = "trace" /\ a = a_mstrace).
Proof.
  unfold kind_attr.
  destruct (String.eqb_spec ftype "arc") as [->|_]; [intros [= <-]; tauto |].
  destruct (String.eqb_spec ftype "bias") as [->|_]; [intros [= <-]; tauto |].
  destruct (String.eqb_spec ftype "normpixflat") as [->|_]; [intros [= <-]; tauto |].
  destruct (String.eqb_spec ftype "pixflat") as [->|_]; [intros [= <-]; tauto |].
  destruct (String.eqb_spec ftype "trace") as [->|_]; [intros [= <-]; tauto |].
  discriminate.
Qed.

(** The two store operations, reduced to the slot they address. *)
Lemma SetMasterFrame_shared ftype a frame det :
  kind_attr ftype = Some a ->
  SetMasterFrame frame ftype det false = setslot a (det - 1) frame.
Proof.
  intros H. apply kind_attr_cases in H.
  destruct H as [[-> ->]|[[-> ->]|[[-> ->]|[[-> ->]|[-> ->]]]]]; reflexivity.
Qed.

Lemma SetMasterFrame_copy ftype a frame det :
  kind_attr ftype = Some a ->
  SetMasterFrame frame ftype det true = (cpf ← py_copy frame; setslot a (det - 1) cpf).
Proof.
  intros H. apply kind_attr_cases in H.
  destruct H as [[-> ->]|[[-> ->]|[[-> ->]|[[-> ->]|[-> ->]]]]]; reflexivity.
Qed.

Lemma GetMasterFrame_shared ftype a det :
  kind_attr ftype = Some a -> GetMasterFrame ftype det false = getslot a (det - 1).
Proof.
  intros H. apply kind_attr_cases in H.
  destruct H as [[-> ->]|[[-> ->]|[[-> ->]|[[-> ->]|[-> ->]]]]]; reflexivity.
Qed.

Lemma GetMasterFrame_copy ftype a det :
  kind_attr ftype = Some a ->
  GetMasterFrame ftype det true = (v ← getslot a (det - 1); py_copy v).
Proof.
  intros H. apply kind_attr_cases in H.
  destruct H as [[-> ->]|[[-> ->]|[[-> ->]|[[-> ->]|[-> ->]]]]]; reflexivity.
Qed.

Example T_2x3 : T arc23 = {| dtype_of := DFloat; shape := [3; 2]%nat;
                             data := [1; 4; 2; 5; 3; 6]%float |}.
Proof. reflexivity. Qed.

Example T_2x2x2 :
  transpose_data [2; 2; 2]%nat [0; 1; 2; 3; 4; 5; 6; 7] = [0; 4; 2; 6; 1; 5; 3; 7].
Proof. reflexivity. Qed.

(** ** The store addresses slots with Python's list indexing *)

(** C5, as the code has it: for [1 <= det <= n] the shared-mode [SetMasterFrame]
    and [GetMasterFrame] address slot [det - 1] of the kind's own list and
    nothing else; a detector number above [n] or at most [-n] raises
    [IndexError]; the numbers [-n < det <= 0] are accepted and address slot
    [n + det - 1], so that detector 0 is the last detector's slot. *)
Theorem store_slot_addressing (w : world) (ftype : string) (a : attr) (det : Z)
        (frame : pyobj) (Hkind : kind_attr ftype = Some a) :
  let n := Z.of_nat (length (slots_of a w)) in
  (1 <= det <= n ->
     SetMasterFrame frame ftype det false w
       = Ret tt (put_slot a (Z.to_nat (det - 1)) frame w) /\
     exists v, slots_of a w !! Z.to_nat (det - 1) = Some v /\
               GetMasterFrame ftype det false w = Ret v w) /\
  (n < det \/ det <= - n ->
     SetMasterFrame frame ftype det false w = Raise IndexError w /\
     GetMasterFrame ftype det false w = Raise IndexError w) /\
  (- n < det <= 0 ->
     SetMasterFrame frame ftype det false w
       = Ret tt (put_slot a (Z.to_nat (n + det - 1)) frame w) /\
     exists v, slots_of a w !! Z.to_nat (n + det - 1) = Some v /\
               GetMasterFrame ftype det false w = Ret v w).
Proof.
  intros n. rewrite (SetMasterFrame_shared _ _ _ _ Hkind), (GetMasterFrame_shared _ _ _ Hkind).
  repeat split.
  - apply setslot_Some, py_index_in. lia.
  - destruct (lookup_lt_is_Some_2 (slots_of a w) (Z.to_nat (det - 1))) as [v Hv]; [lia|].
    exists v. split; [exact Hv|]. apply getslot_Some with (Z.to_nat (det - 1)); [|exact Hv].
    apply py_index_in. lia.
  - apply setslot_None, py_index_out. lia.
  - apply getslot_None, py_index_out. lia.
  - replace (n + det - 1) with (n + (det - 1)) by lia.
    apply setslot_Some, py_index_neg. lia.
  - replace (n + det - 1) with (n + (det - 1)) by lia.
    destruct (lookup_lt_is_Some_2 (slots_of a w) (Z.to_nat (n + (det - 1)))) as [v Hv]; [lia|].
    exists v. split; [exact Hv|]. apply getslot_Some with (Z.to_nat (n + (det - 1))); [|exact Hv].
    apply py_index_neg. lia.
Qed.

Lemma store_slot_addressing_witness :
  SetMasterFrame (PyArr 0) "trace" 2 false (loaded2 (argflag0 (CInt 1) true "bias"))
  = Ret tt (put_slot a_mstrace 1 (PyArr 0) (loaded2 (argflag0 (CInt 1) true "bias"))).
Proof.
  pose proof (store_slot_addressing (loaded2 (argflag0 (CInt 1) true "bias"))
                "trace" a_mstrace 2 (PyArr 0) eq_refl) as H.
  cbv zeta in H. apply H. cbn. lia.
Defined.

(** C5 as stated fails: on a two-detector exposure, setting the arc of
    "detector 0" succeeds, and what it wrote is read back as detector 2's arc. *)
Lemma detector_zero_aliases_last :
  exists w', SetMasterFrame (PyArr 1) "arc" 0 false (loaded2 (argflag0 (CInt 1) true "bias"))
             = Ret tt w' /\
             GetMasterFrame "arc" 2 false w' = Ret (PyArr 1) w' /\
             GetMasterFrame "arc" 2 false (loaded2 (argflag0 (CInt 1) true "bias"))
             = Ret (PyArr 2) (loaded2 (argflag0 (CInt 1) true "bias")).
Proof. eexists. split; [reflexivity|]. split; reflexivity. Qed.

(** ** Copy semantics of the store *)

Lemma py_copy_arr l arr w :
  heap w !! l = Some arr ->
  py_copy (PyArr l) w = Ret (PyArr (length (heap w))) (with_heap (heap w ++ [arr]) w).
Proof. intros H. unfold py_copy, deref, alloc. munfold. now rewrite H. Qed.

Lemma py_T_arr l arr w :
  heap w !! l = Some arr ->
  py_T (PyArr l) w = Ret (PyArr (length (heap w))) (with_heap (heap w ++ [T arr]) w).
Proof. intros H. unfold py_T, deref, alloc. munfold. now rewrite H. Qed.

Lemma lookup_snoc_old {A} (h : list A) (x : A) l v :
  h !! l = Some v -> (h ++ [x]) !! l = Some v.
Proof. intros H. now apply lookup_app_l_Some. Qed.

Lemma lookup_snoc_new {A} (h : list A) (x : A) : (h ++ [x]) !! length h = Some x.
Proof. rewrite lookup_app_r by lia. now rewrite Nat.sub_diag. Qed.

Lemma slots_put_same a k v w :
  (k < length (slots_of a w))%nat -> slots_of a (put_slot a k v w) !! k = Some v.
Proof.
  intros Hk. unfold put_slot, slots_of. destruct a; cbn; now apply list_lookup_insert_eq.
Qed.

Lemma slots_put_length a k v w :
  length (slots_of a (put_slot a k v w)) = length (slots_of a w).
Proof. unfold put_slot, slots_of. destruct a; cbn; apply length_insert. Qed.

(** C6, as the code has it: for the five kinds the store dispatches on, a
    valid detector number and an array-valued frame, [SetMasterFrame] then
    [GetMasterFrame], both copying, succeed; the value returned and the value
    stored are two new array objects, distinct from each other and from the
    one handed in, with equal contents; overwriting the returned array leaves
    the stored one and the original untouched. *)
Theorem set_then_get_copies (w : world) (ftype : string) (a : attr) (det : Z) (k : nat)
        (l : loc) (arr : ndarray)
        (Hkind : kind_attr ftype = Some a)
        (Hdet : py_index (length (slots_of a w)) (det - 1) = Some k)
        (Hframe : heap w !! l = Some arr) :
  exists w1 s r w2,
    SetMasterFrame (PyArr l) ftype det true w = Ret tt w1 /\
    slots_of a w1 !! k = Some (PyArr s) /\
    GetMasterFrame ftype det true w1 = Ret (PyArr r) w2 /\
    r <> l /\ r <> s /\ s <> l /\
    heap w2 !! r = Some arr /\ heap w2 !! s = Some arr /\ heap w2 !! l = Some arr /\
    slots_of a w2 !! k = Some (PyArr s) /\
    forall x, exists w3,
      store r x w2 = Ret tt w3 /\ heap w3 !! r = Some x /\
      heap w3 !! s = Some arr /\ heap w3 !! l = Some arr /\
      slots_of a w3 !! k = Some (PyArr s).
Proof.
  pose proof (py_index_lt _ _ _ Hdet) as Hk.
  pose proof (lookup_lt_Some _ _ _ Hframe) as Hl.
  set (w0 := with_heap (heap w ++ [arr]) w).
  set (w1 := put_slot a k (PyArr (length (heap w))) w0).
  assert (Hset : SetMasterFrame (PyArr l) ftype det true w = Ret tt w1).
  { rewrite (SetMasterFrame_copy _ _ _ _ Hkind).
    rewrite (bind_Ret _ _ _ _ _ (py_copy_arr _ _ _ Hframe)).
    apply setslot_Some. exact Hdet. }
  assert (Hslot : slots_of a w1 !! k = Some (PyArr (length (heap w)))).
  { apply slots_put_same. exact Hk. }
  assert (Hheap1 : heap w1 = heap w ++ [arr]) by reflexivity.
  assert (Hs : heap w1 !! length (heap w) = Some arr).
  { rewrite Hheap1. apply lookup_snoc_new. }
  set (w2 := with_heap (heap w1 ++ [arr]) w1).
  assert (Hget : GetMasterFrame ftype det true w1 = Ret (PyArr (length (heap w1))) w2).
  { rewrite (GetMasterFrame_copy _ _ _ Hkind).
    erewrite bind_Ret.
    - apply py_copy_arr. exact Hs.
    - apply getslot_Some with k; [|exact Hslot].
      unfold w1. rewrite slots_put_length. exact Hdet. }
  assert (Hlen1 : length (heap w1) = S (length (heap w))).
  { rewrite Hheap1, length_app. cbn. lia. }
  exists w1, (length (heap w)), (length (heap w1)), w2.
  repeat split; try assumption; try lia.
  - apply lookup_snoc_new.
  - apply lookup_snoc_old. exact Hs.
  - apply lookup_snoc_old. rewrite Hheap1. now apply lookup_snoc_old.
  - intros x. eexists. split.
    + unfold store. cbn [heap w2 with_heap]. rewrite lookup_snoc_new. reflexivity.
    + cbn [heap]. repeat split.
      * rewrite list_lookup_insert_eq; [reflexivity|]. rewrite length_app. cbn. lia.
      * rewrite list_lookup_insert_ne by lia. apply lookup_snoc_old. exact Hs.
      * rewrite list_lookup_insert_ne by lia.
        apply lookup_snoc_old. rewrite Hheap1. now apply lookup_snoc_old.
      * exact Hslot.
Qed.

Lemma set_then_get_copies_witness :
  exists w1 s r w2,
    SetMasterFrame (PyArr 0) "bias" 1 true (loaded (argflag0 (CInt 1) true "bias"))
      = Ret tt w1 /\
    slots_of a_msbias w1 !! 0%nat = Some (PyArr s) /\
    GetMasterFrame "bias" 1 true w1 = Ret (PyArr r) w2 /\
    r <> 0%nat /\ r <> s /\ s <> 0%nat /\
    heap w2 !! r = Some arc23 /\ heap w2 !! s = Some arc23 /\ heap w2 !! 0%nat = Some arc23 /\
    slots_of a_msbias w2 !! 0%nat = Some (PyArr s) /\
    forall x, exists w3,
      store r x w2 = Ret tt w3 /\ heap w3 !! r = Some x /\
      heap w3 !! s = Some arc23 /\ heap w3 !! 0%nat = Some arc23 /\
      slots_of a_msbias w3 !! 0%nat = Some (PyArr s).
Proof.
  exact (set_then_get_copies (loaded (argflag0 (CInt 1) true "bias")) "bias" a_msbias 1
                             0%nat 0%nat arc23 eq_refl eq_refl eq_refl).
Defined.

(** C6 as stated fails: a frame that is [None] cannot be stored in copy mode,
    and the kind [blaze] is not one the store dispatches on. *)
Lemma set_copy_rejects_none_and_blaze :
  SetMasterFrame PyNone "bias" 1 true (loaded (argflag0 (CInt 1) true "bias"))
  = Raise (AttributeError "'NoneType' object has no attribute 'copy'")
          (loaded (argflag0 (CInt 1) true "bias")) /\
  exists w', SetMasterFrame (PyArr 0) "blaze" 1 true (loaded (argflag0 (CInt 1) true "bias"))
             = Raise (PypitError "Please contact the authors") w' /\
             slots_of a_msblaze w' = [PyNone].
Proof. split; [reflexivity|]. eexists. split; reflexivity. Qed.

(** ** Settling the dispersion axis *)

(** C8, as the code has it: a configured direction of 0 or 1 becomes the
    dispersion axis; an unset direction hands the detector's arc master to
    the detection routine and adopts whatever integer it returns, with no
    check that it is 0 or 1 (a failure of the routine is passed on); any
    other configured value is refused through [msgs.error], and the axis is
    left as it was. *)
Theorem detect_axis_outcome (dispdir : pyobj -> cfgval -> extern Z) (det : Z) (w : world) :
  let direction := trace_disp_direction (_argflag (self w)) in
  let window := trace_disp_window (_argflag (self w)) in
  (forall z, direction = CInt z -> z = 0 \/ z = 1 ->
     detect_axis dispdir det w = Ret tt (with_self (with_dispaxis (Some z)) w)) /\
  (forall arc ax, direction = CNone -> getslot a_msarc (det - 1) w = Ret arc w ->
     dispdir arc window w = inr ax ->
     detect_axis dispdir det w = Ret tt (with_self (with_dispaxis (Some ax)) w)) /\
  (forall arc e, direction = CNone -> getslot a_msarc (det - 1) w = Ret arc w ->
     dispdir arc window w = inl e ->
     detect_axis dispdir det w = Raise e w) /\
  (forall z, direction = CInt z -> z <> 0 -> z <> 1 ->
     detect_axis dispdir det w = Raise (PypitError msg_direction) w) /\
  (forall s, direction = CStr s ->
     detect_axis dispdir det w = Raise (PypitError msg_direction) w).
Proof.
  intros direction window. subst direction window. unfold detect_axis, set_dispaxis. munfold.
  repeat split.
  - intros z -> [->| ->]; reflexivity.
  - intros arc ax -> Harc Hax. now rewrite Harc, Hax.
  - intros arc e -> Harc He. now rewrite Harc, He.
  - intros z -> H0 H1.
    destruct (Z.eqb_spec z 0); [contradiction|]. destruct (Z.eqb_spec z 1); [contradiction|].
    reflexivity.
  - intros s ->. reflexivity.
Qed.

Lemma detect_axis_outcome_witness :
  detect_axis (dispdir_const 7) 1 (arc_only (argflag0 CNone true "bias"))
  = Ret tt (with_self (with_dispaxis (Some 7)) (arc_only (argflag0 CNone true "bias"))).
Proof.
  pose proof (detect_axis_outcome (dispdir_const 7) 1 (arc_only (argflag0 CNone true "bias")))
    as H.
  cbv zeta in H. destruct H as (_ & H & _).
  exact (H (PyArr 0) 7 eq_refl eq_refl eq_refl).
Defined.

(** C8 as stated fails: with the direction unset and a detection routine that
    answers 2, the whole of [GetDispersionDirection] returns normally and the
    exposure keeps 2 as its dispersion axis. *)
Lemma detected_axis_is_not_validated :
  exists fd w',
    GetDispersionDirection (dispdir_const 2) 1 (loaded (argflag0 CNone true "bias"))
    = Ret fd w' /\ _dispaxis (self w') = Some 2.
Proof. do 2 eexists. split; [vm_compute; reflexivity | reflexivity]. Qed.

(** ** Bad-pixel masks *)

(** C9: the generic generator returns an all-zero integer mask of the shape it
    is given and leaves the instance alone, while the NIRSPEC generator never
    returns a mask: without a [shape] attribute on the instance it raises,
    and with one it returns [None] and leaves the mask bound to [self.bpm]. *)
Theorem nirspec_bpm_returns_no_mask :
  (forall self r c,
     Spectrographs.bpm self (Some [r; c]) = (inr (Some (np_zeros DInt [r; c])), self)) /\
  (forall self sh m, fst (Spectrographs.KeckNIRSPEC_bpm self sh) <> inr (Some m)) /\
  fst (Spectrographs.KeckNIRSPEC_bpm Spectrographs.KeckNIRSPEC (Some [2; 1024]%nat))
  = inl (AttributeError "'KeckNIRSPECSpectrograph' object has no attribute 'shape'") /\
  (let self := {| Spectrographs.spectrograph := "keck_nirspec";
                  Spectrographs.inst_shape := Some [1; 3]%nat;
                  Spectrographs.inst_bpm := None; Spectrographs.inst_log := [] |} in
   fst (Spectrographs.KeckNIRSPEC_bpm self (Some [1; 3]%nat)) = inr None /\
   Spectrographs.inst_bpm (snd (Spectrographs.KeckNIRSPEC_bpm self (Some [1; 3]%nat)))
   = Some {| dtype_of := DFloat; shape := [1; 3]%nat; data := [1; 1; 1]%float |}).
Proof.
  split; [|split; [|split]].
  - intros self r c. reflexivity.
  - intros self sh m. unfold Spectrographs.KeckNIRSPEC_bpm. cbn [Spectrographs.inst_shape].
    destruct (Spectrographs.inst_shape self) as [s|]; [|cbn; discriminate].
    destruct (Spectrographs.tuple_item s 0), (Spectrographs.tuple_item s 1); cbn; discriminate.
  - reflexivity.
  - split; reflexivity.
Qed.

(** ** Source modes *)

Lemma slots_of_with_heap a h w : slots_of a (with_heap h w) = slots_of a w.
Proof. reflexivity. Qed.

Section SourceModes.

Variable load_frames :
  list Z -> Z -> string -> option pyobj -> option bool -> option bool -> extern ndarray.
Variable match_frames : pyobj -> float -> bool -> string -> satlevel -> extern (list ndarray).
Variable comb_frames : pyobj -> Z -> string -> option (list nat) -> kwargs -> extern ndarray.
Variable load_master : string -> bool -> option string -> extern ndarray.

Lemma load_then_set name ft ftype a det k w :
  kind_attr ftype = Some a ->
  py_index (length (slots_of a w)) (det - 1) = Some k ->
  (msframe ← call_arr (load_master name false ft);
   SetMasterFrame msframe ftype det true;; mret true) w
  = loads_named_master load_master name ft a k w.
Proof.
  intros Hkind Hk. unfold loads_named_master, call_arr, alloc. munfold.
  destruct (load_master name false ft w) as [e|arr]; [reflexivity|].
  rewrite (SetMasterFrame_copy _ _ _ _ Hkind).
  erewrite bind_Ret.
  2:{ apply py_copy_arr. cbn [heap]. apply lookup_snoc_new. }
  cbn [heap with_heap]. erewrite setslot_Some by exact Hk.
  unfold put_slot, with_heap, with_self. cbn.
  rewrite length_app, <- app_assoc. cbn. rewrite Nat.add_1_r. reflexivity.
Qed.

(** C7, as the code has it: a step whose slot is empty treats every mode string
    it does not handle itself as the name of a saved master under
    [masterdir]: its outcome is the loader's failure, passed on unchanged, or
    the loaded frame stored and [True].  No mode is refused by the step. *)
Theorem other_modes_load_by_name (det : Z) (w : world) (k : nat) :
  let af := _argflag (self w) in
  (py_index (length (slots_of a_msbias w)) (det - 1) = Some k ->
   slots_of a_msbias w !! k = Some PyNone ->
   reduce_usebias af <> "bias" -> reduce_usebias af <> "dark" ->
   reduce_usebias af <> "overscan" -> reduce_usebias af <> "none" ->
   MasterBias load_frames comb_frames load_master det w
   = loads_named_master load_master (run_masterdir af +:+ "/" +:+ reduce_usebias af)
                        (Some "bias") a_msbias k w) /\
  (py_index (length (slots_of a_msarc w)) (det - 1) = Some k ->
   slots_of a_msarc w !! k = Some PyNone ->
   reduce_usearc af <> "arc" ->
   MasterArc load_frames comb_frames load_master det w
   = loads_named_master load_master (run_masterdir af +:+ "/" +:+ reduce_usearc af)
                        None a_msarc k w) /\
  (py_index (length (slots_of a_mstrace w)) (det - 1) = Some k ->
   slots_of a_mstrace w !! k = Some PyNone ->
   reduce_usetrace af <> "trace" -> reduce_usetrace af <> "blzflat" ->
   reduce_usetrace af <> "science" ->
   MasterTrace load_frames match_frames comb_frames load_master det w
   = loads_named_master load_master (run_masterdir af +:+ "/" +:+ reduce_usetrace af)
                        None a_mstrace k w) /\
  (py_index (length (slots_of a_mstrace w)) (det - 1) = Some k ->
   slots_of a_mstrace w !! k = Some PyNone ->
   reduce_usetrace af = "science" ->
   MasterTrace load_frames match_frames comb_frames load_master det w
   = Raise (PypitError "Tracing with a science frame is not yet implemented") w).
Proof.
  intros af. subst af. repeat split.
  - intros Hk Hslot H1 H2 H3 H4.
    rewrite <- (load_then_set _ _ "bias" _ det k w eq_refl Hk).
    unfold MasterBias. rewrite (bind_Ret _ _ _ _ _ (getslot_Some _ _ _ _ _ Hk Hslot)).
    apply String.eqb_neq in H1, H2, H3, H4. munfold. rewrite H1, H2, H3, H4. reflexivity.
  - intros Hk Hslot H1.
    rewrite <- (load_then_set _ _ "arc" _ det k w eq_refl Hk).
    unfold MasterArc. rewrite (bind_Ret _ _ _ _ _ (getslot_Some _ _ _ _ _ Hk Hslot)).
    apply String.eqb_neq in H1. munfold. rewrite H1. reflexivity.
  - intros Hk Hslot H1 H2 H3.
    rewrite <- (load_then_set _ _ "trace" _ det k w eq_refl Hk).
    unfold MasterTrace. rewrite (bind_Ret _ _ _ _ _ (getslot_Some _ _ _ _ _ Hk Hslot)).
    apply String.eqb_neq in H1, H2, H3. munfold. rewrite H1, H2, H3. reflexivity.
  - intros Hk Hslot H1.
    unfold MasterTrace. rewrite (bind_Ret _ _ _ _ _ (getslot_Some _ _ _ _ _ Hk Hslot)).
    munfold. rewrite H1. reflexivity.
Qed.

End SourceModes.

Lemma other_modes_load_by_name_witness :
  MasterBias no_frames no_comb (master_named "MasterFrames/bias_2015")
             1 (fresh 1 (argflag0 (CInt 1) true "bias_2015"))
  = loads_named_master (master_named "MasterFrames/bias_2015") "MasterFrames/bias_2015"
                       (Some "bias") a_msbias 0 (fresh 1 (argflag0 (CInt 1) true "bias_2015")).
Proof.
  pose proof (other_modes_load_by_name no_frames no_match no_comb
                (master_named "MasterFrames/bias_2015") 1
                (fresh 1 (argflag0 (CInt 1) true "bias_2015")) 0%nat) as H.
  cbv zeta in H. destruct H as (H & _).
  apply H; [reflexivity | reflexivity | discriminate | discriminate | discriminate | discriminate].
Defined.

(** C7 as stated fails: a mode the bias step does not know is not refused but
    looked up as a saved master, so that what the step raises is the loader's
    own failure; and the arc step looks up even ["none"] as a file name and
    stores what the loader returns. *)
Lemma unknown_mode_goes_to_loader :
  MasterBias no_frames no_comb no_master 1 (fresh 1 (argflag0 (CInt 1) true "bogus"))
  = Raise (External "IOError: no such master frame")
          (fresh 1 (argflag0 (CInt 1) true "bogus")) /\
  exists w', MasterArc no_frames no_comb (master_named "MasterFrames/none") 1
                       (fresh 1 (argflag0 (CInt 1) true "none"))
             = Ret true w' /\ frame_is w' a_msarc 0 arc23.
Proof.
  split; [reflexivity|]. eexists. split; [vm_compute; reflexivity|].
  eexists. split; reflexivity.
Qed.

(** ** Geometry normalization, block by block *)

Lemma slot_at_index a det w o :
  slot_at a det w = Some o ->
  exists k, py_index (length (slots_of a w)) (det - 1) = Some k /\ slots_of a w !! k = Some o.
Proof.
  unfold slot_at. destruct (py_index _ _) as [k|]; [|discriminate]. intros H. now exists k.
Qed.

Lemma arr_at_slot a det w arr :
  arr_at a det w = Some arr ->
  exists l, slot_at a det w = Some (PyArr l) /\ heap w !! l = Some arr.
Proof.
  unfold arr_at. destruct (slot_at a det w) as [[| |l]|]; try discriminate.
  intros H. now exists l.
Qed.

Lemma getslot_at a det w o : slot_at a det w = Some o -> getslot a (det - 1) w = Ret o w.
Proof. intros H. destruct (slot_at_index _ _ _ _ H) as (k & Hk & Ho). now apply getslot_Some with k. Qed.

Lemma setslot_copy_T a det w l arr :
  slot_at a det w = Some (PyArr l) -> heap w !! l = Some arr ->
  (t ← py_T (PyArr l); cpf ← py_copy t; setslot a (det - 1) cpf) w
  = Ret tt (retarget a det arr w).
Proof.
  intros Hs Hl. destruct (slot_at_index _ _ _ _ Hs) as (k & Hk & _).
  rewrite (bind_Ret _ _ _ _ _ (py_T_arr _ _ _ Hl)).
  erewrite bind_Ret.
  2:{ apply py_copy_arr. cbn [heap with_heap]. apply lookup_snoc_new. }
  cbn [heap with_heap]. erewrite setslot_Some by exact Hk.
  unfold retarget. rewrite Hk. unfold put_slot, with_heap, with_self. cbn.
  rewrite length_app, <- app_assoc. cbn. rewrite Nat.add_1_r. reflexivity.
Qed.

Lemma flip_slot_arr a det w arr :
  arr_at a det w = Some arr -> flip_slot a det w = retarget a det arr w.
Proof. intros H. unfold flip_slot. now rewrite H. Qed.

Lemma transpose_arc_ok det w :
  is_Some (arr_at a_msarc det w) -> transpose_arc det w = Ret tt (flip_slot a_msarc det w).
Proof.
  intros [arr H]. rewrite (flip_slot_arr _ _ _ _ H).
  destruct (arr_at_slot _ _ _ _ H) as (l & Hs & Hl).
  unfold transpose_arc. rewrite (bind_Ret _ _ _ _ _ (getslot_at _ _ _ _ Hs)).
  rewrite <- (setslot_copy_T _ _ _ _ _ Hs Hl). reflexivity.
Qed.

Lemma transpose_ampsec_ok det w :
  is_Some (arr_at a_ampsec det w) ->
  transpose_ampsec det w = Ret tt (flip_slot a_ampsec det w).
Proof.
  intros [arr H]. rewrite (flip_slot_arr _ _ _ _ H).
  destruct (arr_at_slot _ _ _ _ H) as (l & Hs & Hl).
  unfold transpose_ampsec. rewrite (bind_Ret _ _ _ _ _ (getslot_at _ _ _ _ Hs)).
  rewrite <- (setslot_copy_T _ _ _ _ _ Hs Hl). reflexivity.
Qed.

Lemma transpose_bias_ok det w :
  slot_at a_msbias det w = Some PyNone \/ (exists s, slot_at a_msbias det w = Some (PyStr s)) \/
  is_Some (arr_at a_msbias det w) ->
  transpose_bias det w = Ret tt (flip_slot a_msbias det w).
Proof.
  unfold transpose_bias. intros [H|[[s H]|[arr H]]].
  - rewrite (bind_Ret _ _ _ _ _ (getslot_at _ _ _ _ H)).
    unfold flip_slot, arr_at. now rewrite H.
  - rewrite (bind_Ret _ _ _ _ _ (getslot_at _ _ _ _ H)).
    unfold flip_slot, arr_at. now rewrite H.
  - rewrite (flip_slot_arr _ _ _ _ H).
    destruct (arr_at_slot _ _ _ _ H) as (l & Hs & Hl).
    rewrite (bind_Ret _ _ _ _ _ (getslot_at _ _ _ _ Hs)).
    rewrite (bind_Ret _ _ _ _ _ (getslot_at _ _ _ _ Hs)).
    rewrite <- (setslot_copy_T _ _ _ _ _ Hs Hl). reflexivity.
Qed.

Lemma transpose_bpix_ok det w :
  slot_at a_bpix det w = Some PyNone \/ is_Some (arr_at a_bpix det w) ->
  transpose_bpix det w = Ret tt (flip_slot a_bpix det w).
Proof.
  unfold transpose_bpix. intros [H|[arr H]].
  - rewrite (bind_Ret _ _ _ _ _ (getslot_at _ _ _ _ H)).
    unfold flip_slot, arr_at. now rewrite H.
  - rewrite (flip_slot_arr _ _ _ _ H).
    destruct (arr_at_slot _ _ _ _ H) as (l & Hs & Hl).
    rewrite (bind_Ret _ _ _ _ _ (getslot_at _ _ _ _ Hs)).
    rewrite (bind_Ret _ _ _ _ _ (getslot_at _ _ _ _ Hs)).
    rewrite <- (setslot_copy_T _ _ _ _ _ Hs Hl). reflexivity.
Qed.


(** *** The header keywords *)

Lemma insert_take_drop {A} (a b : list A) i x y :
  a !! i = Some x -> b !! i = Some y ->
  <[i := y]> (take i b ++ drop i a) = take (S i) b ++ drop (S i) a.
Proof.
  intros Ha Hb.
  assert (Hlen : length (take i b) = i).
  { apply length_take_le. apply lookup_lt_Some in Hb. lia. }
  rewrite insert_app_r_alt by lia. rewrite Hlen, Nat.sub_diag.
  rewrite (drop_S _ _ _ Ha). cbn. rewrite (take_S_r _ _ _ Hb), <- app_assoc. reflexivity.
Qed.

Lemma with_fits_id w : with_fits (fitsdict w) w = w.
Proof. now destruct w. Qed.

Lemma fits_eta fd : {| naxis0 := naxis0 fd; naxis1 := naxis1 fd |} = fd.
Proof. now destruct fd. Qed.

Lemma getitem_nat {A} (l : list A) (i : nat) x w :
  l !! i = Some x -> getitem l (Z.of_nat i) w = Ret x w.
Proof.
  intros H. apply getitem_Some with i; [|exact H].
  rewrite py_index_in; [now rewrite Nat2Z.id|]. apply lookup_lt_Some in H. lia.
Qed.

Lemma swap_naxis_ok i w x y :
  naxis0 (fitsdict w) !! i = Some x -> naxis1 (fitsdict w) !! i = Some y ->
  swap_naxis i w = Ret tt (with_fits {| naxis0 := <[i := y]> (naxis0 (fitsdict w));
                                       naxis1 := <[i := x]> (naxis1 (fitsdict w)) |} w).
Proof.
  intros G0 G1. unfold swap_naxis. munfold.
  rewrite (getitem_nat _ _ _ _ G0), (getitem_nat _ _ _ _ G1). reflexivity.
Qed.

Lemma swap_loop (a b : list Z) (m : nat) :
  forall i w,
    (i + m = length a)%nat -> (length a <= length b)%nat ->
    naxis0 (fitsdict w) = take i b ++ drop i a ->
    naxis1 (fitsdict w) = take i a ++ drop i b ->
    for_each (seq i m) swap_naxis w
    = Ret tt (with_fits {| naxis0 := take (i + m) b ++ drop (i + m) a;
                           naxis1 := take (i + m) a ++ drop (i + m) b |} w).
Proof.
  induction m as [|m IH]; intros i w Him Hab H0 H1.
  - cbn. rewrite Nat.add_0_r, <- H0, <- H1, fits_eta, with_fits_id. reflexivity.
  - destruct (lookup_lt_is_Some_2 a i) as [x Hx]; [lia|].
    destruct (lookup_lt_is_Some_2 b i) as [y Hy]; [lia|].
    assert (Hla : length (take i a) = i) by (apply length_take_le; lia).
    assert (Hlb : length (take i b) = i) by (apply length_take_le; lia).
    assert (G0 : naxis0 (fitsdict w) !! i = Some x).
    { rewrite H0, lookup_app_r by lia. rewrite Hlb, Nat.sub_diag, lookup_drop.
      now rewrite Nat.add_0_r. }
    assert (G1 : naxis1 (fitsdict w) !! i = Some y).
    { rewrite H1, lookup_app_r by lia. rewrite Hla, Nat.sub_diag, lookup_drop.
      now rewrite Nat.add_0_r. }
    cbn [seq for_each]. rewrite (bind_Ret _ _ _ _ _ (swap_naxis_ok _ _ _ _ G0 G1)).
    rewrite IH; cbn [with_fits fitsdict naxis0 naxis1 self heap msgs]; try lia.
    + replace (S i + m)%nat with (i + S m)%nat by lia. reflexivity.
    + rewrite H0. eapply insert_take_drop; eassumption.
    + rewrite H1. eapply insert_take_drop; eassumption.
Qed.

Lemma swap_keywords_ok w :
  (length (naxis0 (fitsdict w)) <= length (naxis1 (fitsdict w)))%nat ->
  swap_keywords w = Ret tt (with_fits (swap_fits (fitsdict w)) w).
Proof.
  intros H. unfold swap_keywords. munfold.
  rewrite (swap_loop (naxis0 (fitsdict w)) (naxis1 (fitsdict w))); try reflexivity; try lia.
  unfold swap_fits. cbn [Nat.add].
  rewrite (drop_ge (naxis0 (fitsdict w))) by lia.
  rewrite (take_ge (naxis0 (fitsdict w))) by lia.
  now rewrite app_nil_r.
Qed.

(** *** The detector parameters *)

Lemma getdet_at det w d : det_at det w = Some d -> getdet (det - 1) w = Ret d w.
Proof.
  unfold det_at, getdet. munfold. intros H.
  destruct (py_index _ _) as [k|] eqn:Hk; [|discriminate]. now apply getitem_Some with k.
Qed.

Lemma setdet_ok det w d' :
  is_Some (det_at det w) -> setdet (det - 1) d' w = Ret tt (put_det det d' w).
Proof.
  unfold det_at, setdet, put_det. munfold. intros [d H].
  destruct (py_index _ _) as [k|] eqn:Hk; [|discriminate]. reflexivity.
Qed.

Lemma det_at_put_det det w d' : is_Some (det_at det w) -> det_at det (put_det det d' w) = Some d'.
Proof.
  unfold det_at, put_det. intros [d H].
  destruct (py_index (length (_det (self w))) (det - 1)) as [k|] eqn:Hk; [|discriminate].
  cbn. rewrite length_insert, Hk. apply list_lookup_insert_eq. now apply lookup_lt_Some in H.
Qed.

Lemma put_det_twice det w d1 d2 : put_det det d2 (put_det det d1 w) = put_det det d2 w.
Proof.
  unfold put_det.
  destruct (py_index (length (_det (self w))) (det - 1)) as [k|] eqn:Hk; [|now rewrite Hk].
  cbn. rewrite length_insert, Hk. unfold with_self, with_det. cbn.
  now rewrite list_insert_insert_eq.
Qed.

Lemma put_det_id det w d : det_at det w = Some d -> put_det det d w = w.
Proof.
  unfold det_at, put_det. destruct (py_index _ _) as [k|]; [|discriminate]. intros H.
  unfold with_self, with_det. rewrite (list_insert_id _ _ _ H).
  destruct w as [[] ? ? ?]. reflexivity.
Qed.

Lemma insert_rev_alter (m : gmap nat section) n s :
  m !! n = Some s -> <[n := rev s]> m = alter (@rev (list Z)) n m.
Proof.
  intros H. apply map_eq. intros j. destruct (decide (n = j)) as [<-|Hne].
  - now rewrite lookup_insert_eq, lookup_alter_eq, H.
  - now rewrite lookup_insert_ne, lookup_alter_ne.
Qed.

Lemma swap_gaps_ok det w d :
  det_at det w = Some d ->
  swap_gaps det w = Ret tt (put_det det (with_gaps (ygap d) (xgap d) d) w).
Proof.
  intros H. unfold swap_gaps.
  rewrite (bind_Ret _ _ _ _ _ (getdet_at _ _ _ H)).
  rewrite (bind_Ret _ _ _ _ _ (getdet_at _ _ _ H)).
  erewrite bind_Ret by (apply setdet_ok; eauto).
  erewrite bind_Ret by (apply getdet_at, det_at_put_det; eauto).
  rewrite setdet_ok by (rewrite det_at_put_det; eauto).
  now rewrite put_det_twice.
Qed.

Lemma invert_ysize_ok det w d :
  det_at det w = Some d -> PrimFloat.eqb (ysize d) 0 = false ->
  invert_ysize det w = Ret tt (put_det det (with_ysize (1 / ysize d)%float d) w).
Proof.
  intros H Hy. unfold invert_ysize.
  rewrite (bind_Ret _ _ _ _ _ (getdet_at _ _ _ H)). rewrite Hy.
  apply setdet_ok. eauto.
Qed.

Lemma flip_sections_ok det i w d :
  det_at det w = Some d ->
  is_Some (ampsec d !! S i) -> is_Some (datasec d !! S i) -> is_Some (oscansec d !! S i) ->
  flip_sections (det - 1) i w = Ret tt (put_det det (flip_one i d) w).
Proof.
  intros H [s1 H1] [s2 H2] [s3 H3]. unfold flip_sections.
  rewrite (bind_Ret _ _ _ _ _ (getdet_at _ _ _ H)). rewrite H1.
  erewrite bind_Ret by (apply setdet_ok; eauto).
  erewrite bind_Ret by (apply getdet_at, det_at_put_det; eauto).
  cbn [datasec with_secs]. rewrite H2.
  erewrite bind_Ret by (apply setdet_ok; rewrite det_at_put_det; eauto).
  erewrite bind_Ret by (apply getdet_at; rewrite put_det_twice; apply det_at_put_det; eauto).
  cbn [oscansec with_secs]. rewrite H3.
  rewrite setdet_ok by (rewrite put_det_twice, det_at_put_det; eauto).
  rewrite !put_det_twice. f_equal. f_equal. unfold flip_one, with_secs. cbn.
  now rewrite (insert_rev_alter _ _ _ H1), (insert_rev_alter _ _ _ H2),
    (insert_rev_alter _ _ _ H3).
Qed.

Lemma flip_loop det (l : list nat) :
  forall d w,
    det_at det w = Some d ->
    (forall i, In i l -> is_Some (ampsec d !! S i) /\ is_Some (datasec d !! S i) /\
                         is_Some (oscansec d !! S i)) ->
    for_each l (flip_sections (det - 1)) w
    = Ret tt (put_det det (foldl (fun d i => flip_one i d) d l) w).
Proof.
  induction l as [|i l IH]; intros d w H Hp.
  - cbn. now rewrite (put_det_id _ _ _ H).
  - destruct (Hp i (or_introl eq_refl)) as (P1 & P2 & P3).
    cbn [for_each foldl]. rewrite (bind_Ret _ _ _ _ _ (flip_sections_ok _ _ _ _ H P1 P2 P3)).
    rewrite (IH (flip_one i d)).
    + now rewrite put_det_twice.
    + apply det_at_put_det. eauto.
    + intros j Hj. destruct (Hp j (or_intror Hj)) as (Q1 & Q2 & Q3).
      unfold flip_one, with_secs. cbn. rewrite !lookup_alter_is_Some. auto.
Qed.

Lemma foldl_flip_one (l : list nat) :
  forall d,
    foldl (fun d i => flip_one i d) d l
    = with_secs (foldl (fun m i => alter (@rev (list Z)) (S i) m) (ampsec d) l)
                (foldl (fun m i => alter (@rev (list Z)) (S i) m) (datasec d) l)
                (foldl (fun m i => alter (@rev (list Z)) (S i) m) (oscansec d) l) d.
Proof.
  induction l as [|i l IH]; intros d.
  - now destruct d.
  - cbn [foldl]. rewrite IH. reflexivity.
Qed.

Lemma flip_all_sections_ok det w d :
  det_at det w = Some d -> sections_present d ->
  flip_all_sections det w
  = Ret tt (put_det det (with_secs (flip_secs (numamplifiers d) (ampsec d))
                                   (flip_secs (numamplifiers d) (datasec d))
                                   (flip_secs (numamplifiers d) (oscansec d)) d) w).
Proof.
  intros H Hp. unfold flip_all_sections.
  rewrite (bind_Ret _ _ _ _ _ (getdet_at _ _ _ H)).
  rewrite (flip_loop _ _ _ _ H Hp), foldl_flip_one. reflexivity.
Qed.

(** Gaps, size and sections together are [flip_params]. *)
Lemma flip_params_ok det w d :
  det_at det w = Some d -> PrimFloat.eqb (ysize d) 0 = false -> sections_present d ->
  (swap_gaps det;; invert_ysize det;; flip_all_sections det) w
  = Ret tt (flip_params det w).
Proof.
  intros H Hy Hp.
  rewrite (bind_Ret _ _ _ _ _ (swap_gaps_ok _ _ _ H)).
  erewrite bind_Ret.
  2:{ apply invert_ysize_ok; [apply det_at_put_det; eauto | exact Hy]. }
  rewrite put_det_twice.
  erewrite flip_all_sections_ok.
  2:{ apply det_at_put_det; eauto. }
  2:{ exact Hp. }
  rewrite put_det_twice. unfold flip_params. rewrite H. reflexivity.
Qed.

(** *** What a flipped slot leaves alone *)

Lemma flip_slot_frame a det w :
  _det (self (flip_slot a det w)) = _det (self w) /\
  fitsdict (flip_slot a det w) = fitsdict w /\
  _nspec (self (flip_slot a det w)) = _nspec (self w) /\
  _nspat (self (flip_slot a det w)) = _nspat (self w) /\
  _transpose (self (flip_slot a det w)) = _transpose (self w) /\
  _dispaxis (self (flip_slot a det w)) = _dispaxis (self w) /\
  _argflag (self (flip_slot a det w)) = _argflag (self w) /\
  msgs (flip_slot a det w) = msgs w.
Proof.
  unfold flip_slot. destruct (arr_at a det w); [|repeat split].
  unfold retarget. destruct (py_index _ _); repeat split.
Qed.

Lemma det_at_flip_slot a det det' w : det_at det (flip_slot a det' w) = det_at det w.
Proof. unfold det_at. now rewrite (proj1 (flip_slot_frame a det' w)). Qed.

Lemma slots_of_flip_other a b det w : a <> b -> slots_of a (flip_slot b det w) = slots_of a w.
Proof.
  intros Hne. unfold flip_slot. destruct (arr_at b det w); [|reflexivity].
  unfold retarget. destruct (py_index _ _); [|reflexivity].
  destruct a, b; try congruence; reflexivity.
Qed.

Lemma slot_at_flip_other a b det det' w :
  a <> b -> slot_at a det (flip_slot b det' w) = slot_at a det w.
Proof. intros Hne. unfold slot_at. now rewrite (slots_of_flip_other _ _ _ _ Hne). Qed.

Lemma heap_flip_slot a det w l x :
  heap w !! l = Some x -> heap (flip_slot a det w) !! l = Some x.
Proof.
  intros H. unfold flip_slot. destruct (arr_at a det w); [|exact H].
  unfold retarget. destruct (py_index _ _); [|exact H].
  cbn. now apply lookup_app_l_Some.
Qed.

Lemma arr_at_flip_other a b det det' w x :
  a <> b -> arr_at a det w = Some x -> arr_at a det (flip_slot b det' w) = Some x.
Proof.
  intros Hne H. destruct (arr_at_slot _ _ _ _ H) as (l & Hs & Hl).
  unfold arr_at. rewrite (slot_at_flip_other _ _ _ _ _ Hne), Hs. now apply heap_flip_slot.
Qed.

Lemma arr_at_flip_same a det w x :
  arr_at a det w = Some x -> arr_at a det (flip_slot a det w) = Some (T x).
Proof.
  intros H. rewrite (flip_slot_arr _ _ _ _ H).
  destruct (arr_at_slot _ _ _ _ H) as (l & Hs & Hl).
  destruct (slot_at_index _ _ _ _ Hs) as (k & Hk & Ho).
  pose proof (py_index_lt _ _ _ Hk) as Hlt.
  unfold retarget. rewrite Hk. unfold arr_at, slot_at.
  rewrite slots_put_length, slots_of_with_heap, Hk.
  rewrite slots_put_same by (rewrite slots_of_with_heap; exact Hlt).
  cbn [heap put_slot with_self with_heap].
  rewrite lookup_app_r by lia. now rewrite Nat.sub_succ_l, Nat.sub_diag by lia.
Qed.

Lemma flip_params_frame det w :
  _frames (self (flip_params det w)) = _frames (self w) /\
  heap (flip_params det w) = heap w /\
  fitsdict (flip_params det w) = fitsdict w /\
  _nspec (self (flip_params det w)) = _nspec (self w) /\
  _nspat (self (flip_params det w)) = _nspat (self w) /\
  _transpose (self (flip_params det w)) = _transpose (self w) /\
  _dispaxis (self (flip_params det w)) = _dispaxis (self w) /\
  _argflag (self (flip_params det w)) = _argflag (self w) /\
  msgs (flip_params det w) = msgs w.
Proof.
  unfold flip_params. destruct (det_at det w); [|repeat split].
  unfold put_det. destruct (py_index _ _); repeat split.
Qed.

Lemma arr_at_same_store a det w w' :
  _frames (self w') = _frames (self w) -> heap w' = heap w -> arr_at a det w' = arr_at a det w.
Proof. intros Hf Hh. unfold arr_at, slot_at, slots_of. now rewrite Hf, Hh. Qed.

Lemma slot_at_same_store a det w w' :
  _frames (self w') = _frames (self w) -> slot_at a det w' = slot_at a det w.
Proof. intros Hf. unfold slot_at, slots_of. now rewrite Hf. Qed.

Lemma det_at_flip_params det w d :
  det_at det w = Some d -> det_at det (flip_params det w) = Some (flip_det d).
Proof. intros H. unfold flip_params. rewrite H. apply det_at_put_det. eauto. Qed.

(** *** The whole call *)

Lemma py_shape_arr l a w : heap w !! l = Some a -> py_shape (PyArr l) w = Ret (shape a) w.
Proof. intros H. unfold py_shape, deref. munfold. now rewrite H. Qed.

Lemma check_longest_ok det w a r c rest :
  arr_at a_msarc det w = Some a -> shape a = r :: c :: rest ->
  check_longest det w
  = Ret tt (if (c <? r)%nat
            then warn_if (is_axis (_dispaxis (self w)) 1) w
            else warn_if (is_axis (_dispaxis (self w)) 0) w).
Proof.
  intros H Hsh. destruct (arr_at_slot _ _ _ _ H) as (l & Hs & Hl).
  unfold check_longest.
  rewrite (bind_Ret _ _ _ _ _ (getslot_at _ _ _ _ Hs)).
  rewrite (bind_Ret _ _ _ _ _ (py_shape_arr _ _ _ Hl)).
  erewrite bind_Ret.
  2:{ apply getitem_Some with 0%nat; [apply py_index_in; rewrite Hsh; cbn; lia|].
      rewrite Hsh. reflexivity. }
  rewrite (bind_Ret _ _ _ _ _ (getslot_at _ _ _ _ Hs)).
  rewrite (bind_Ret _ _ _ _ _ (py_shape_arr _ _ _ Hl)).
  erewrite bind_Ret.
  2:{ apply getitem_Some with 1%nat; [apply py_index_in; rewrite Hsh; cbn; lia|].
      rewrite Hsh. reflexivity. }
  unfold get_dispaxis, warn_if, msg. munfold.
  destruct (c <? r)%nat; [destruct (is_axis _ 1)|destruct (is_axis _ 0)]; reflexivity.
Qed.

Lemma set_npix_ok det w a r c :
  arr_at a_msarc det w = Some a -> shape a = [r; c] ->
  is_Some (py_index (length (_nspec (self w))) (det - 1)) ->
  is_Some (py_index (length (_nspat (self w))) (det - 1)) ->
  set_npix det w = Ret tt (put_npix det w).
Proof.
  intros H Hsh [k Hk] [k' Hk']. destruct (arr_at_slot _ _ _ _ H) as (l & Hs & Hl).
  unfold set_npix, put_npix.
  rewrite (bind_Ret _ _ _ _ _ (getslot_at _ _ _ _ Hs)).
  rewrite (bind_Ret _ _ _ _ _ (py_shape_arr _ _ _ Hl)).
  rewrite H, Hsh, Hk, Hk'. munfold. cbn. rewrite Hk, Hk'. reflexivity.
Qed.

Lemma detect_axis_one dispdir det w :
  axis_one dispdir det w ->
  detect_axis dispdir det w = Ret tt (with_self (with_dispaxis (Some 1)) w).
Proof.
  intros [H|(H & o & Ho & Hd)]; unfold detect_axis, set_dispaxis.
  - munfold. now rewrite H.
  - munfold. rewrite H. rewrite (getslot_at _ _ _ _ Ho), Hd. reflexivity.
Qed.

Lemma msg_logged l s w : msg l s w = Ret tt (logged l s w).
Proof. reflexivity. Qed.

Lemma bind_gets {A B} (f : world -> A) (k : A -> M B) w : (gets f ≫= k) w = k (f w) w.
Proof. reflexivity. Qed.

Lemma bind_modify {B} (f : world -> world) (k : unit -> M B) w :
  (modify f ≫= k) w = k tt (f w).
Proof. reflexivity. Qed.

Lemma bind_assoc3 {B} (m1 m2 m3 : M unit) (k : M B) w :
  ((m1;; m2;; m3);; k) w = (m1;; m2;; m3;; k) w.
Proof. munfold. destruct (m1 w); [|reflexivity]. destruct (m2 w0); reflexivity. Qed.

Lemma transpose_frames_ok det w a d :
  arr_at a_msarc det w = Some a ->
  (slot_at a_msbias det w = Some PyNone \/ (exists s, slot_at a_msbias det w = Some (PyStr s)) \/
   is_Some (arr_at a_msbias det w)) ->
  (slot_at a_bpix det w = Some PyNone \/ is_Some (arr_at a_bpix det w)) ->
  is_Some (arr_at a_ampsec det w) ->
  (length (naxis0 (fitsdict w)) <= length (naxis1 (fitsdict w)))%nat ->
  det_at det w = Some d -> PrimFloat.eqb (ysize d) 0 = false -> sections_present d ->
  transpose_frames det w = Ret tt (transposed det w).
Proof.
  intros Ha Hbias Hbpix Hamp Hfits Hd Hy Hsec.
  unfold transpose_frames, transposed.
  rewrite (bind_Ret _ _ _ _ _ (msg_logged _ _ _)), bind_modify.
  set (w4 := with_self (with_transpose true) (logged Info "Transposing frames and keywords" w)).
  assert (F4 : _frames (self w4) = _frames (self w)) by reflexivity.
  assert (H4 : heap w4 = heap w) by reflexivity.
  erewrite bind_Ret.
  2:{ apply transpose_bias_ok.
      rewrite (slot_at_same_store _ _ _ _ F4), (arr_at_same_store _ _ _ _ F4 H4). exact Hbias. }
  set (w5 := flip_slot a_msbias det w4).
  assert (A5 : arr_at a_msarc det w5 = Some a).
  { apply arr_at_flip_other; [discriminate|].
    now rewrite (arr_at_same_store _ _ _ _ F4 H4). }
  erewrite bind_Ret by (apply transpose_arc_ok; eauto).
  set (w6 := flip_slot a_msarc det w5).
  erewrite bind_Ret.
  2:{ apply transpose_bpix_ok.
      destruct Hbpix as [Hb|[x Hb]]; [left|right].
      - unfold w6, w5. rewrite !slot_at_flip_other by discriminate.
        now rewrite (slot_at_same_store _ _ _ _ F4).
      - exists x. unfold w6, w5. do 2 (apply arr_at_flip_other; [discriminate|]).
        now rewrite (arr_at_same_store _ _ _ _ F4 H4). }
  set (w7 := flip_slot a_bpix det w6).
  erewrite bind_Ret.
  2:{ apply transpose_ampsec_ok. destruct Hamp as [x Hx]. exists x.
      unfold w7, w6, w5. do 3 (apply arr_at_flip_other; [discriminate|]).
      now rewrite (arr_at_same_store _ _ _ _ F4 H4). }
  set (w8 := flip_slot a_ampsec det w7).
  assert (D8 : fitsdict w8 = fitsdict w).
  { unfold w8, w7, w6, w5.
    rewrite !(proj1 (proj2 (flip_slot_frame _ _ _))). reflexivity. }
  erewrite bind_Ret by (apply swap_keywords_ok; rewrite D8; exact Hfits).
  set (w9 := with_fits (swap_fits (fitsdict w8)) w8).
  assert (P9 : det_at det w9 = Some d).
  { unfold w9, w8, w7, w6, w5.
    change (det_at det (with_fits ?f ?x)) with (det_at det x).
    rewrite !det_at_flip_slot. exact Hd. }
  rewrite <- bind_assoc3.
  rewrite (bind_Ret _ _ _ _ _ (flip_params_ok _ _ _ P9 Hy Hsec)).
  rewrite (bind_Ret _ _ _ _ _ (msg_logged _ _ _)).
  reflexivity.
Qed.

(** *** What the transposing branch does to each observation *)

Lemma arr_at_four_flips a det w x :
  arr_at a det w = Some x ->
  arr_at a det (flip_slot a_ampsec det (flip_slot a_bpix det
                 (flip_slot a_msarc det (flip_slot a_msbias det w))))
  = Some (match a with
          | a_msbias | a_msarc | a_bpix | a_ampsec => T x
          | _ => x
          end).
Proof.
  intros H.
  destruct a;
    repeat first [ apply arr_at_flip_same | apply arr_at_flip_other; [discriminate|] ];
    exact H.
Qed.

Lemma flip_slot_not_arr a det w o :
  slot_at a det w = Some o -> (forall l, o <> PyArr l) -> flip_slot a det w = w.
Proof.
  intros H Hn. unfold flip_slot, arr_at. rewrite H.
  destruct o as [| |l]; try reflexivity. now destruct (Hn l).
Qed.

Lemma slot_at_flip_not_arr a b det w o :
  slot_at a det w = Some o -> (forall l, o <> PyArr l) ->
  slot_at a det (flip_slot b det w) = Some o.
Proof.
  intros H Hn. destruct (decide (a = b)) as [<-|Hne].
  - now rewrite (flip_slot_not_arr _ _ _ _ H Hn).
  - now rewrite slot_at_flip_other.
Qed.

Lemma transposed_arr a det w x :
  arr_at a det w = Some x ->
  arr_at a det (transposed det w)
  = Some (match a with
          | a_msbias | a_msarc | a_bpix | a_ampsec => T x
          | _ => x
          end).
Proof.
  intros H. unfold transposed. cbv zeta.
  set (w4 := with_self (with_transpose true) (logged Info "Transposing frames and keywords" w)).
  set (w8 := flip_slot a_ampsec det _).
  rewrite <- (arr_at_four_flips a det w4 x H). fold w8.
  apply arr_at_same_store.
  - exact (proj1 (flip_params_frame det (with_fits (swap_fits (fitsdict w8)) w8))).
  - exact (proj1 (proj2 (flip_params_frame det (with_fits (swap_fits (fitsdict w8)) w8)))).
Qed.

Lemma transposed_slot a det w o :
  slot_at a det w = Some o -> (forall l, o <> PyArr l) ->
  slot_at a det (transposed det w) = Some o.
Proof.
  intros H Hn. unfold transposed. cbv zeta.
  set (w4 := with_self (with_transpose true) (logged Info "Transposing frames and keywords" w)).
  set (w8 := flip_slot a_ampsec det _).
  transitivity (slot_at a det w8).
  - apply slot_at_same_store.
    exact (proj1 (flip_params_frame det (with_fits (swap_fits (fitsdict w8)) w8))).
  - unfold w8. repeat (apply slot_at_flip_not_arr; [|exact Hn]). exact H.
Qed.

Lemma transposed_frame det w :
  fitsdict (transposed det w) = swap_fits (fitsdict w) /\
  _transpose (self (transposed det w)) = true /\
  _dispaxis (self (transposed det w)) = Some 0 /\
  _nspec (self (transposed det w)) = _nspec (self w) /\
  _nspat (self (transposed det w)) = _nspat (self w) /\
  _argflag (self (transposed det w)) = _argflag (self w).
Proof.
  unfold transposed. cbv zeta.
  set (w4 := with_self (with_transpose true) (logged Info "Transposing frames and keywords" w)).
  set (w8 := flip_slot a_ampsec det _).
  pose proof (flip_params_frame det (with_fits (swap_fits (fitsdict w8)) w8))
    as (_ & _ & Pf & Pns & Pnp & Ptr & _ & Paf & _).
  assert (Q : fitsdict w8 = fitsdict w /\ _nspec (self w8) = _nspec (self w) /\
              _nspat (self w8) = _nspat (self w) /\ _transpose (self w8) = true /\
              _argflag (self w8) = _argflag (self w)).
  { unfold w8.
    repeat split;
      repeat first [ rewrite (proj1 (proj2 (flip_slot_frame _ _ _)))
                   | rewrite (proj1 (proj2 (proj2 (flip_slot_frame _ _ _))))
                   | rewrite (proj1 (proj2 (proj2 (proj2 (flip_slot_frame _ _ _)))))
                   | rewrite (proj1 (proj2 (proj2 (proj2 (proj2 (flip_slot_frame _ _ _))))))
                   | rewrite (proj1 (proj2 (proj2 (proj2 (proj2 (proj2 (proj2
                                (flip_slot_frame _ _ _))))))))];
      reflexivity. }
  destruct Q as (Qf & Qns & Qnp & Qtr & Qaf).
  cbn [self fitsdict logged with_self with_dispaxis _transpose _dispaxis _nspec _nspat _argflag].
  repeat split.
  - rewrite Pf. cbn [with_fits fitsdict]. now rewrite Qf.
  - rewrite Ptr. exact Qtr.
  - rewrite Pns. exact Qns.
  - rewrite Pnp. exact Qnp.
  - rewrite Paf. exact Qaf.
Qed.

Lemma transposed_det det w d :
  det_at det w = Some d -> det_at det (transposed det w) = Some (flip_det d).
Proof.
  intros H. unfold transposed. cbv zeta.
  set (w4 := with_self (with_transpose true) (logged Info "Transposing frames and keywords" w)).
  set (w8 := flip_slot a_ampsec det _).
  change (det_at det (flip_params det (with_fits (swap_fits (fitsdict w8)) w8))
          = Some (flip_det d)).
  apply det_at_flip_params.
  change (det_at det w8 = Some d). unfold w8. rewrite !det_at_flip_slot. exact H.
Qed.

Lemma put_npix_frame det w :
  _frames (self (put_npix det w)) = _frames (self w) /\
  heap (put_npix det w) = heap w /\
  fitsdict (put_npix det w) = fitsdict w /\
  _det (self (put_npix det w)) = _det (self w) /\
  _transpose (self (put_npix det w)) = _transpose (self w) /\
  _dispaxis (self (put_npix det w)) = _dispaxis (self w) /\
  _argflag (self (put_npix det w)) = _argflag (self w).
Proof.
  unfold put_npix. destruct (arr_at a_msarc det w) as [a|]; [|repeat split].
  destruct (shape a) as [|r [|c [|? ?]]]; try (repeat split; fail).
  destruct (py_index _ _); [|repeat split]. destruct (py_index _ _); repeat split.
Qed.

Lemma shape_T a : shape (T a) = rev (shape a).
Proof. reflexivity. Qed.

Lemma normalize_runs dispdir det w :
  ready det w -> axis_one dispdir det w ->
  GetDispersionDirection dispdir det w
  = Ret (fitsdict (normalized det w)) (normalized det w).
Proof.
  intros (Harc & Hbias & Hbpix & Hamp & Hfits & Hdet & Hns & Hnp) Hax.
  destruct Harc as (a & r & c & Ha & Hsh).
  destruct Hdet as (d & Hd & Hy & Hsec).
  unfold GetDispersionDirection, normalized.
  rewrite (bind_Ret _ _ _ _ _ (detect_axis_one _ _ _ Hax)).
  set (w1 := with_self (with_dispaxis (Some 1)) w).
  assert (A1 : arr_at a_msarc det w1 = Some a) by exact Ha.
  rewrite (bind_Ret _ _ _ _ _ (check_longest_ok _ _ _ _ _ _ A1 Hsh)).
  replace (if (c <? r)%nat then warn_if (is_axis (_dispaxis (self w1)) 1) w1
           else warn_if (is_axis (_dispaxis (self w1)) 0) w1)
    with (warn_if (longer_rows det w1) w1).
  2:{ unfold longer_rows. rewrite A1, Hsh. destruct (c <? r)%nat; reflexivity. }
  set (w2 := warn_if (longer_rows det w1) w1).
  assert (S2 : _frames (self w2) = _frames (self w) /\ heap w2 = heap w /\
               self w2 = self w1 /\ fitsdict w2 = fitsdict w).
  { unfold w2. destruct (longer_rows det w1); repeat split. }
  destruct S2 as (F2 & H2 & E2 & D2).
  unfold get_dispaxis. rewrite bind_gets. rewrite E2.
  change (is_axis (_dispaxis (self w1)) 1) with true. cbv iota.
  erewrite bind_Ret.
  2:{ apply transpose_frames_ok with a d; try assumption.
      - now rewrite (arr_at_same_store _ _ _ _ F2 H2).
      - now rewrite (slot_at_same_store _ _ _ _ F2), (arr_at_same_store _ _ _ _ F2 H2).
      - now rewrite (slot_at_same_store _ _ _ _ F2), (arr_at_same_store _ _ _ _ F2 H2).
      - now rewrite (arr_at_same_store _ _ _ _ F2 H2).
      - now rewrite D2.
      - unfold det_at. rewrite E2. exact Hd. }
  assert (A12 : arr_at a_msarc det (transposed det w2) = Some (T a)).
  { apply (transposed_arr a_msarc). now rewrite (arr_at_same_store _ _ _ _ F2 H2). }
  pose proof (transposed_frame det w2) as (_ & _ & _ & Tns & Tnp & _).
  erewrite bind_Ret.
  2:{ apply set_npix_ok with (T a) c r; [exact A12 | now rewrite shape_T, Hsh | | ].
      - rewrite Tns, E2. exact Hns.
      - rewrite Tnp, E2. exact Hnp. }
  reflexivity.
Qed.

(** ** Geometry normalization: the claims *)

Lemma foldl_alter_seq (len : nat) :
  forall (s : nat) (m : gmap nat (list (list Z))) (n : nat),
    foldl (fun m i => alter (@rev (list Z)) (S i) m) m (seq s len) !! n
    = if decide (s < n <= s + len)%nat then @rev (list Z) <$> m !! n else m !! n.
Proof.
  induction len as [|len IH]; intros s m n.
  - cbn. destruct (decide _); [lia|reflexivity].
  - cbn [seq foldl]. rewrite IH.
    destruct (decide (n = S s)) as [->|Hne].
    + rewrite lookup_alter_eq.
      destruct (decide (S s < S s <= S s + len)%nat); [lia|].
      destruct (decide (s < S s <= s + S len)%nat); [reflexivity|lia].
    + rewrite lookup_alter_ne by congruence.
      destruct (decide (S s < n <= S s + len)%nat), (decide (s < n <= s + S len)%nat);
        try reflexivity; lia.
Qed.

Lemma flip_secs_lookup N (m : gmap nat (list (list Z))) (n : nat) :
  (1 <= n)%nat -> Z.of_nat n <= N -> flip_secs N m !! n = @rev (list Z) <$> m !! n.
Proof.
  intros H1 H2. unfold flip_secs, range. rewrite foldl_alter_seq.
  destruct (decide _); [reflexivity|lia].
Qed.

Lemma flip_secs_is_Some N (m : gmap nat (list (list Z))) (n : nat) :
  is_Some (flip_secs N m !! n) <-> is_Some (m !! n).
Proof.
  unfold flip_secs, range. rewrite foldl_alter_seq.
  destruct (decide _); [|reflexivity]. now rewrite fmap_is_Some.
Qed.

Lemma flip_det_sections d : sections_reversed d (flip_det d).
Proof. intros n H1 H2. cbn. now rewrite !flip_secs_lookup. Qed.

(** What a transposing call leaves in place of each observation. *)
Lemma normalized_arr a det w x :
  In a dependent_frames -> arr_at a det w = Some x ->
  arr_at a det (normalized det w) = Some (T x).
Proof.
  intros Hin H. unfold normalized. cbv zeta.
  set (w2 := warn_if _ _).
  assert (S2 : _frames (self w2) = _frames (self w) /\ heap w2 = heap w).
  { unfold w2. destruct (longer_rows _ _); split; reflexivity. }
  destruct S2 as (F2 & H2).
  rewrite (arr_at_same_store a det (transposed det w2));
    [| apply (proj1 (put_npix_frame _ _)) | apply (proj1 (proj2 (put_npix_frame _ _)))].
  rewrite (transposed_arr a det w2 x) by (now rewrite (arr_at_same_store _ _ _ _ F2 H2)).
  destruct Hin as [<-|[<-|[<-|[<-|[]]]]]; reflexivity.
Qed.

Lemma normalized_slot a det w o :
  slot_at a det w = Some o -> (forall l, o <> PyArr l) ->
  slot_at a det (normalized det w) = Some o.
Proof.
  intros H Hn. unfold normalized. cbv zeta.
  set (w2 := warn_if _ _).
  assert (F2 : _frames (self w2) = _frames (self w)).
  { unfold w2. destruct (longer_rows _ _); reflexivity. }
  rewrite (slot_at_same_store a det (transposed det w2))
    by apply (proj1 (put_npix_frame _ _)).
  apply transposed_slot; [|exact Hn]. now rewrite (slot_at_same_store _ _ _ _ F2).
Qed.

Lemma normalized_det det w d :
  det_at det w = Some d -> det_at det (normalized det w) = Some (flip_det d).
Proof.
  intros H. unfold normalized. cbv zeta.
  set (w2 := warn_if _ _).
  assert (E2 : self w2 = with_dispaxis (Some 1) (self w)).
  { unfold w2. destruct (longer_rows _ _); reflexivity. }
  unfold det_at at 1.
  rewrite (proj1 (proj2 (proj2 (proj2 (put_npix_frame det (transposed det w2)))))).
  fold (det_at det (transposed det w2)). apply transposed_det.
  unfold det_at. rewrite E2. exact H.
Qed.

Lemma normalized_frame det w :
  fitsdict (normalized det w) = swap_fits (fitsdict w) /\
  _transpose (self (normalized det w)) = true /\
  _dispaxis (self (normalized det w)) = Some 0 /\
  _argflag (self (normalized det w)) = _argflag (self w).
Proof.
  unfold normalized. cbv zeta. set (w2 := warn_if _ _).
  assert (E2 : self w2 = with_dispaxis (Some 1) (self w) /\ fitsdict w2 = fitsdict w).
  { unfold w2. destruct (longer_rows _ _); split; reflexivity. }
  destruct E2 as (E2 & D2).
  pose proof (put_npix_frame det (transposed det w2)) as (_ & _ & Pf & _ & Pt & Pd & Pa).
  pose proof (transposed_frame det w2) as (Tf & Tt & Td & _ & _ & Ta).
  rewrite Pf, Pt, Pd, Pa, Tf, Tt, Td, Ta, D2, E2. repeat split.
Qed.

(** C1, as the code has it: when the detector is ready and the axis comes out
    as 1, the call returns, and it has applied the whole flip: the arc, the
    bias if it is an array, the bad-pixel mask if there is one and the
    amplifier frame are replaced by copies of their transposes (a bias or
    mask slot holding no array is left as it is), the gaps are exchanged, the
    size is replaced by its reciprocal, the three section descriptors of each
    amplifier are reversed, the transpose flag is set and the axis is 0. *)
Theorem normalize_flips_jointly (dispdir : pyobj -> cfgval -> extern Z) (det : Z) (w : world)
        (Hready : ready det w) (Haxis : axis_one dispdir det w) :
  exists fd w',
    GetDispersionDirection dispdir det w = Ret fd w' /\
    _transpose (self w') = true /\ _dispaxis (self w') = Some 0 /\
    (forall a x, In a dependent_frames -> arr_at a det w = Some x ->
                 arr_at a det w' = Some (T x)) /\
    (forall a o, slot_at a det w = Some o -> (forall l, o <> PyArr l) ->
                 slot_at a det w' = Some o) /\
    (forall d, det_at det w = Some d ->
       exists d', det_at det w' = Some d' /\
                  xgap d' = ygap d /\ ygap d' = xgap d /\
                  ysize d' = (1 / ysize d)%float /\ sections_reversed d d').
Proof.
  exists (fitsdict (normalized det w)), (normalized det w).
  pose proof (normalized_frame det w) as (_ & Ht & Hd & _).
  split; [now apply normalize_runs|].
  split; [exact Ht|]. split; [exact Hd|].
  split; [intros a x; apply normalized_arr|].
  split; [intros a o; apply normalized_slot|].
  intros d Hdet. exists (flip_det d).
  split; [now apply normalized_det|].
  repeat split; apply flip_det_sections; assumption.
Qed.

Lemma loaded_ready af : ready 1 (loaded af).
Proof.
  unfold ready.
  split; [exists arc23, 2%nat, 3%nat; split; reflexivity|].
  split; [left; reflexivity|]. split; [left; reflexivity|].
  split; [exists amp23; reflexivity|]. split; [cbn; lia|].
  split.
  - exists detpar0. split; [reflexivity|]. split; [reflexivity|].
    intros i [<-|[]]. repeat split; eexists; reflexivity.
  - split; eexists; reflexivity.
Qed.

Lemma normalize_flips_jointly_witness :
  exists fd w',
    GetDispersionDirection (dispdir_const 1) 1 (loaded (argflag0 CNone true "bias")) = Ret fd w' /\
    _transpose (self w') = true /\ _dispaxis (self w') = Some 0 /\
    (forall a x, In a dependent_frames ->
                 arr_at a 1 (loaded (argflag0 CNone true "bias")) = Some x ->
                 arr_at a 1 w' = Some (T x)) /\
    (forall a o, slot_at a 1 (loaded (argflag0 CNone true "bias")) = Some o ->
                 (forall l, o <> PyArr l) -> slot_at a 1 w' = Some o) /\
    (forall d, det_at 1 (loaded (argflag0 CNone true "bias")) = Some d ->
       exists d', det_at 1 w' = Some d' /\
                  xgap d' = ygap d /\ ygap d' = xgap d /\
                  ysize d' = (1 / ysize d)%float /\ sections_reversed d d').
Proof.
  apply (normalize_flips_jointly (dispdir_const 1) 1 (loaded (argflag0 CNone true "bias"))).
  - apply loaded_ready.
  - right. split; [reflexivity|]. exists (PyArr 0). split; reflexivity.
Defined.

(** C1 as stated fails: a call that raises part of the way keeps what it has
    already changed.  With no amplifier frame stored, the flag is set and the
    arc transposed while gaps, size and axis are as before; with a pixel
    size of zero, frames, headers and gaps are flipped while size and
    sections are not. *)
Lemma partial_flip_is_observable :
  (exists w',
     GetDispersionDirection (dispdir_const 0) 1 (arc_only (argflag0 (CInt 1) true "bias"))
     = Raise (AttributeError "'NoneType' object has no attribute 'T'") w' /\
     _transpose (self w') = true /\ arr_at a_msarc 1 w' = Some (T arc23) /\
     det_at 1 w' = Some detpar0 /\ _dispaxis (self w') = Some 1) /\
  (exists w',
     GetDispersionDirection (dispdir_const 0) 1
                            (zero_size (loaded (argflag0 (CInt 1) true "bias")))
     = Raise ZeroDivisionError w' /\
     arr_at a_msarc 1 w' = Some (T arc23) /\
     det_at 1 w' = Some (with_gaps 1 0 (with_ysize 0 detpar0)) /\
     _dispaxis (self w') = Some 1).
Proof.
  split; eexists; (split; [vm_compute; reflexivity|]); repeat split; reflexivity.
Qed.

(** ** A second call *)

Lemma normalized_npix_length det w :
  length (_nspec (self (normalized det w))) = length (_nspec (self w)) /\
  length (_nspat (self (normalized det w))) = length (_nspat (self w)).
Proof.
  unfold normalized. cbv zeta. set (w2 := warn_if _ _).
  assert (E2 : self w2 = with_dispaxis (Some 1) (self w)).
  { unfold w2. destruct (longer_rows _ _); reflexivity. }
  pose proof (transposed_frame det w2) as (_ & _ & _ & Tns & Tnp & _).
  assert (Q : length (_nspec (self (put_npix det (transposed det w2))))
              = length (_nspec (self (transposed det w2))) /\
              length (_nspat (self (put_npix det (transposed det w2))))
              = length (_nspat (self (transposed det w2)))).
  { unfold put_npix. destruct (arr_at _ _ _) as [a|]; [|split; reflexivity].
    destruct (shape a) as [|r [|c [|? ?]]]; try (split; reflexivity).
    destruct (py_index _ _); [|split; reflexivity].
    destruct (py_index _ _); [|split; reflexivity].
    cbn. now rewrite !length_insert. }
  destruct Q as (Q1 & Q2). rewrite Q1, Q2, Tns, Tnp, E2. split; reflexivity.
Qed.

Lemma swap_fits_lengths fd :
  (length (naxis0 fd) <= length (naxis1 fd))%nat ->
  (length (naxis0 (swap_fits fd)) <= length (naxis1 (swap_fits fd)))%nat.
Proof.
  intros H. unfold swap_fits. cbn. rewrite length_take, length_app, length_drop. lia.
Qed.

Lemma ready_normalized det w d :
  ready det w -> det_at det w = Some d -> PrimFloat.eqb (1 / ysize d) 0 = false ->
  ready det (normalized det w).
Proof.
  intros (Harc & Hbias & Hbpix & Hamp & Hfits & Hdet & Hns & Hnp) Hd Hinv.
  destruct Harc as (a & r & c & Ha & Hsh).
  destruct Hdet as (d0 & Hd0 & _ & Hsec). rewrite Hd in Hd0. injection Hd0 as <-.
  pose proof (normalized_frame det w) as (Hf & _).
  pose proof (normalized_npix_length det w) as (L1 & L2).
  unfold ready.
  split.
  { exists (T a), c, r. split; [apply normalized_arr; [cbn; auto|exact Ha]|].
    now rewrite shape_T, Hsh. }
  split.
  { destruct Hbias as [H|[[s H]|[x H]]].
    - left. apply normalized_slot; [exact H|discriminate].
    - right. left. exists s. apply normalized_slot; [exact H|discriminate].
    - right. right. exists (T x). apply normalized_arr; [cbn; auto|exact H]. }
  split.
  { destruct Hbpix as [H|[x H]].
    - left. apply normalized_slot; [exact H|discriminate].
    - right. exists (T x). apply normalized_arr; [cbn; auto|exact H]. }
  split.
  { destruct Hamp as [x H]. exists (T x). apply normalized_arr; [cbn; auto|exact H]. }
  split; [rewrite Hf; now apply swap_fits_lengths|].
  split.
  { exists (flip_det d). split; [now apply normalized_det|]. split; [exact Hinv|].
    intros i Hi. destruct (Hsec i Hi) as (P1 & P2 & P3).
    cbn. rewrite !flip_secs_is_Some. auto. }
  rewrite L1, L2. split; assumption.
Qed.

Lemma fmap_rev_rev (o : option (list (list Z))) :
  @rev (list Z) <$> (@rev (list Z) <$> o) = o.
Proof. destruct o; cbn; [now rewrite rev_involutive|reflexivity]. Qed.

(** C2, as the code has it: there is no guard against a second call.  With the
    direction configured as 1, a second call on a detector that the first one
    normalized returns too, provided the reciprocal of the size is not zero,
    and it applies the flip once more: every dependent frame is now a copy of
    the transpose of its transpose, gaps and sections are back in their
    original order, and the size is the reciprocal of the reciprocal. *)
Theorem second_call_flips_again (dispdir : pyobj -> cfgval -> extern Z) (det : Z) (w : world)
        (d : DetPar)
        (Hready : ready det w)
        (Hcfg : trace_disp_direction (_argflag (self w)) = CInt 1)
        (Hdet : det_at det w = Some d)
        (Hinv : PrimFloat.eqb (1 / ysize d) 0 = false) :
  exists fd1 w1 fd2 w2,
    GetDispersionDirection dispdir det w = Ret fd1 w1 /\
    GetDispersionDirection dispdir det w1 = Ret fd2 w2 /\
    _transpose (self w2) = true /\ _dispaxis (self w2) = Some 0 /\
    (forall a x, In a dependent_frames -> arr_at a det w = Some x ->
                 arr_at a det w1 = Some (T x) /\ arr_at a det w2 = Some (T (T x))) /\
    exists d2, det_at det w2 = Some d2 /\
               xgap d2 = xgap d /\ ygap d2 = ygap d /\
               ysize d2 = (1 / (1 / ysize d))%float /\
               forall n : nat, (1 <= n)%nat -> Z.of_nat n <= numamplifiers d ->
                 ampsec d2 !! n = ampsec d !! n /\ datasec d2 !! n = datasec d !! n /\
                 oscansec d2 !! n = oscansec d !! n.
Proof.
  set (w1 := normalized det w). set (w2 := normalized det w1).
  pose proof (normalized_frame det w) as (_ & _ & _ & Haf).
  pose proof (normalized_frame det w1) as (_ & Ht & Hd & _).
  assert (R1 : ready det w1) by (now apply ready_normalized with d).
  exists (fitsdict w1), w1, (fitsdict w2), w2.
  split; [apply normalize_runs; [exact Hready|now left]|].
  split; [apply normalize_runs; [exact R1|left; unfold w1; now rewrite Haf]|].
  split; [exact Ht|]. split; [exact Hd|].
  split.
  { intros a x Hin Hx. split; [now apply normalized_arr|].
    apply normalized_arr; [exact Hin|]. now apply normalized_arr. }
  exists (flip_det (flip_det d)).
  split; [apply normalized_det; now apply normalized_det|].
  repeat split; cbn; rewrite !flip_secs_lookup by assumption; apply fmap_rev_rev.
Qed.

Lemma second_call_flips_again_witness :
  exists fd1 w1 fd2 w2,
    GetDispersionDirection (dispdir_const 0) 1 (loaded (argflag0 (CInt 1) true "bias"))
      = Ret fd1 w1 /\
    GetDispersionDirection (dispdir_const 0) 1 w1 = Ret fd2 w2 /\
    _transpose (self w2) = true /\ _dispaxis (self w2) = Some 0 /\
    (forall a x, In a dependent_frames ->
                 arr_at a 1 (loaded (argflag0 (CInt 1) true "bias")) = Some x ->
                 arr_at a 1 w1 = Some (T x) /\ arr_at a 1 w2 = Some (T (T x))) /\
    exists d2, det_at 1 w2 = Some d2 /\
               xgap d2 = xgap detpar0 /\ ygap d2 = ygap detpar0 /\
               ysize d2 = (1 / (1 / ysize detpar0))%float /\
               forall n : nat, (1 <= n)%nat -> Z.of_nat n <= numamplifiers detpar0 ->
                 ampsec d2 !! n = ampsec detpar0 !! n /\
                 datasec d2 !! n = datasec detpar0 !! n /\
                 oscansec d2 !! n = oscansec detpar0 !! n.
Proof.
  apply (second_call_flips_again (dispdir_const 0) 1 (loaded (argflag0 (CInt 1) true "bias"))
           detpar0 (loaded_ready _)); reflexivity.
Defined.

(** C2 as stated fails: the second call on the same detector returns normally,
    and the exposure it leaves differs from the one the first call left: the
    arc is back in its original orientation, and so are the gaps and the
    headers. *)
Lemma second_call_is_not_refused :
  exists fd1 w1 fd2 w2,
    GetDispersionDirection (dispdir_const 0) 1 (loaded (argflag0 (CInt 1) true "bias"))
      = Ret fd1 w1 /\
    GetDispersionDirection (dispdir_const 0) 1 w1 = Ret fd2 w2 /\
    arr_at a_msarc 1 w1 = Some (T arc23) /\ arr_at a_msarc 1 w2 = Some arc23 /\
    det_at 1 w1 = Some (flip_det detpar0) /\ det_at 1 w2 = Some detpar0 /\
    fd1 = {| naxis0 := [3; 3; 3]; naxis1 := [2; 2; 2] |} /\
    fd2 = {| naxis0 := [2; 2; 2]; naxis1 := [3; 3; 3] |} /\
    w2 <> w1.
Proof.
  do 4 eexists.
  split; [vm_compute; reflexivity|]. split; [vm_compute; reflexivity|].
  repeat split; try (vm_compute; reflexivity).
  intros H. apply (f_equal fitsdict) in H. vm_compute in H. discriminate.
Qed.

(** ** The headers of every frame *)

Lemma bind_inv {A B} (m : M A) (k : A -> M B) w b w' :
  (m ≫= k) w = Ret b w' -> exists a w1, m w = Ret a w1 /\ k a w1 = Ret b w'.
Proof.
  munfold. destruct (m w) as [a w1|e w1]; [|discriminate]. intros H. now exists a, w1.
Qed.

Lemma respects_Ret R {A} (m : M A) w a w' : respects R m -> m w = Ret a w' -> R w w'.
Proof. intros H E. specialize (H w). now rewrite E in H. Qed.

Section Respects.

Variable R : world -> world -> Prop.
Hypothesis R_refl : forall w, R w w.
Hypothesis R_trans : forall w1 w2 w3, R w1 w2 -> R w2 w3 -> R w1 w3.
Hypothesis R_logged : forall l s w, R w (logged l s w).

Lemma respects_ret {A} (a : A) : respects R (ret a).
Proof. intros w. apply R_refl. Qed.

Lemma respects_raise {A} e : respects R (@raise A e).
Proof. intros w. apply R_refl. Qed.

Lemma respects_gets {A} (f : world -> A) : respects R (gets f).
Proof. intros w. apply R_refl. Qed.

Lemma respects_call {A} (f : extern A) : respects R (call f).
Proof. intros w. unfold call. destruct (f w); apply R_refl. Qed.

Lemma respects_msg l s : respects R (msg l s).
Proof. intros w. apply R_logged. Qed.

Lemma respects_bind {A B} (m : M A) (k : A -> M B) :
  respects R m -> (forall a, respects R (k a)) -> respects R (m ≫= k).
Proof.
  intros Hm Hk w. specialize (Hm w). munfold.
  destruct (m w) as [a w1|e w1]; [|exact Hm].
  eapply R_trans; [exact Hm|apply Hk].
Qed.

Lemma respects_for_each {A} (l : list A) (body : A -> M unit) :
  (forall x, respects R (body x)) -> respects R (for_each l body).
Proof.
  intros Hb. induction l as [|x l IH]; [apply respects_ret|].
  cbn [for_each]. apply respects_bind; [apply Hb|intros _; exact IH].
Qed.

Lemma respects_getitem {A} (l : list A) i : respects R (getitem l i).
Proof.
  unfold getitem. destruct (py_index _ _); [|apply respects_raise].
  destruct (_ !! _); [apply respects_ret|apply respects_raise].
Qed.

Lemma respects_deref l : respects R (deref l).
Proof. intros w. unfold deref. destruct (_ !! _); apply R_refl. Qed.

Lemma respects_getslot a i : respects R (getslot a i).
Proof.
  unfold getslot. apply respects_bind; [apply respects_gets|intros; apply respects_getitem].
Qed.

Lemma respects_getdet i : respects R (getdet i).
Proof.
  unfold getdet. apply respects_bind; [apply respects_gets|intros; apply respects_getitem].
Qed.

Lemma respects_py_shape o : respects R (py_shape o).
Proof.
  destruct o; try apply respects_raise.
  apply respects_bind; [apply respects_deref|intros; apply respects_ret].
Qed.

Lemma respects_check_longest det : respects R (check_longest det).
Proof.
  unfold check_longest, get_dispaxis.
  repeat (apply respects_bind;
          [first [apply respects_getslot | apply respects_py_shape | apply respects_getitem
                 | apply respects_gets]
          | intros]).
  destruct (_ <? _)%nat; destruct (is_axis _ _); first [apply respects_msg|apply respects_ret].
Qed.

(** What remains to be shown of a computation that also writes: that each of
    its writes is related. *)
Hypothesis R_heap : forall h w, R w (with_heap h w).
Hypothesis R_frames : forall f w, R w (with_self (with_frames f) w).
Hypothesis R_det : forall f w, R w (with_self (with_det f) w).
Hypothesis R_npix : forall f w, R w (with_self (fun s => with_npix (f s).1 (f s).2 s) w).
Hypothesis R_transpose : forall b w, R w (with_self (with_transpose b) w).
Hypothesis R_dispaxis : forall d w, R w (with_self (with_dispaxis d) w).

Lemma respects_alloc a : respects R (alloc a).
Proof. intros w. apply (R_heap (heap w ++ [a]) w). Qed.

Lemma respects_py_copy o : respects R (py_copy o).
Proof.
  destruct o; try apply respects_raise.
  apply respects_bind; [apply respects_deref|intros].
  apply respects_bind; [apply respects_alloc|intros; apply respects_ret].
Qed.

Lemma respects_py_T o : respects R (py_T o).
Proof.
  destruct o; try apply respects_raise.
  apply respects_bind; [apply respects_deref|intros].
  apply respects_bind; [apply respects_alloc|intros; apply respects_ret].
Qed.

Lemma respects_setslot a i v : respects R (setslot a i v).
Proof.
  unfold setslot. apply respects_bind; [apply respects_gets|intros l].
  destruct (py_index _ _); [|apply respects_raise]. intros w. apply R_frames.
Qed.

Lemma respects_setdet i d : respects R (setdet i d).
Proof.
  unfold setdet. apply respects_bind; [apply respects_gets|intros l].
  destruct (py_index _ _); [|apply respects_raise]. intros w. apply R_det.
Qed.

Lemma respects_SetFrame a v det copy : respects R (SetFrame a v det copy).
Proof.
  unfold SetFrame. destruct copy; [|apply respects_setslot].
  apply respects_bind; [apply respects_py_copy|intros; apply respects_setslot].
Qed.

Lemma respects_SetMasterFrame v ftype det copy : respects R (SetMasterFrame v ftype det copy).
Proof.
  unfold SetMasterFrame. cbv zeta.
  apply respects_bind; [destruct copy; [apply respects_py_copy|apply respects_ret]|intros].
  repeat (destruct (String.eqb _ _); [apply respects_setslot|]).
  apply respects_bind; [apply respects_msg|intros; apply respects_raise].
Qed.

Lemma respects_transpose_slots det :
  respects R (transpose_bias det) /\ respects R (transpose_arc det) /\
  respects R (transpose_bpix det) /\ respects R (transpose_ampsec det).
Proof.
  unfold transpose_bias, transpose_arc, transpose_bpix, transpose_ampsec.
  repeat split.
  - apply respects_bind; [apply respects_getslot|intros [| |l]]; try apply respects_ret.
    apply respects_bind; [apply respects_getslot|intros].
    apply respects_bind; [apply respects_py_T|intros; apply respects_SetMasterFrame].
  - apply respects_bind; [apply respects_getslot|intros].
    apply respects_bind; [apply respects_py_T|intros; apply respects_SetMasterFrame].
  - apply respects_bind; [apply respects_getslot|intros [| |l]]; try apply respects_ret;
      (apply respects_bind; [apply respects_getslot|intros];
       apply respects_bind; [apply respects_py_T|intros; apply respects_SetFrame]).
  - apply respects_bind; [apply respects_getslot|intros].
    apply respects_bind; [apply respects_py_T|intros; apply respects_SetFrame].
Qed.

Lemma respects_flip_sections i n : respects R (flip_sections i n).
Proof.
  unfold flip_sections. cbv zeta.
  apply respects_bind; [apply respects_getdet|intros d].
  destruct (_ !! _); [|apply respects_raise].
  apply respects_bind; [apply respects_setdet|intros _].
  apply respects_bind; [apply respects_getdet|intros d'].
  destruct (_ !! _); [|apply respects_raise].
  apply respects_bind; [apply respects_setdet|intros _].
  apply respects_bind; [apply respects_getdet|intros d''].
  destruct (_ !! _); [apply respects_setdet|apply respects_raise].
Qed.

Lemma respects_params det :
  respects R (swap_gaps det;; invert_ysize det;; flip_all_sections det;;
              msg Work "Transpose gain and readnoise frames";; set_dispaxis (Some 0)).
Proof.
  apply respects_bind; [|intros _; apply respects_bind; [|intros _; apply respects_bind;
                         [|intros _; apply respects_bind; [apply respects_msg|intros _]]]].
  - unfold swap_gaps.
    apply respects_bind; [apply respects_getdet|intros d].
    apply respects_bind; [apply respects_getdet|intros d'].
    apply respects_bind; [apply respects_setdet|intros _].
    apply respects_bind; [apply respects_getdet|intros d'']. apply respects_setdet.
  - unfold invert_ysize. apply respects_bind; [apply respects_getdet|intros d].
    destruct (PrimFloat.eqb _ _); [apply respects_raise|apply respects_setdet].
  - unfold flip_all_sections. apply respects_bind; [apply respects_getdet|intros d].
    apply respects_for_each. intros x. apply respects_flip_sections.
  - intros w. apply R_dispaxis.
Qed.

Lemma respects_set_npix det : respects R (set_npix det).
Proof.
  unfold set_npix.
  apply respects_bind; [apply respects_getslot|intros o].
  apply respects_bind; [apply respects_py_shape|intros sh].
  destruct sh as [|a [|b [|? ?]]]; try apply respects_raise.
  apply respects_bind; [apply respects_gets|intros ns].
  destruct (py_index _ _); [|apply respects_raise].
  apply respects_bind.
  { intros w. apply (R_npix (fun s => (<[n := Some a]> (_nspec s), _nspat s))). }
  intros _. apply respects_bind; [apply respects_gets|intros np].
  destruct (py_index _ _); [|apply respects_raise].
  intros w. apply (R_npix (fun s => (_nspec s, <[n0 := Some b]> (_nspat s)))).
Qed.

End Respects.

Lemma same_headers_refl w : same_headers w w.
Proof. split; reflexivity. Qed.

Lemma same_headers_trans w1 w2 w3 :
  same_headers w1 w2 -> same_headers w2 w3 -> same_headers w1 w3.
Proof. intros [A B] [C D]. split; congruence. Qed.

Lemma same_exposure_refl w : same_exposure w w.
Proof. repeat split. Qed.

Lemma same_exposure_trans w1 w2 w3 :
  same_exposure w1 w2 -> same_exposure w2 w3 -> same_exposure w1 w3.
Proof. intros (A & B & C) (D & E & F). repeat split; congruence. Qed.

Create HintDb headers.
#[local] Hint Resolve same_headers_refl same_headers_trans : headers.
#[local] Hint Extern 1 (same_headers _ _) => (split; reflexivity) : headers.

Lemma swap_fits_equal fd :
  length (naxis0 fd) = length (naxis1 fd) -> swap_fits fd = swapped fd.
Proof.
  intros H. unfold swap_fits, swapped.
  rewrite take_ge, drop_ge, app_nil_r by lia. reflexivity.
Qed.

Lemma transpose_frames_headers det w w' :
  length (naxis0 (fitsdict w)) = length (naxis1 (fitsdict w)) ->
  transpose_frames det w = Ret tt w' ->
  fitsdict w' = swapped (fitsdict w) /\ _argflag (self w') = _argflag (self w).
Proof.
  intros Hlen H. unfold transpose_frames in H.
  rewrite (bind_Ret _ _ _ _ _ (msg_logged _ _ _)), bind_modify in H.
  set (w4 := with_self _ _) in H.
  destruct (respects_transpose_slots same_headers same_headers_refl same_headers_trans
              ltac:(auto with headers) ltac:(auto with headers) ltac:(auto with headers) det)
    as (Kb & Ka & Kp & Km).
  apply bind_inv in H as ([] & w5 & E5 & H).
  apply bind_inv in H as ([] & w6 & E6 & H).
  apply bind_inv in H as ([] & w7 & E7 & H).
  apply bind_inv in H as ([] & w8 & E8 & H).
  destruct (respects_Ret _ _ _ _ _ Kb E5) as (F5 & G5).
  destruct (respects_Ret _ _ _ _ _ Ka E6) as (F6 & G6).
  destruct (respects_Ret _ _ _ _ _ Kp E7) as (F7 & G7).
  destruct (respects_Ret _ _ _ _ _ Km E8) as (F8 & G8).
  assert (D8 : fitsdict w8 = fitsdict w) by (rewrite F8, F7, F6, F5; reflexivity).
  assert (A8 : _argflag (self w8) = _argflag (self w)) by (rewrite G8, G7, G6, G5; reflexivity).
  rewrite (bind_Ret _ _ _ _ _ (swap_keywords_ok w8 ltac:(rewrite D8; lia))) in H.
  rewrite swap_fits_equal in H by (now rewrite D8).
  pose proof (respects_params same_headers same_headers_refl same_headers_trans
                ltac:(auto with headers) ltac:(auto with headers) ltac:(auto with headers)
                det) as Kr.
  destruct (respects_Ret _ _ _ _ _ Kr H) as (F9 & G9).
  split; [rewrite F9; cbn; now rewrite D8|rewrite G9; exact A8].
Qed.

Lemma call_headers dispdir det w fd w' :
  trace_disp_direction (_argflag (self w)) = CInt 1 ->
  length (naxis0 (fitsdict w)) = length (naxis1 (fitsdict w)) ->
  GetDispersionDirection dispdir det w = Ret fd w' ->
  fd = fitsdict w' /\ fitsdict w' = swapped (fitsdict w) /\
  _argflag (self w') = _argflag (self w).
Proof.
  intros Hcfg Hlen H. unfold GetDispersionDirection in H.
  rewrite (bind_Ret _ _ _ _ _ (detect_axis_one dispdir det w (or_introl Hcfg))) in H.
  apply bind_inv in H as ([] & w2 & E2 & H).
  destruct (respects_Ret _ _ _ _ _
              (respects_check_longest same_exposure same_exposure_refl same_exposure_trans
                 ltac:(repeat split) det) E2) as (S2 & _ & D2).
  unfold get_dispaxis in H. rewrite bind_gets, S2 in H.
  change (is_axis _ 1) with true in H. cbv iota in H.
  apply bind_inv in H as ([] & w3 & E3 & H).
  destruct (transpose_frames_headers det w2 w3 ltac:(rewrite D2; exact Hlen) E3) as (D3 & A3).
  apply bind_inv in H as ([] & w4 & E4 & H).
  destruct (respects_Ret _ _ _ _ _
              (respects_set_npix same_headers same_headers_refl same_headers_trans
                 ltac:(auto with headers) det) E4) as (D4 & A4).
  unfold gets in H. injection H as <- <-.
  split; [reflexivity|]. split.
  - rewrite D4, D3, D2. reflexivity.
  - rewrite A4, A3, S2. reflexivity.
Qed.

Lemma swapped_twice fd : swapped (swapped fd) = fd.
Proof. now destruct fd. Qed.

Lemma normalize_all_headers dispdir (dets : list Z) :
  forall w w',
    trace_disp_direction (_argflag (self w)) = CInt 1 ->
    length (naxis0 (fitsdict w)) = length (naxis1 (fitsdict w)) ->
    normalize_all dispdir dets w = Ret tt w' ->
    fitsdict w' = if Nat.odd (length dets) then swapped (fitsdict w) else fitsdict w.
Proof.
  induction dets as [|det dets IH]; intros w w' Hcfg Hlen H.
  - cbn in H. injection H as <-. reflexivity.
  - unfold normalize_all in H. cbn [for_each] in H.
    apply bind_inv in H as ([] & w1 & E1 & H).
    apply bind_inv in E1 as (fd & w1' & E1 & Er). injection Er as <-.
    destruct (call_headers _ _ _ _ _ Hcfg Hlen E1) as (_ & D1 & A1).
    apply IH in H; [|now rewrite A1|rewrite D1; cbn; lia].
    rewrite H, D1, swapped_twice. cbn [length]. rewrite Nat.odd_succ, <- Nat.negb_odd.
    destruct (Nat.odd (length dets)); reflexivity.
Qed.

(** C10: a call that takes the transposing branch exchanges [naxis0] and
    [naxis1] for every frame of the exposure, whichever detector it was
    called for; so a run of such calls over several detectors leaves the
    headers exchanged when their number is odd, and as they were when it is
    even. *)
Theorem transposing_swaps_every_header :
  (forall dispdir det w,
     ready det w -> axis_one dispdir det w ->
     length (naxis0 (fitsdict w)) = length (naxis1 (fitsdict w)) ->
     exists fd w',
       GetDispersionDirection dispdir det w = Ret fd w' /\
       fd = fitsdict w' /\ fd = swapped (fitsdict w)) /\
  (forall dispdir dets w w',
     trace_disp_direction (_argflag (self w)) = CInt 1 ->
     length (naxis0 (fitsdict w)) = length (naxis1 (fitsdict w)) ->
     normalize_all dispdir dets w = Ret tt w' ->
     fitsdict w' = if Nat.odd (length dets) then swapped (fitsdict w) else fitsdict w).
Proof.
  split.
  - intros dispdir det w Hready Hax Hlen.
    exists (fitsdict (normalized det w)), (normalized det w).
    split; [now apply normalize_runs|]. split; [reflexivity|].
    rewrite (proj1 (normalized_frame det w)). now apply swap_fits_equal.
  - intros dispdir dets. apply normalize_all_headers.
Qed.

Lemma transposing_swaps_every_header_witness :
  (exists fd w',
     GetDispersionDirection (dispdir_const 0) 1 (loaded (argflag0 (CInt 1) true "bias"))
     = Ret fd w' /\ fd = fitsdict w' /\
     fd = swapped (fitsdict (loaded (argflag0 (CInt 1) true "bias")))) /\
  fitsdict (final (normalize_all (dispdir_const 0) [1; 2]
                                 (loaded2 (argflag0 (CInt 1) true "bias"))))
  = {| naxis0 := [2; 2; 2]; naxis1 := [3; 3; 3] |}.
Proof.
  split.
  - apply (proj1 transposing_swaps_every_header (dispdir_const 0) 1
             (loaded (argflag0 (CInt 1) true "bias")) (loaded_ready _)).
    + left. reflexivity.
    + reflexivity.
  - apply (proj2 transposing_swaps_every_header (dispdir_const 0) [1; 2]
             (loaded2 (argflag0 (CInt 1) true "bias"))).
    + reflexivity.
    + reflexivity.
    + vm_compute. reflexivity.
Defined.

(** ** The placeholder flat *)

(** C4, evaluated: with flat-fielding disabled the step returns [True] and
    stores two arrays of ones, but their shape is that of the whole list of
    arc slots seen as one array, not that of the detector's arc: one
    detector with a 2x3 arc gives 1x2x3, two such detectors give 2x2x3, and
    an exposure with no arc yet gives a one-dimensional array. *)
Theorem flat_placeholder_shape :
  (exists w',
     MasterFlatField no_frames no_match no_comb no_master flatnorm_const no_ragged 1
                     (loaded (argflag0 (CInt 1) false "bias"))
     = Ret true w' /\
     arr_at a_msarc 1 w' = Some arc23 /\ shape arc23 = [2; 3]%nat /\
     arr_at a_mspixflat 1 w' = Some (np_ones DFloat [1; 2; 3]%nat) /\
     arr_at a_mspixflatnrm 1 w' = Some (np_ones DFloat [1; 2; 3]%nat) /\
     msgs w' = [(Work, "Pixel Flat arrays need to be generated when not flat fielding");
                (Bug, "Blaze is currently undefined")]) /\
  (exists w',
     MasterFlatField no_frames no_match no_comb no_master flatnorm_const no_ragged 2
                     (loaded2 (argflag0 (CInt 1) false "bias"))
     = Ret true w' /\
     arr_at a_mspixflat 2 w' = Some (np_ones DFloat [2; 2; 3]%nat)) /\
  (exists w',
     MasterFlatField no_frames no_match no_comb no_master flatnorm_const no_ragged 1
                     (fresh 2 (argflag0 (CInt 1) false "bias"))
     = Ret true w' /\
     arr_at a_mspixflat 1 w' = Some (np_ones DObject [2]%nat)).
Proof.
  split; [|split]; eexists; (split; [vm_compute; reflexivity|]); repeat split; reflexivity.
Qed.

(** ** The cache-hit short-circuit *)

Lemma cached_getslot a det w :
  cached a det w -> exists o, o <> PyNone /\ getslot a (det - 1) w = Ret o w.
Proof.
  intros (k & o & Hk & Ho & Hne). exists o. split; [exact Hne|]. now apply getslot_Some with k.
Qed.

Lemma getslot_logged a i l s o w :
  getslot a i w = Ret o w -> getslot a i (logged l s w) = Ret o (logged l s w).
Proof.
  unfold getslot, getitem. munfold. cbn.
  destruct (py_index _ _); [|discriminate].
  destruct (_ !! _); [|discriminate]. intros [= ->]. reflexivity.
Qed.

Lemma arr_at_put_same a det w k l h x :
  py_index (length (slots_of a w)) (det - 1) = Some k -> h !! l = Some x ->
  arr_at a det (put_slot a k (PyArr l) (with_heap h w)) = Some x.
Proof.
  intros Hk Hl. pose proof (py_index_lt _ _ _ Hk) as Hlt.
  unfold arr_at, slot_at. rewrite slots_put_length, slots_of_with_heap, Hk.
  rewrite slots_put_same by (rewrite slots_of_with_heap; exact Hlt). exact Hl.
Qed.

Lemma arr_at_grow a det w w' x :
  arr_at a det w = Some x -> slots_of a w' = slots_of a w ->
  (exists ext, heap w' = heap w ++ ext) -> arr_at a det w' = Some x.
Proof.
  intros H Hs (ext & Hh). destruct (arr_at_slot _ _ _ _ H) as (l & Hl & Hx).
  unfold arr_at, slot_at in *. rewrite Hs.
  destruct (py_index _ _); [|discriminate]. rewrite Hl, Hh. now apply lookup_app_l_Some.
Qed.

Lemma alloc_ok x w : alloc x w = Ret (length (heap w)) (with_heap (heap w ++ [x]) w).
Proof. reflexivity. Qed.

Lemma copy_into_slot a det w k l x :
  py_index (length (slots_of a w)) (det - 1) = Some k -> heap w !! l = Some x ->
  (cpf ← py_copy (PyArr l); setslot a (det - 1) cpf) w
  = Ret tt (put_slot a k (PyArr (length (heap w))) (with_heap (heap w ++ [x]) w)).
Proof.
  intros Hk Hl. rewrite (bind_Ret _ _ _ _ _ (py_copy_arr _ _ _ Hl)).
  now apply setslot_Some.
Qed.

Section CacheHit.

Variable load_frames :
  list Z -> Z -> string -> option pyobj -> option bool -> option bool -> extern ndarray.
Variable match_frames : pyobj -> float -> bool -> string -> satlevel -> extern (list ndarray).
Variable comb_frames : pyobj -> Z -> string -> option (list nat) -> kwargs -> extern ndarray.
Variable load_master : string -> bool -> option string -> extern ndarray.
Variable flatnorm : Z -> pyobj -> extern (ndarray * ndarray).
Variable np_array_ragged : list pyobj -> extern ndarray.

Lemma cached_flat_normalizes det w p nrm blaze :
  reduce_flatfield (_argflag (self w)) = true ->
  arr_at a_mspixflat det w = Some p ->
  slot_at a_mspixflatnrm det w = Some PyNone ->
  is_Some (slot_at a_msblaze det w) ->
  (forall o w1, flatnorm det o w1 = inr (nrm, blaze)) ->
  exists w',
    MasterFlatField load_frames match_frames comb_frames load_master flatnorm
                    np_array_ragged det w = Ret false w' /\
    arr_at a_mspixflat det w' = Some p /\
    arr_at a_mspixflatnrm det w' = Some nrm /\
    arr_at a_msblaze det w' = Some blaze.
Proof.
  intros Hff Hp Hn [ob Hb] Hfn.
  destruct (arr_at_slot _ _ _ _ Hp) as (l & Hs & Hl).
  destruct (slot_at_index _ _ _ _ Hn) as (kn & Hkn & _).
  destruct (slot_at_index _ _ _ _ Hb) as (kb & Hkb & _).
  unfold MasterFlatField. rewrite bind_gets, Hff.
  rewrite (bind_Ret _ _ _ _ _ (getslot_at _ _ _ _ Hs)).
  rewrite (bind_Ret _ _ _ _ _ (msg_logged _ _ _)).
  set (wa := logged Info _ w).
  rewrite (bind_Ret _ _ _ _ _ (getslot_at a_mspixflatnrm det wa _ Hn)).
  set (wb := logged Info "Normalizing the pixel flat" wa).
  set (wc := with_heap (heap wb ++ [p]) wb).
  set (wd := with_heap (heap wc ++ [nrm]) wc).
  set (we := with_heap (heap wd ++ [blaze]) wd).
  set (wf := put_slot a_msblaze kb (PyArr (length (heap we))) (with_heap (heap we ++ [blaze]) we)).
  set (wg := put_slot a_mspixflatnrm kn (PyArr (length (heap wf)))
                      (with_heap (heap wf ++ [nrm]) wf)).
  assert (Hrun :
    (msg Info "Normalizing the pixel flat";;
     pf ← GetMasterFrame "pixflat" det true;
     '(nrm, blaze) ← call (flatnorm det pf);
     mspixflatnrm ← call_arr (fun _ => inr nrm);
     msblaze ← call_arr (fun _ => inr blaze);
     SetFrame a_msblaze msblaze det true;;
     SetMasterFrame mspixflatnrm "normpixflat" det true) wa = Ret tt wg).
  { rewrite (bind_Ret _ _ _ _ _ (msg_logged _ _ _)). fold wb.
    rewrite (GetMasterFrame_copy "pixflat" a_mspixflat det eq_refl).
    erewrite bind_Ret.
    2:{ rewrite (bind_Ret _ _ _ _ _ (getslot_at a_mspixflat det wb _ Hs)).
        apply py_copy_arr. exact Hl. }
    fold wc.
    erewrite bind_Ret by (unfold call; rewrite Hfn; reflexivity).
    cbv beta iota.
    erewrite bind_Ret by reflexivity. fold wd.
    erewrite bind_Ret by reflexivity. fold we.
    erewrite bind_Ret.
    2:{ unfold SetFrame. eapply copy_into_slot; [exact Hkb|].
        unfold we. cbn [heap with_heap]. apply lookup_snoc_new. }
    fold wf.
    rewrite (SetMasterFrame_copy "normpixflat" a_mspixflatnrm _ det eq_refl).
    eapply copy_into_slot; [exact Hkn|].
    unfold wf, we. cbn [heap with_heap put_slot with_self].
    apply lookup_snoc_old, lookup_snoc_old, lookup_snoc_new. }
  rewrite (bind_Ret _ _ _ _ _ Hrun).
  exists wg. split; [reflexivity|].
  split; [|split].
  - apply (arr_at_grow a_mspixflat det w); [exact Hp|reflexivity|].
    unfold wg, wf, we, wd, wc. cbn [heap with_heap put_slot with_self wb wa logged].
    eexists. rewrite <- !app_assoc. reflexivity.
  - unfold wg. apply arr_at_put_same; [exact Hkn|apply lookup_snoc_new].
  - apply (arr_at_grow a_msblaze det wf); [|reflexivity|eexists; reflexivity].
    unfold wf. apply arr_at_put_same; [exact Hkb|apply lookup_snoc_new].
Qed.

(** C3, as the code has it: [MasterBias], [MasterArc] and [MasterTrace] return
    [False] and change nothing but the log when the detector's slot is not
    [None]; [MasterFlatField], with flat-fielding enabled, does so when both
    the pixel flat and the normalized pixel flat are stored, and when only
    the pixel flat is stored it still returns [False] but normalizes the
    stored flat and fills the normalized-flat and blaze slots. *)
Theorem cached_steps_are_noops (det : Z) (w : world) :
  (cached a_msbias det w ->
     MasterBias load_frames comb_frames load_master det w
     = Ret false (logged Info ("An identical master "
                               +:+ reduce_usebias (_argflag (self w))
                               +:+ " frame already exists") w)) /\
  (cached a_msarc det w ->
     MasterArc load_frames comb_frames load_master det w
     = Ret false (logged Info "An identical master arc frame already exists" w)) /\
  (cached a_mstrace det w ->
     MasterTrace load_frames match_frames comb_frames load_master det w
     = Ret false (logged Info "An identical master trace frame already exists" w)) /\
  (reduce_flatfield (_argflag (self w)) = true ->
   cached a_mspixflat det w -> cached a_mspixflatnrm det w ->
     MasterFlatField load_frames match_frames comb_frames load_master flatnorm
                     np_array_ragged det w
     = Ret false (logged Info "An identical master pixflat frame already exists" w)) /\
  (forall p nrm blaze,
     reduce_flatfield (_argflag (self w)) = true ->
     arr_at a_mspixflat det w = Some p ->
     slot_at a_mspixflatnrm det w = Some PyNone ->
     is_Some (slot_at a_msblaze det w) ->
     (forall o w1, flatnorm det o w1 = inr (nrm, blaze)) ->
     exists w',
       MasterFlatField load_frames match_frames comb_frames load_master flatnorm
                       np_array_ragged det w = Ret false w' /\
       arr_at a_mspixflat det w' = Some p /\
       arr_at a_mspixflatnrm det w' = Some nrm /\
       arr_at a_msblaze det w' = Some blaze).
Proof.
  split; [|split; [|split; [|split]]]; [| | | |intros p nrm blaze; apply cached_flat_normalizes].
  - intros H. destruct (cached_getslot _ _ _ H) as (o & Hne & Hget).
    unfold MasterBias. rewrite (bind_Ret _ _ _ _ _ Hget). munfold.
    destruct o; [contradiction| |]; reflexivity.
  - intros H. destruct (cached_getslot _ _ _ H) as (o & Hne & Hget).
    unfold MasterArc. rewrite (bind_Ret _ _ _ _ _ Hget). munfold.
    destruct o; [contradiction| |]; reflexivity.
  - intros H. destruct (cached_getslot _ _ _ H) as (o & Hne & Hget).
    unfold MasterTrace. rewrite (bind_Ret _ _ _ _ _ Hget). munfold.
    destruct o; [contradiction| |]; reflexivity.
  - intros Hff H Hn. destruct (cached_getslot _ _ _ H) as (o & Hne & Hget).
    destruct (cached_getslot _ _ _ Hn) as (o' & Hne' & Hget').
    assert (Hget2 : getslot a_mspixflatnrm (det - 1)
                      (logged Info "An identical master pixflat frame already exists" w)
                    = Ret o' (logged Info "An identical master pixflat frame already exists" w)).
    { now apply getslot_logged. }
    unfold MasterFlatField. munfold. rewrite Hff. rewrite Hget.
    destruct o; [contradiction| |]; unfold msg; munfold; fold (logged Info
      "An identical master pixflat frame already exists" w); rewrite Hget2;
      (destruct o'; [contradiction| |]; reflexivity).
Qed.

End CacheHit.

Lemma cached_steps_are_noops_witness :
  MasterArc no_frames no_comb no_master 1 (loaded (argflag0 (CInt 1) true "arc"))
  = Ret false (logged Info "An identical master arc frame already exists"
                      (loaded (argflag0 (CInt 1) true "arc"))).
Proof.
  apply (cached_steps_are_noops no_frames no_match no_comb no_master flatnorm_const no_ragged
           1 (loaded (argflag0 (CInt 1) true "arc"))).
  exists 0%nat, (PyArr 0). repeat split. discriminate.
Defined.

(** C3 as stated fails for [MasterFlatField]: with the pixel flat stored and the
    normalized flat missing, it returns [False] and yet normalizes the stored
    flat, filling the normalized-flat and blaze slots. *)
Lemma cached_flat_still_normalizes :
  exists w',
    MasterFlatField no_frames no_match no_comb no_master flatnorm_const no_ragged 1
                    (flat_only (argflag0 (CInt 1) true "bias"))
    = Ret false w' /\
    slots_of a_mspixflatnrm (flat_only (argflag0 (CInt 1) true "bias")) = [PyNone] /\
    slots_of a_msblaze (flat_only (argflag0 (CInt 1) true "bias")) = [PyNone] /\
    frame_is w' a_mspixflatnrm 0 arc23 /\ frame_is w' a_msblaze 0 amp23.
Proof.
  eexists. split; [vm_compute; reflexivity|].
  split; [reflexivity|]. split; [reflexivity|].
  split; eexists; split; reflexivity.
Qed.


(** * Further properties *)

(** ** The store: writes and reads *)

Lemma SetFrame_copy_ok a det w k l x :
  py_index (length (slots_of a w)) (det - 1) = Some k -> heap w !! l = Some x ->
  SetFrame a (PyArr l) det true w
  = Ret tt (put_slot a k (PyArr (length (heap w))) (with_heap (heap w ++ [x]) w)).
Proof. intros Hk Hl. unfold SetFrame. now apply copy_into_slot. Qed.

Lemma GetFrame_copy_ok a det w l x :
  slot_at a det w = Some (PyArr l) -> heap w !! l = Some x ->
  GetFrame a det true w = Ret (PyArr (length (heap w))) (with_heap (heap w ++ [x]) w).
Proof.
  intros Hs Hl. unfold GetFrame.
  rewrite (bind_Ret _ _ _ _ _ (getslot_at _ _ _ _ Hs)). now apply py_copy_arr.
Qed.

Lemma slot_at_put_same a det w k v h :
  py_index (length (slots_of a w)) (det - 1) = Some k ->
  slot_at a det (put_slot a k v (with_heap h w)) = Some v.
Proof.
  intros Hk. pose proof (py_index_lt _ _ _ Hk) as Hlt.
  unfold slot_at. rewrite slots_put_length, slots_of_with_heap, Hk.
  apply slots_put_same. now rewrite slots_of_with_heap.
Qed.

(** X1: [SetFrame] overwrites: after two copying writes to the same slot of
    any of the per-detector lists, a copying [GetFrame] returns a new array
    object whose contents are those of the second value; the first value is
    no longer reachable from the slot. *)
Theorem setframe_last_write_wins (w : world) (a : attr) (det : Z) (k : nat)
        (l1 l2 : loc) (x1 x2 : ndarray)
        (Hdet : py_index (length (slots_of a w)) (det - 1) = Some k)
        (H1 : heap w !! l1 = Some x1) (H2 : heap w !! l2 = Some x2) :
  exists w2 r w3,
    (SetFrame a (PyArr l1) det true;; SetFrame a (PyArr l2) det true) w = Ret tt w2 /\
    arr_at a det w2 = Some x2 /\
    GetFrame a det true w2 = Ret (PyArr r) w3 /\
    heap w3 !! r = Some x2 /\ r <> l1 /\ r <> l2 /\
    slot_at a det w3 <> Some (PyArr r) /\ arr_at a det w3 = Some x2.
Proof.
  pose proof (lookup_lt_Some _ _ _ H1) as L1. pose proof (lookup_lt_Some _ _ _ H2) as L2.
  set (w1 := put_slot a k (PyArr (length (heap w))) (with_heap (heap w ++ [x1]) w)).
  assert (Hk1 : py_index (length (slots_of a w1)) (det - 1) = Some k).
  { unfold w1. now rewrite slots_put_length, slots_of_with_heap. }
  assert (H21 : heap w1 !! l2 = Some x2) by (now apply lookup_snoc_old).
  set (w2 := put_slot a k (PyArr (length (heap w1))) (with_heap (heap w1 ++ [x2]) w1)).
  assert (Hs2 : slot_at a det w2 = Some (PyArr (length (heap w1)))).
  { apply slot_at_put_same. exact Hk1. }
  assert (Hh2 : heap w2 !! length (heap w1) = Some x2) by apply lookup_snoc_new.
  assert (Len1 : length (heap w1) = S (length (heap w))).
  { unfold w1. cbn. rewrite length_app. cbn. lia. }
  assert (Len2 : length (heap w2) = S (length (heap w1))).
  { unfold w2. cbn [heap put_slot with_self with_heap]. rewrite length_app. cbn. lia. }
  exists w2, (length (heap w2)), (with_heap (heap w2 ++ [x2]) w2).
  split.
  { rewrite (bind_Ret _ _ _ _ _ (SetFrame_copy_ok _ _ _ _ _ _ Hdet H1)).
    apply SetFrame_copy_ok; assumption. }
  split; [unfold arr_at; now rewrite Hs2|].
  split; [now apply GetFrame_copy_ok with (l := length (heap w1))|].
  split; [apply lookup_snoc_new|].
  split; [clearbody w1 w2; unfold loc in *; lia|].
  split; [clearbody w1 w2; unfold loc in *; lia|].
  assert (Hs3 : slot_at a det (with_heap (heap w2 ++ [x2]) w2) = Some (PyArr (length (heap w1))))
    by exact Hs2.
  split.
  - rewrite Hs3. intros E.
    assert (E' : length (heap w1) = length (heap w2)) by congruence.
    clearbody w1 w2. lia.
  - unfold arr_at. rewrite Hs3. now apply lookup_snoc_old.
Qed.

Lemma setframe_last_write_wins_witness :
  exists w2 r w3,
    (SetFrame a_bpix (PyArr 0) 1 true;; SetFrame a_bpix (PyArr 1) 1 true)
      (loaded (argflag0 (CInt 1) true "bias")) = Ret tt w2 /\
    arr_at a_bpix 1 w2 = Some amp23 /\
    GetFrame a_bpix 1 true w2 = Ret (PyArr r) w3 /\
    heap w3 !! r = Some amp23 /\ r <> 0%nat /\ r <> 1%nat /\
    slot_at a_bpix 1 w3 <> Some (PyArr r) /\ arr_at a_bpix 1 w3 = Some amp23.
Proof.
  exact (setframe_last_write_wins (loaded (argflag0 (CInt 1) true "bias")) a_bpix 1 0%nat
           0%nat 1%nat arc23 amp23 eq_refl eq_refl eq_refl).
Defined.

Lemma only_slot_changed_setslot a i v w0 w :
  _frames (self w0) = _frames (self w) -> (exists ext, heap w0 = heap w ++ ext) ->
  _det (self w0) = _det (self w) -> fitsdict w0 = fitsdict w ->
  _transpose (self w0) = _transpose (self w) -> _dispaxis (self w0) = _dispaxis (self w) ->
  only_slot_changed a i w (final (setslot a i v w0)).
Proof.
  intros Hf (ext & Hh) Hd Hfd Ht Hx.
  assert (Hs : forall b, slots_of b w0 = slots_of b w) by (intros b; unfold slots_of; now rewrite Hf).
  assert (Hheap : forall l x, heap w !! l = Some x -> heap w0 !! l = Some x).
  { intros l x Hl. rewrite Hh. now apply lookup_app_l_Some. }
  destruct (py_index (length (slots_of a w0)) i) as [k|] eqn:Hk.
  - rewrite (setslot_Some _ _ _ _ _ Hk). cbn [final].
    repeat split; try assumption.
    + intros b. destruct (decide (b = a)) as [->|Hne].
      * now rewrite slots_put_length, Hs.
      * rewrite <- Hs. unfold put_slot, slots_of. destruct a, b; try congruence; reflexivity.
    + intros b j [Hne|Hj].
      * rewrite <- Hs. unfold put_slot, slots_of. destruct a, b; try congruence; reflexivity.
      * rewrite <- (Hs b). rewrite Hs in Hk.
        destruct (decide (b = a)) as [->|Hne].
        -- assert (k <> j) by congruence.
           unfold put_slot, slots_of. destruct a; cbn; now apply list_lookup_insert_ne.
        -- unfold put_slot, slots_of. destruct a, b; try congruence; reflexivity.
  - rewrite (setslot_None _ _ _ _ Hk). cbn [final].
    repeat split; try assumption; intros; now rewrite Hs.
Qed.

Lemma only_slot_changed_id a i w : only_slot_changed a i w w.
Proof. repeat split; auto. Qed.

Lemma only_slot_changed_logged a i l s w w' :
  only_slot_changed a i w w' -> only_slot_changed a i w (logged l s w').
Proof. intros H. exact H. Qed.

Lemma final_py_copy v w :
  final (py_copy v w) = w \/
  exists x cpf, py_copy v w = Ret cpf (with_heap (heap w ++ [x]) w).
Proof.
  destruct v as [| |l]; try (left; reflexivity).
  unfold py_copy, deref, alloc. munfold.
  destruct (heap w !! l) as [x|]; [right; now exists x, (PyArr (length (heap w)))|now left].
Qed.

Lemma only_slot_changed_write a i v (copy : bool) w :
  only_slot_changed a i w
    (final ((cpf ← (if copy then py_copy v else ret v); setslot a i cpf) w)).
Proof.
  destruct copy.
  - destruct (final_py_copy v w) as [Hf|(x & cpf & Hc)].
    + destruct (py_copy v w) as [c w1|e w1] eqn:E; cbn in Hf; subst w1.
      * rewrite (bind_Ret _ _ _ _ _ E).
        apply only_slot_changed_setslot; try reflexivity. exists []. now rewrite app_nil_r.
      * rewrite (bind_Raise _ _ _ _ _ E). apply only_slot_changed_id.
    + rewrite (bind_Ret _ _ _ _ _ Hc).
      apply only_slot_changed_setslot; try reflexivity. now exists [x].
  - change ((cpf ← ret v; setslot a i cpf) w) with (setslot a i v w).
    apply only_slot_changed_setslot; try reflexivity. exists []. now rewrite app_nil_r.
Qed.

Lemma SetMasterFrame_unknown v ftype det (copy : bool) w cpf w1 :
  kind_attr ftype = None ->
  (if copy then py_copy v else ret v) w = Ret cpf w1 ->
  SetMasterFrame v ftype det copy w
  = Raise (PypitError "Please contact the authors")
          (logged Bug ("I could not set master frame of type: " +:+ ftype) w1).
Proof.
  intros Hk Hc. unfold kind_attr in Hk. unfold SetMasterFrame. cbv zeta.
  rewrite (bind_Ret _ _ _ _ _ Hc).
  repeat (destruct (String.eqb ftype _); [discriminate|]). reflexivity.
Qed.

(** X2: a write through [SetFrame] or [SetMasterFrame], in either mode, whether
    it returns or raises, touches nothing but the one entry it addresses:
    every slot list keeps its length, every other list and every other entry
    of the same list is as before, no existing array object is altered, and
    detector parameters, headers and flags are as before.  A kind that
    [SetMasterFrame] does not know changes no slot at all. *)
Theorem writes_touch_one_slot (w : world) (v : pyobj) (det : Z) (copy : bool) :
  (forall a, only_slot_changed a (det - 1) w (final (SetFrame a v det copy w))) /\
  (forall ftype a, kind_attr ftype = Some a ->
     only_slot_changed a (det - 1) w (final (SetMasterFrame v ftype det copy w))) /\
  (forall ftype, kind_attr ftype = None ->
     same_slots w (final (SetMasterFrame v ftype det copy w)) /\
     forall w', SetMasterFrame v ftype det copy w <> Ret tt w').
Proof.
  split; [|split].
  - intros a. unfold SetFrame. destruct copy.
    + apply (only_slot_changed_write a (det - 1) v true).
    + apply (only_slot_changed_write a (det - 1) v false).
  - intros ftype a Hk. destruct copy.
    + rewrite (SetMasterFrame_copy _ _ _ _ Hk).
      apply (only_slot_changed_write a (det - 1) v true).
    + rewrite (SetMasterFrame_shared _ _ _ _ Hk).
      apply (only_slot_changed_write a (det - 1) v false).
  - intros ftype Hk.
    destruct ((if copy then py_copy v else ret v) w) as [cpf w1|e w1] eqn:Hc.
    + rewrite (SetMasterFrame_unknown _ _ _ _ _ _ _ Hk Hc). split; [|discriminate].
      unfold same_slots. cbn.
      destruct copy; [|now injection Hc as <- <-].
      destruct (final_py_copy v w) as [Hf|(x & c & Hx)].
      * rewrite Hc in Hf. cbn in Hf. now subst.
      * rewrite Hx in Hc. now injection Hc as <- <-.
    + assert (E : SetMasterFrame v ftype det copy w = Raise e w1).
      { unfold SetMasterFrame. cbv zeta. now rewrite (bind_Raise _ _ _ _ _ Hc). }
      rewrite E. split; [|discriminate].
      unfold same_slots. cbn.
      destruct copy; [|discriminate].
      destruct (final_py_copy v w) as [Hf|(x & c & Hx)].
      * rewrite Hc in Hf. cbn in Hf. now subst.
      * rewrite Hx in Hc. discriminate.
Qed.

Lemma writes_touch_one_slot_witness :
  only_slot_changed a_msarc (2 - 1) (loaded2 (argflag0 (CInt 1) true "bias"))
    (final (SetMasterFrame (PyArr 1) "arc" 2 true (loaded2 (argflag0 (CInt 1) true "bias")))).
Proof.
  apply (writes_touch_one_slot (loaded2 (argflag0 (CInt 1) true "bias")) (PyArr 1) 2 true).
  reflexivity.
Defined.

(** ** Shared references and read-only access *)

Lemma store_ok l x y w :
  heap w !! l = Some x -> store l y w = Ret tt (with_heap (<[l := y]> (heap w)) w).
Proof. intros H. unfold store. now rewrite H. Qed.

(** X3: with [copy=False] the store keeps the caller's own object: after
    [SetMasterFrame(frame, ftype, det, copy=False)] no array has been created,
    [GetMasterFrame(ftype, det, copy=False)] hands back the very reference
    that was stored, and an assignment into the caller's array is seen by the
    store and by every later copy taken from it. *)
Theorem shared_frame_is_aliased (w : world) (ftype : string) (a : attr) (det : Z) (k : nat)
        (l : loc) (x y : ndarray)
        (Hkind : kind_attr ftype = Some a)
        (Hdet : py_index (length (slots_of a w)) (det - 1) = Some k)
        (Hl : heap w !! l = Some x) :
  exists w1 w2 r w3,
    SetMasterFrame (PyArr l) ftype det false w = Ret tt w1 /\
    heap w1 = heap w /\
    GetMasterFrame ftype det false w1 = Ret (PyArr l) w1 /\
    store l y w1 = Ret tt w2 /\
    arr_at a det w2 = Some y /\
    GetMasterFrame ftype det true w2 = Ret (PyArr r) w3 /\
    heap w3 !! r = Some y.
Proof.
  pose proof (py_index_lt _ _ _ Hdet) as Hlt.
  set (w1 := put_slot a k (PyArr l) w).
  set (w2 := with_heap (<[l := y]> (heap w)) w1).
  assert (Hs1 : slot_at a det w1 = Some (PyArr l)).
  { unfold slot_at, w1. rewrite slots_put_length, Hdet. now apply slots_put_same. }
  assert (Hh2 : heap w2 !! l = Some y).
  { cbn. apply list_lookup_insert_eq. now apply lookup_lt_Some with x. }
  assert (Hs2 : slot_at a det w2 = Some (PyArr l)) by exact Hs1.
  exists w1, w2, (length (heap w2)), (with_heap (heap w2 ++ [y]) w2).
  split; [rewrite (SetMasterFrame_shared _ _ _ _ Hkind); now apply setslot_Some|].
  split; [reflexivity|].
  split; [rewrite (GetMasterFrame_shared _ _ _ Hkind); now apply getslot_at|].
  split; [now apply store_ok with x|].
  split; [unfold arr_at; now rewrite Hs2|].
  split.
  - rewrite (GetMasterFrame_copy _ _ _ Hkind).
    rewrite (bind_Ret _ _ _ _ _ (getslot_at _ _ _ _ Hs2)). now apply py_copy_arr.
  - apply lookup_snoc_new.
Qed.

Lemma shared_frame_is_aliased_witness :
  exists w1 w2 r w3,
    SetMasterFrame (PyArr 1) "bias" 1 false (loaded (argflag0 (CInt 1) true "bias")) = Ret tt w1 /\
    heap w1 = heap (loaded (argflag0 (CInt 1) true "bias")) /\
    GetMasterFrame "bias" 1 false w1 = Ret (PyArr 1) w1 /\
    store 1%nat arc23 w1 = Ret tt w2 /\
    arr_at a_msbias 1 w2 = Some arc23 /\
    GetMasterFrame "bias" 1 true w2 = Ret (PyArr r) w3 /\
    heap w3 !! r = Some arc23.
Proof.
  exact (shared_frame_is_aliased (loaded (argflag0 (CInt 1) true "bias")) "bias" a_msbias 1
           0%nat 1%nat amp23 arc23 eq_refl eq_refl eq_refl).
Defined.

Lemma reads_only_refl w : reads_only w w.
Proof. repeat split. exists []. now rewrite app_nil_r. Qed.

Lemma reads_only_logged l s w : reads_only w (logged l s w).
Proof. repeat split. exists []. cbn. now rewrite app_nil_r. Qed.

Lemma final_getslot a i w : final (getslot a i w) = w.
Proof.
  unfold getslot, getitem. munfold.
  destruct (py_index _ _); [|reflexivity]. now destruct (_ !! _).
Qed.

Lemma reads_only_fetch a i (copy : bool) w :
  reads_only w (final ((if copy then v ← getslot a i; py_copy v else getslot a i) w)).
Proof.
  destruct copy; [|rewrite final_getslot; apply reads_only_refl].
  pose proof (final_getslot a i w) as Hg.
  destruct (getslot a i w) as [v w1|e w1] eqn:E; cbn in Hg; subst w1.
  - rewrite (bind_Ret _ _ _ _ _ E).
    destruct (final_py_copy v w) as [->|(x & c & ->)]; [apply reads_only_refl|].
    repeat split. now exists [x].
  - rewrite (bind_Raise _ _ _ _ _ E). apply reads_only_refl.
Qed.

Lemma GetMasterFrame_unknown ftype det copy w :
  kind_attr ftype = None ->
  GetMasterFrame ftype det copy w
  = Raise (PypitError "Please contact the authors")
          (logged Bug ("I could not get master frame of type: " +:+ ftype) w).
Proof.
  intros Hk. unfold kind_attr in Hk. unfold GetMasterFrame. cbv zeta.
  repeat (destruct (String.eqb ftype _); [discriminate|]). reflexivity.
Qed.

(** X4: the getters only read.  Whatever the kind, the detector number and
    the mode, and whether they return or raise, [GetFrame] and
    [GetMasterFrame] leave the exposure (all slot lists, parameters and
    flags) and the headers as they were and alter no existing array; with
    [copy=False] they create no array either. *)
Theorem getters_only_read (w : world) (a : attr) (ftype : string) (det : Z) (copy : bool) :
  reads_only w (final (GetFrame a det copy w)) /\
  reads_only w (final (GetMasterFrame ftype det copy w)) /\
  heap (final (GetFrame a det false w)) = heap w /\
  heap (final (GetMasterFrame ftype det false w)) = heap w.
Proof.
  split; [|split; [|split]].
  - unfold GetFrame. apply reads_only_fetch.
  - destruct (kind_attr ftype) as [b|] eqn:Hk.
    + destruct copy.
      * rewrite (GetMasterFrame_copy _ _ _ Hk). apply (reads_only_fetch b (det - 1) true).
      * rewrite (GetMasterFrame_shared _ _ _ Hk). apply (reads_only_fetch b (det - 1) false).
    + rewrite (GetMasterFrame_unknown _ _ _ _ Hk). apply reads_only_logged.
  - unfold GetFrame. now rewrite final_getslot.
  - destruct (kind_attr ftype) as [b|] eqn:Hk.
    + rewrite (GetMasterFrame_shared _ _ _ Hk). now rewrite final_getslot.
    + now rewrite (GetMasterFrame_unknown _ _ _ _ Hk).
Qed.

(** X5: a slot that holds no array ([None], or a string such as 'overscan')
    can only be read with [copy=False]: the default, copying read raises
    [AttributeError] and changes nothing, for [GetFrame] and for
    [GetMasterFrame] alike, while the shared read returns the value. *)
Theorem copying_read_needs_an_array (w : world) (ftype : string) (a : attr) (det : Z)
        (o : pyobj)
        (Hkind : kind_attr ftype = Some a)
        (Hslot : slot_at a det w = Some o)
        (Hno : forall l, o <> PyArr l) :
  (exists m, GetMasterFrame ftype det true w = Raise (AttributeError m) w /\
             GetFrame a det true w = Raise (AttributeError m) w) /\
  GetMasterFrame ftype det false w = Ret o w /\
  GetFrame a det false w = Ret o w.
Proof.
  pose proof (getslot_at _ _ _ _ Hslot) as Hg.
  rewrite (GetMasterFrame_copy _ _ _ Hkind), (GetMasterFrame_shared _ _ _ Hkind).
  unfold GetFrame.
  split; [|now split].
  destruct o as [|s|l].
  - eexists. split; rewrite (bind_Ret _ _ _ _ _ Hg); reflexivity.
  - eexists. split; rewrite (bind_Ret _ _ _ _ _ Hg); reflexivity.
  - now destruct (Hno l).
Qed.

Lemma copying_read_needs_an_array_witness :
  (exists m, GetMasterFrame "bias" 1 true (loaded (argflag0 (CInt 1) true "bias"))
             = Raise (AttributeError m) (loaded (argflag0 (CInt 1) true "bias")) /\
             GetFrame a_msbias 1 true (loaded (argflag0 (CInt 1) true "bias"))
             = Raise (AttributeError m) (loaded (argflag0 (CInt 1) true "bias"))) /\
  GetMasterFrame "bias" 1 false (loaded (argflag0 (CInt 1) true "bias"))
  = Ret PyNone (loaded (argflag0 (CInt 1) true "bias")) /\
  GetFrame a_msbias 1 false (loaded (argflag0 (CInt 1) true "bias"))
  = Ret PyNone (loaded (argflag0 (CInt 1) true "bias")).
Proof.
  apply (copying_read_needs_an_array (loaded (argflag0 (CInt 1) true "bias")) "bias" a_msbias 1
           PyNone eq_refl eq_refl).
  intros l. discriminate.
Defined.

(** ** The steps that build a master frame *)

Lemma same_object_refl w : same_object w w.
Proof. now split. Qed.

Lemma same_object_trans w1 w2 w3 : same_object w1 w2 -> same_object w2 w3 -> same_object w1 w3.
Proof. intros [H1 H2] [H3 H4]. split; congruence. Qed.

Lemma same_object_logged l s w : same_object w (logged l s w).
Proof. now split. Qed.

Lemma same_object_heap h w : same_object w (with_heap h w).
Proof. now split. Qed.

Lemma so_store l a : respects same_object (store l a).
Proof. intros w. unfold store. destruct (_ !! _); now split. Qed.

Ltac so :=
  repeat first
    [ apply (respects_ret same_object same_object_refl)
    | apply (respects_raise same_object same_object_refl)
    | apply (respects_gets same_object same_object_refl)
    | apply (respects_call same_object same_object_refl)
    | apply (respects_msg same_object same_object_logged)
    | apply (respects_getitem same_object same_object_refl)
    | apply (respects_deref same_object same_object_refl)
    | apply (respects_getslot same_object same_object_refl same_object_trans)
    | apply (respects_getdet same_object same_object_refl same_object_trans)
    | apply (respects_py_shape same_object same_object_refl same_object_trans)
    | apply (respects_alloc same_object same_object_heap)
    | apply (respects_py_copy same_object same_object_refl same_object_trans same_object_heap)
    | apply so_store
    | match goal with
      | |- respects _ (_ ≫= _) => apply (respects_bind same_object same_object_trans); [|intros]
      end ].

Lemma so_call_arr f : respects same_object (call_arr f).
Proof. unfold call_arr. so. Qed.

Lemma so_mapM {A B} (f : A -> M B) (l : list A) :
  (forall x, respects same_object (f x)) -> respects same_object (mapM f l).
Proof.
  intros Hf. induction l as [|x l IH]; cbn [mapM]; [so|].
  apply (respects_bind same_object same_object_trans); [apply Hf|intros y].
  apply (respects_bind same_object same_object_trans); [exact IH|intros ys]. so.
Qed.

Lemma quiet_respects {A} (m : M A) : respects same_object m -> quiet_failure m.
Proof. intros H w e w' E. specialize (H w). now rewrite E in H. Qed.

Lemma quiet_bind {A B} (m : M A) (k : A -> M B) :
  respects same_object m -> (forall a, quiet_failure (k a)) -> quiet_failure (m ≫= k).
Proof.
  intros Hm Hk w e w'. specialize (Hm w). munfold.
  destruct (m w) as [a w1|e1 w1]; cbn in Hm.
  - intros E. eapply same_object_trans; [exact Hm|]. exact (Hk a w1 e w' E).
  - intros [= <- <-]. exact Hm.
Qed.

Lemma quiet_seq_ret {A B} (m : M A) (b : B) : quiet_failure m -> quiet_failure (m;; ret b).
Proof.
  intros Hm w e w'. specialize (Hm w). munfold.
  destruct (m w) as [a w1|e1 w1]; [discriminate|]. intros [= <- <-]. now apply (Hm e1).
Qed.

Lemma quiet_setslot a i v : quiet_failure (setslot a i v).
Proof.
  intros w e w'. unfold setslot. munfold. destruct (py_index _ _); [discriminate|].
  intros [= <- <-]. apply same_object_refl.
Qed.

Lemma quiet_SetMasterFrame v ftype det copy : quiet_failure (SetMasterFrame v ftype det copy).
Proof.
  unfold SetMasterFrame. cbv zeta.
  apply quiet_bind; [destruct copy; so|intros cpf].
  repeat (destruct (String.eqb _ _); [apply quiet_setslot|]).
  apply quiet_respects. unfold msgs_error. so.
Qed.

Lemma quiet_SetFrame a v det copy : quiet_failure (SetFrame a v det copy).
Proof.
  unfold SetFrame. destruct copy; [|apply quiet_setslot].
  apply quiet_bind; [so|intros; apply quiet_setslot].
Qed.

Lemma so_GetMasterFrame ftype det copy : respects same_object (GetMasterFrame ftype det copy).
Proof.
  unfold GetMasterFrame. cbv zeta.
  repeat (destruct (String.eqb _ _); [destruct copy; so|]).
  unfold msgs_error. so.
Qed.

Lemma put_slot_id a k v w : slots_of a w !! k = Some v -> put_slot a k v w = w.
Proof.
  intros H. unfold put_slot. rewrite (list_insert_id _ _ _ H).
  destruct w as [s h fd m]. destruct s as [? ? ? ? ? ? ? ? ? ? ? fr]. destruct fr.
  unfold slots_of. destruct a; reflexivity.
Qed.

Section Steps.

Variable load_frames :
  list Z -> Z -> string -> option pyobj -> option bool -> option bool -> extern ndarray.
Variable match_frames : pyobj -> float -> bool -> string -> satlevel -> extern (list ndarray).
Variable comb_frames : pyobj -> Z -> string -> option (list nat) -> kwargs -> extern ndarray.
Variable load_master : string -> bool -> option string -> extern ndarray.
Variable badpix : Z -> pyobj -> extern ndarray.

Lemma so_sub_masters sfs i sub numarr det ft comb :
  respects same_object (sub_masters comb_frames sfs i sub numarr det ft comb).
Proof.
  revert i numarr. induction sfs as [|sf rest IH]; intros i numarr; cbn [sub_masters]; [so|].
  so; try apply so_call_arr;
    try match goal with |- respects _ (match ?x with _ => _ end) => destruct x; so end.
  apply IH.
Qed.

Lemma so_combine_groups frames sframes det ft comb :
  respects same_object (combine_groups comb_frames frames sframes det ft comb).
Proof.
  unfold combine_groups.
  apply (respects_bind same_object same_object_trans); [apply so_mapM; intros; so|intros sfs].
  so; try apply so_call_arr. apply so_sub_masters.
Qed.

(** X6: with [usebias = 'overscan'] and an empty slot, [MasterBias] stores the
    string 'overscan' itself as the master bias, logs nothing and returns
    [False]; from then on the slot counts as made (a second call is a cache
    hit), the copying [GetMasterFrame('bias', det)] raises [AttributeError],
    and only the shared read returns the marker. *)
Theorem overscan_bias_is_a_marker (det : Z) (w : world) (k : nat)
        (Hk : py_index (length (slots_of a_msbias w)) (det - 1) = Some k)
        (Hnone : slots_of a_msbias w !! k = Some PyNone)
        (Hmode : reduce_usebias (_argflag (self w)) = "overscan") :
  let w1 := put_slot a_msbias k (PyStr "overscan") w in
  MasterBias load_frames comb_frames load_master det w = Ret false w1 /\
  MasterBias load_frames comb_frames load_master det w1
  = Ret false (logged Info "An identical master overscan frame already exists" w1) /\
  (exists m, GetMasterFrame "bias" det true w1 = Raise (AttributeError m) w1) /\
  GetMasterFrame "bias" det false w1 = Ret (PyStr "overscan") w1.
Proof.
  intros w1. pose proof (py_index_lt _ _ _ Hk) as Hlt.
  assert (Hs1 : slot_at a_msbias det w1 = Some (PyStr "overscan")).
  { unfold slot_at, w1. rewrite slots_put_length, Hk. now apply slots_put_same. }
  pose proof (getslot_at _ _ _ _ Hs1) as Hg1.
  split; [|split; [|split]].
  - unfold MasterBias. rewrite (bind_Ret _ _ _ _ _ (getslot_Some _ _ _ _ _ Hk Hnone)).
    rewrite bind_gets. cbv zeta. rewrite Hmode. cbn [String.eqb Ascii.eqb Bool.eqb orb].
    rewrite (SetMasterFrame_shared "bias" a_msbias _ det eq_refl).
    now rewrite (bind_Ret _ _ _ _ _ (setslot_Some _ _ _ _ _ Hk)).
  - unfold MasterBias. rewrite (bind_Ret _ _ _ _ _ Hg1). rewrite bind_gets. cbv zeta.
    change (_argflag (self w1)) with (_argflag (self w)). rewrite Hmode. reflexivity.
  - eexists. rewrite (GetMasterFrame_copy "bias" a_msbias det eq_refl).
    rewrite (bind_Ret _ _ _ _ _ Hg1). reflexivity.
  - rewrite (GetMasterFrame_shared "bias" a_msbias det eq_refl). exact Hg1.
Qed.

(** X7: with [usebias = 'none'] and an empty slot, [MasterBias] returns
    [False] and changes nothing but the log; the slot stays [None], so the
    step is never cached: a second call does and says the same again. *)
Theorem no_bias_mode_is_never_cached (det : Z) (w : world)
        (Hnone : slot_at a_msbias det w = Some PyNone)
        (Hmode : reduce_usebias (_argflag (self w)) = "none") :
  let w1 := logged Info "Not performing a bias/dark subtraction" w in
  MasterBias load_frames comb_frames load_master det w = Ret false w1 /\
  slot_at a_msbias det w1 = Some PyNone /\
  MasterBias load_frames comb_frames load_master det w1
  = Ret false (logged Info "Not performing a bias/dark subtraction" w1).
Proof.
  intros w1.
  assert (Hrun : forall w0, slot_at a_msbias det w0 = Some PyNone ->
            reduce_usebias (_argflag (self w0)) = "none" ->
            MasterBias load_frames comb_frames load_master det w0
            = Ret false (logged Info "Not performing a bias/dark subtraction" w0)).
  { intros w0 Hs Hm. destruct (slot_at_index _ _ _ _ Hs) as (k & Hk & Hv).
    unfold MasterBias. rewrite (bind_Ret _ _ _ _ _ (getslot_at _ _ _ _ Hs)).
    rewrite bind_gets. cbv zeta. rewrite Hm. cbn [String.eqb Ascii.eqb Bool.eqb orb].
    rewrite (bind_Ret _ _ _ _ _ (msg_logged _ _ _)).
    rewrite (SetMasterFrame_shared "bias" a_msbias _ det eq_refl).
    erewrite bind_Ret by (apply setslot_Some; exact Hk).
    rewrite put_slot_id by exact Hv. reflexivity. }
  split; [now apply Hrun|]. split; [exact Hnone|]. now apply Hrun.
Qed.

(** X8: with [usebias] 'bias' or 'dark', an empty slot, and collaborators that
    hand back the frames [f] and the combined master [m], [MasterBias]
    returns [True] and stores a private copy of [m]: three arrays are
    created (the loaded frames, the master as combined, the stored copy),
    one line is logged, and a second call finds the slot made and returns
    [False]. *)
Theorem bias_is_built_once (det : Z) (w : world) (f m : ndarray)
        (Hnone : slot_at a_msbias det w = Some PyNone)
        (Hmode : reduce_usebias (_argflag (self w)) = "bias" \/
                 reduce_usebias (_argflag (self w)) = "dark")
        (Hload : forall w0, load_frames (_idx_bias (self w)) det
                              (reduce_usebias (_argflag (self w))) None None
                              (Some (_transpose (self w))) w0 = inr f)
        (Hcomb : forall w0, comb_frames (PyArr (length (heap w))) det
                              (reduce_usebias (_argflag (self w))) None
                              (bias_comb (_argflag (self w))) w0 = inr m) :
  exists w',
    MasterBias load_frames comb_frames load_master det w = Ret true w' /\
    arr_at a_msbias det w' = Some m /\
    slot_at a_msbias det w' = Some (PyArr (length (heap w) + 2)) /\
    heap w' = heap w ++ [f; m; m] /\
    msgs w' = msgs w ++ [(Info, "Preparing a master "
                                 +:+ reduce_usebias (_argflag (self w)) +:+ " frame")] /\
    MasterBias load_frames comb_frames load_master det w'
    = Ret false (logged Info ("An identical master "
                              +:+ reduce_usebias (_argflag (self w))
                              +:+ " frame already exists") w').
Proof.
  destruct (slot_at_index _ _ _ _ Hnone) as (k & Hk & Hv).
  set (ub := reduce_usebias (_argflag (self w))) in *.
  set (wa := logged Info ("Preparing a master " +:+ ub +:+ " frame") w).
  set (wb := with_heap (heap wa ++ [f]) wa).
  set (wc := with_heap (heap wb ++ [m]) wb).
  set (wd := put_slot a_msbias k (PyArr (length (heap wc))) (with_heap (heap wc ++ [m]) wc)).
  assert (Hlen : length (heap wc) = (length (heap w) + 2)%nat).
  { unfold wc, wb, wa. cbn. rewrite !length_app. cbn. lia. }
  assert (Hsd : slot_at a_msbias det wd = Some (PyArr (length (heap wc)))).
  { unfold slot_at, wd. rewrite slots_put_length. cbn [slots_of_with_heap].
    change (slots_of a_msbias (with_heap (heap wc ++ [m]) wc)) with (slots_of a_msbias w).
    rewrite Hk. rewrite slots_put_same; [reflexivity|].
    change (slots_of a_msbias (with_heap (heap wc ++ [m]) wc)) with (slots_of a_msbias w).
    now apply (py_index_lt _ _ _ Hk). }
  assert (Hflag : (String.eqb ub "bias" || String.eqb ub "dark") = true).
  { destruct Hmode as [->| ->]; reflexivity. }
  exists wd. split; [|split; [|split; [|split; [|split]]]].
  - unfold MasterBias. rewrite (bind_Ret _ _ _ _ _ (getslot_at _ _ _ _ Hnone)).
    rewrite bind_gets. cbv zeta. fold ub. rewrite Hflag.
    rewrite (bind_Ret _ _ _ _ _ (msg_logged _ _ _)). fold wa.
    rewrite !bind_gets.
    change (_idx_bias (self wa)) with (_idx_bias (self w)).
    change (_transpose (self wa)) with (_transpose (self w)).
    erewrite bind_Ret.
    2:{ unfold call_arr. erewrite bind_Ret by (unfold call; rewrite Hload; reflexivity).
        reflexivity. }
    fold wb.
    change (length (heap wa)) with (length (heap w)).
    erewrite bind_Ret.
    2:{ unfold call_arr. erewrite bind_Ret by (unfold call; rewrite Hcomb; reflexivity).
        reflexivity. }
    fold wc.
    rewrite (SetMasterFrame_copy "bias" a_msbias _ det eq_refl).
    erewrite bind_Ret.
    2:{ eapply copy_into_slot; [exact Hk|]. unfold wc. cbn [heap with_heap].
        apply lookup_snoc_new. }
    reflexivity.
  - unfold arr_at. rewrite Hsd. unfold wd. cbn [heap put_slot with_self with_heap].
    apply lookup_snoc_new.
  - now rewrite Hsd, Hlen.
  - unfold wd, wc, wb, wa. cbn. now rewrite <- !app_assoc.
  - reflexivity.
  - unfold MasterBias. rewrite (bind_Ret _ _ _ _ _ (getslot_at _ _ _ _ Hsd)).
    rewrite bind_gets. reflexivity.
Qed.

(** X9: a step that raises has stored nothing.  Whatever the collaborators
    do, when [MasterBias], [MasterArc], [MasterTrace] or [BadPixelMask]
    ends in an exception, the exposure object (every slot, parameter and
    flag) and the headers are exactly as before the call: the write into
    the slot is the last thing that can fail. *)
Theorem failed_step_stores_nothing (det : Z) (reduce_badpix : bool) :
  quiet_failure (MasterBias load_frames comb_frames load_master det) /\
  quiet_failure (MasterArc load_frames comb_frames load_master det) /\
  quiet_failure (MasterTrace load_frames match_frames comb_frames load_master det) /\
  quiet_failure (BadPixelMask badpix reduce_badpix det).
Proof.
  split; [|split; [|split]].
  - unfold MasterBias. apply quiet_bind; [so|intros cur].
    apply quiet_bind; [so|intros af]. cbv zeta.
    destruct cur as [|?|?]; [|apply quiet_respects; so|apply quiet_respects; so].
    destruct (_ || _).
    { repeat (apply quiet_bind; [so; apply so_call_arr|intros]).
      apply quiet_seq_ret, quiet_SetMasterFrame. }
    destruct (String.eqb _ _); [apply quiet_seq_ret, quiet_SetMasterFrame|].
    destruct (String.eqb _ _).
    { apply quiet_bind; [so|intros]. apply quiet_seq_ret, quiet_SetMasterFrame. }
    apply quiet_bind; [apply so_call_arr|intros].
    apply quiet_seq_ret, quiet_SetMasterFrame.
  - unfold MasterArc. apply quiet_bind; [so|intros cur].
    destruct cur as [|?|?]; [|apply quiet_respects; so|apply quiet_respects; so].
    apply quiet_bind; [so|intros af].
    apply quiet_bind; [|intros; apply quiet_seq_ret, quiet_SetMasterFrame].
    destruct (String.eqb _ _); [|apply so_call_arr].
    so; try apply so_call_arr.
    destruct (PrimFloat.ltb _ _); [so|apply so_call_arr].
  - unfold MasterTrace. apply quiet_bind; [so|intros cur].
    destruct cur as [|?|?]; [|apply quiet_respects; so|apply quiet_respects; so].
    apply quiet_bind; [so|intros af]. cbv zeta.
    apply quiet_bind; [|intros; apply quiet_seq_ret, quiet_SetMasterFrame].
    destruct (_ || _).
    { so; try apply so_call_arr.
      destruct (PrimFloat.ltb _ _); [|apply so_call_arr].
      so. apply so_combine_groups. }
    destruct (String.eqb _ _); [unfold msgs_error; so|apply so_call_arr].
  - unfold BadPixelMask. destruct reduce_badpix; [|apply quiet_respects; so].
    apply quiet_bind; [so|intros].
    apply quiet_bind; [so|intros idx].
    destruct (_ =? _)%nat; [apply quiet_respects; so|].
    apply quiet_bind; [apply so_GetMasterFrame|intros].
    apply quiet_bind; [apply so_call_arr|intros].
    apply quiet_seq_ret, quiet_SetFrame.
Qed.

(** X10: the arc-matching branch cannot be taken.  With [usearc = 'arc'], an
    empty arc slot and [arcmatch > 0], [MasterArc] never returns: once the
    frames are loaded it raises [TypeError] (the saturation level is read
    from the list of detectors with a string key) before [match_frames] is
    called, and the arc slot stays empty. *)
Theorem matched_arcs_never_return (det : Z) (w : world) (bias : pyobj) (f : ndarray)
        (Hnone : slot_at a_msarc det w = Some PyNone)
        (Hmode : reduce_usearc (_argflag (self w)) = "arc")
        (Hmatch : PrimFloat.ltb 0 (reduce_arcmatch (_argflag (self w))) = true)
        (Hbias : slot_at a_msbias det w = Some bias)
        (Hload : forall w0, load_frames (_idx_arcs (self w)) det "arc" (Some bias)
                              None None w0 = inr f) :
  MasterArc load_frames comb_frames load_master det w
  = Raise (TypeError "list indices must be integers, not str")
          (with_heap (heap w ++ [f]) (logged Info "Preparing a master arc frame" w)) /\
  slot_at a_msarc det (final (MasterArc load_frames comb_frames load_master det w))
  = Some PyNone.
Proof.
  assert (E : MasterArc load_frames comb_frames load_master det w
              = Raise (TypeError "list indices must be integers, not str")
                  (with_heap (heap w ++ [f]) (logged Info "Preparing a master arc frame" w))).
  { unfold MasterArc. rewrite (bind_Ret _ _ _ _ _ (getslot_at _ _ _ _ Hnone)).
    rewrite bind_gets, Hmode. cbn [String.eqb Ascii.eqb Bool.eqb].
    erewrite bind_Raise; [reflexivity|].
    rewrite (bind_Ret _ _ _ _ _ (msg_logged _ _ _)).
    rewrite bind_gets.
    erewrite bind_Ret by (apply (getslot_at a_msbias det); exact Hbias).
    erewrite bind_Ret.
    2:{ unfold call_arr. erewrite bind_Ret by (unfold call; cbn [self logged]; rewrite Hload; reflexivity).
        reflexivity. }
    rewrite Hmatch. reflexivity. }
  split; [exact E|]. rewrite E. exact Hnone.
Qed.

End Steps.

Lemma overscan_bias_is_a_marker_witness :
  MasterBias no_frames no_comb no_master 1 (fresh 1 (argflag0 (CInt 1) true "overscan"))
  = Ret false (put_slot a_msbias 0 (PyStr "overscan")
                        (fresh 1 (argflag0 (CInt 1) true "overscan"))).
Proof.
  pose proof (overscan_bias_is_a_marker no_frames no_comb no_master 1
                (fresh 1 (argflag0 (CInt 1) true "overscan")) 0%nat
                eq_refl eq_refl eq_refl) as H.
  cbv zeta in H. exact (proj1 H).
Defined.

Lemma no_bias_mode_is_never_cached_witness :
  MasterBias no_frames no_comb no_master 1 (fresh 1 (argflag0 (CInt 1) true "none"))
  = Ret false (logged Info "Not performing a bias/dark subtraction"
                      (fresh 1 (argflag0 (CInt 1) true "none"))).
Proof.
  pose proof (no_bias_mode_is_never_cached no_frames no_comb no_master 1
                (fresh 1 (argflag0 (CInt 1) true "none")) eq_refl eq_refl) as H.
  cbv zeta in H. exact (proj1 H).
Defined.

Lemma bias_is_built_once_witness :
  exists w',
    MasterBias (frames_const arc23) (comb_const amp23) no_master 1
               (fresh 1 (argflag0 (CInt 1) true "bias")) = Ret true w' /\
    arr_at a_msbias 1 w' = Some amp23.
Proof.
  destruct (bias_is_built_once (frames_const arc23) (comb_const amp23) no_master 1
              (fresh 1 (argflag0 (CInt 1) true "bias")) arc23 amp23
              eq_refl (or_introl eq_refl) (fun _ => eq_refl) (fun _ => eq_refl))
    as (w' & H1 & H2 & _).
  exists w'. split; [exact H1|exact H2].
Defined.

Lemma failed_step_stores_nothing_witness :
  same_object (fresh 1 (argflag0 (CInt 1) true "bias"))
              (logged Info "Preparing a master bias frame"
                      (fresh 1 (argflag0 (CInt 1) true "bias"))).
Proof.
  apply (proj1 (failed_step_stores_nothing no_frames no_match no_comb no_master
                  (fun _ _ _ => inl (External "badpix")) 1 true)
               (fresh 1 (argflag0 (CInt 1) true "bias")) (External "load_frames")).
  reflexivity.
Defined.

Lemma matched_arcs_never_return_witness :
  MasterArc (frames_const arc23) no_comb no_master 1
            (fresh 1 (with_arcmatch 1 (argflag0 (CInt 1) true "arc")))
  = Raise (TypeError "list indices must be integers, not str")
          (with_heap [arc23] (logged Info "Preparing a master arc frame"
                                     (fresh 1 (with_arcmatch 1 (argflag0 (CInt 1) true "arc"))))).
Proof.
  exact (proj1 (matched_arcs_never_return (frames_const arc23) no_comb no_master 1
                  (fresh 1 (with_arcmatch 1 (argflag0 (CInt 1) true "arc"))) PyNone arc23
                  eq_refl eq_refl eq_refl eq_refl (fun _ => eq_refl))).
Defined.

(** ** Combining matched groups *)

Lemma py_index_nonneg n i k : 0 <= i -> py_index n i = Some k -> k = Z.to_nat i.
Proof.
  intros Hi. unfold py_index.
  destruct (_ && _); [now intros [= <-]|].
  destruct (Z.ltb_spec i 0); [lia|]. rewrite andb_false_r. discriminate.
Qed.

Lemma getitem_inv {A} (l : list A) i x w w' :
  0 <= i -> getitem l i w = Ret x w' -> w' = w /\ l !! Z.to_nat i = Some x.
Proof.
  intros Hi. unfold getitem.
  destruct (py_index _ _) as [k|] eqn:Hk; [|discriminate].
  apply (py_index_nonneg _ _ _ Hi) in Hk. subst k.
  destruct (l !! _); [|discriminate]. now intros [= -> ->].
Qed.

Lemma py_shape_inv o sh w w' :
  py_shape o w = Ret sh w' ->
  w' = w /\ exists l a, o = PyArr l /\ heap w !! l = Some a /\ sh = shape a.
Proof.
  destruct o as [| |l]; try discriminate.
  unfold py_shape, deref. munfold. destruct (heap w !! l) as [a|] eqn:E; [|discriminate].
  intros [= <- <-]. split; [reflexivity|]. now exists l, a.
Qed.

Lemma call_arr_inv f o w w' :
  call_arr f w = Ret o w' ->
  exists x, f w = inr x /\ o = PyArr (length (heap w)) /\ w' = with_heap (heap w ++ [x]) w.
Proof.
  unfold call_arr, alloc. munfold. destruct (f w) as [e|x]; [discriminate|].
  intros [= <- <-]. now exists x.
Qed.

Lemma deref_inv l a w w' : deref l w = Ret a w' -> w' = w /\ heap w !! l = Some a.
Proof. unfold deref. destruct (heap w !! l); [|discriminate]. now intros [= -> ->]. Qed.

Lemma store_inv l a w w' :
  store l a w = Ret tt w' -> w' = with_heap (<[l := a]> (heap w)) w /\ (l < length (heap w))%nat.
Proof.
  unfold store. destruct (heap w !! l) eqn:E; [|discriminate]. intros [= <-].
  split; [reflexivity|]. now apply lookup_lt_Some with n.
Qed.

Lemma set_plane_shape sub i x sub' : set_plane sub i x = inr sub' -> shape sub' = shape sub.
Proof.
  unfold set_plane. destruct (shape sub) as [|r [|c [|k [|? ?]]]] eqn:E; try discriminate.
  destruct (decide _); [|discriminate]. now intros [= <-].
Qed.

Lemma alloc_all (xs : list ndarray) w :
  mapM (fun a => l ← alloc a; ret (PyArr l)) xs w
  = Ret (PyArr <$> seq (length (heap w)) (length xs)) (with_heap (heap w ++ xs) w).
Proof.
  revert w. induction xs as [|x xs IH]; intros w; cbn [mapM].
  - cbn. unfold with_heap. rewrite app_nil_r. now destruct w.
  - erewrite bind_Ret by reflexivity.
    erewrite bind_Ret by apply IH. cbn [heap]. rewrite length_app. cbn [length].
    rewrite Nat.add_1_r. cbn. unfold with_heap. cbn. now rewrite <- app_assoc.
Qed.

Section Groups.

Variable comb_frames : pyobj -> Z -> string -> option (list nat) -> kwargs -> extern ndarray.

Lemma sub_masters_inv sub det ft comb sfs :
  forall i numarr w r w',
    (sub < length (heap w))%nat ->
    (forall l, PyArr l ∈ sfs -> (l < sub)%nat) ->
    sub_masters comb_frames sfs i sub numarr det ft comb w = Ret r w' ->
    exists ns,
      r = numarr ++ ns /\ length ns = length sfs /\
      (forall j l, sfs !! j = Some (PyArr l) ->
         exists a n, heap w !! l = Some a /\ shape a !! 2%nat = Some n /\ ns !! j = Some n) /\
      (forall l a, l <> sub -> heap w !! l = Some a -> heap w' !! l = Some a) /\
      (forall s, heap w !! sub = Some s ->
         exists s', heap w' !! sub = Some s' /\ shape s' = shape s) /\
      same_object w w' /\ msgs w' = msgs w.
Proof.
  induction sfs as [|sf rest IH]; intros i numarr w r w' Hsub Hsfs; cbn [sub_masters].
  - intros [= <- <-]. exists []. rewrite app_nil_r.
    repeat split; try reflexivity; eauto. intros j l H. discriminate.
  - intros H.
    apply bind_inv in H as (sh & w1 & Hsh & H).
    apply py_shape_inv in Hsh as (-> & l0 & a0 & -> & Hl0 & ->).
    apply bind_inv in H as (n & w1 & Hn & H).
    apply getitem_inv in Hn as (-> & Hn); [|lia]. change (Z.to_nat 2) with 2%nat in Hn.
    apply bind_inv in H as (ms & w1 & Hms & H).
    apply call_arr_inv in Hms as (x & _ & -> & ->).
    set (wa := with_heap (heap w ++ [x]) w) in *.
    rewrite (bind_Ret _ _ _ _ _ (py_copy_arr (length (heap w)) x wa (lookup_snoc_new _ _))) in H.
    set (wb := with_heap (heap wa ++ [x]) wa) in *.
    apply bind_inv in H as (x' & w1 & Hx' & H).
    apply deref_inv in Hx' as (-> & _).
    apply bind_inv in H as (s0 & w1 & Hs0 & H).
    apply deref_inv in Hs0 as (-> & Hs0).
    apply bind_inv in H as ([] & wc & Hst & H).
    destruct (set_plane s0 i x') as [e|s1] eqn:Hsp; [discriminate|].
    apply store_inv in Hst as (-> & Hlt).
    set (wc := with_heap (<[sub := s1]> (heap wb)) wb) in *.
    assert (Hwb : heap wb = heap w ++ [x; x]).
    { unfold wb, wa. cbn. now rewrite <- app_assoc. }
    assert (Hkeep : forall l a, l <> sub -> heap w !! l = Some a -> heap wc !! l = Some a).
    { intros l a Hne Hl. unfold wc. cbn [heap with_heap].
      rewrite list_lookup_insert_ne by congruence. rewrite Hwb. now apply lookup_app_l_Some. }
    apply IH in H as (ns & -> & Hlen & Hidx & Hpres & Hshape & Hobj & Hmsg).
    2:{ unfold wc. cbn [heap with_heap]. rewrite length_insert, Hwb, length_app. lia. }
    2:{ intros l Hl. apply Hsfs. now right. }
    exists (n :: ns). split; [now rewrite <- app_assoc|]. split; [cbn; now rewrite Hlen|].
    split; [|split; [|split; [|split]]].
    + intros [|j] l Hj.
      * injection Hj as ->. exists a0, n. now repeat split.
      * cbn in Hj. destruct (Hidx j l Hj) as (a & m & Ha & Hm & Hns).
        assert (Hl : (l < sub)%nat).
        { apply Hsfs. right. now apply list_elem_of_lookup_2 with j. }
        destruct (lookup_lt_is_Some_2 (heap w) l) as [a' Ha']; [lia|].
        assert (a' = a).
        { apply (Hkeep l a') in Ha'; [|lia].
          assert (E : Some a' = Some a) by exact (eq_trans (eq_sym Ha') Ha).
          now injection E. }
        subst a'.
        exists a, m. now repeat split.
    + intros l a Hne Hl. apply Hpres; [exact Hne|]. now apply Hkeep.
    + intros s Hs.
      assert (Hs1 : heap wc !! sub = Some s1).
      { unfold wc. cbn [heap with_heap]. now apply list_lookup_insert_eq. }
      destruct (Hshape s1 Hs1) as (s' & Hs' & Heq). exists s'. split; [exact Hs'|].
      rewrite Heq, (set_plane_shape _ _ _ _ Hsp).
      assert (Hb : heap wb !! sub = Some s) by (rewrite Hwb; now apply lookup_app_l_Some).
      assert (E : Some s0 = Some s) by exact (eq_trans (eq_sym Hs0) Hb).
      now injection E as ->.
    + eapply same_object_trans; [|exact Hobj]. now split.
    + rewrite Hmsg. reflexivity.
Qed.

(** X11: the weighted combination gets one weight per group.  Whenever the
    group loop of [MasterTrace] and [MasterFlatField] completes, the last
    call of [comb_frames] has been made on a new cube of shape
    [(frames.shape[0], frames.shape[1], len(sframes))] with the weights
    [sframes[i].shape[2]], in the order of the groups; its answer is what
    the loop returns, as a new array, and the exposure object, the headers
    and the log are as before.  [frames] is an array of the current heap. *)
Theorem groups_are_weighted_by_size (lf : loc) (fa : ndarray) (sframes : list ndarray)
        (det : Z) (ft : string) (comb : kwargs) (w : world) (o : pyobj) (w' : world)
        (Hframes : heap w !! lf = Some fa)
        (Hrun : combine_groups comb_frames (PyArr lf) sframes det ft comb w = Ret o w') :
  exists r c numarr cube wl res,
    shape fa !! 0%nat = Some r /\ shape fa !! 1%nat = Some c /\
    group_sizes sframes numarr /\
    heap wl !! (length (heap w) + length sframes)%nat = Some cube /\
    shape cube = [r; c; length sframes] /\
    comb_frames (PyArr (length (heap w) + length sframes)) det ft (Some numarr) comb wl
    = inr res /\
    o = PyArr (length (heap wl)) /\ heap w' = heap wl ++ [res] /\
    same_object w w' /\ msgs w' = msgs w.
Proof.
  unfold combine_groups in Hrun.
  rewrite (bind_Ret _ _ _ _ _ (alloc_all sframes w)) in Hrun.
  set (wa := with_heap (heap w ++ sframes) w) in *.
  assert (Hfa : heap wa !! lf = Some fa).
  { unfold wa. cbn. now apply lookup_app_l_Some. }
  rewrite (bind_Ret _ _ _ _ _ (py_shape_arr _ _ _ Hfa)) in Hrun.
  apply bind_inv in Hrun as (r & w1 & Hr & Hrun).
  apply getitem_inv in Hr as (-> & Hr); [|lia]. change (Z.to_nat 0) with 0%nat in Hr.
  rewrite (bind_Ret _ _ _ _ _ (py_shape_arr _ _ _ Hfa)) in Hrun.
  apply bind_inv in Hrun as (c & w1 & Hc & Hrun).
  apply getitem_inv in Hc as (-> & Hc); [|lia]. change (Z.to_nat 1) with 1%nat in Hc.
  rewrite length_fmap, length_seq in Hrun.
  erewrite bind_Ret in Hrun by apply alloc_ok.
  set (sub := length (heap wa)) in *.
  set (wb := with_heap (heap wa ++ [np_zeros DFloat [r; c; length sframes]]) wa) in *.
  assert (Hsub : sub = (length (heap w) + length sframes)%nat).
  { unfold sub, wa. cbn. now rewrite length_app. }
  apply bind_inv in Hrun as (numarr & wl & Hloop & Hrun).
  apply sub_masters_inv in Hloop
    as (ns & -> & Hlen & Hidx & Hpres & Hshape & Hobj & Hmsg).
  2:{ unfold wb. cbn [heap with_heap]. rewrite length_app. cbn. fold sub. lia. }
  2:{ intros l Hl. apply list_elem_of_fmap in Hl as (k & [= ->] & Hk).
      apply elem_of_seq in Hk. rewrite Hsub. lia. }
  cbn [app] in Hrun.
  apply call_arr_inv in Hrun as (res & Hres & -> & ->).
  destruct (Hshape (np_zeros DFloat [r; c; length sframes])) as (cube & Hcube & Hcs).
  { unfold wb. cbn [heap with_heap]. apply lookup_snoc_new. }
  exists r, c, ns, cube, wl, res.
  rewrite <- Hsub.
  repeat split; try assumption; try reflexivity.
  - apply Forall2_same_length_lookup. split; [now rewrite Hlen, length_fmap, length_seq|].
    intros j a n Ha Hn.
    destruct (Hidx j (length (heap w) + j)%nat) as (a' & n' & Ha' & Hn' & Hns).
    { rewrite list_lookup_fmap, lookup_seq_lt by (now apply lookup_lt_Some with a).
      reflexivity. }
    unfold wb, wa in Ha'. cbn [heap with_heap] in Ha'.
    rewrite <- app_assoc, lookup_app_r in Ha' by lia.
    replace (length (heap w) + j - length (heap w))%nat with j in Ha' by lia.
    rewrite lookup_app_l in Ha' by (now apply lookup_lt_Some with a).
    congruence.
  - destruct Hobj as [H1 H2]. cbn. rewrite H1. reflexivity.
  - destruct Hobj as [H1 H2]. cbn. rewrite H2. reflexivity.
Qed.

End Groups.

Lemma groups_are_weighted_by_size_witness :
  exists numarr cube wl,
    group_sizes [group2; group1] numarr /\
    heap wl !! 3%nat = Some cube /\ shape cube = [2; 3; 2]%nat /\
    comb_const arc23 (PyArr 3) 1 "trace" (Some numarr) [] wl = inr arc23.
Proof.
  assert (Hrun : { ow : pyobj * world |
            combine_groups (comb_const arc23) (PyArr 0) [group2; group1] 1 "trace" []
                           (arc_only (argflag0 (CInt 1) true "trace")) = Ret ow.1 ow.2 }).
  { eexists (_, _). vm_compute. reflexivity. }
  destruct Hrun as [[o w'] Hrun].
  destruct (groups_are_weighted_by_size (comb_const arc23) 0%nat arc23 [group2; group1] 1
              "trace" [] (arc_only (argflag0 (CInt 1) true "trace")) o w' eq_refl Hrun)
    as (r & c & numarr & cube & wl & res & Hr & Hc & Hg & Hcube & Hsh & Hcall & _).
  injection Hr as <-. injection Hc as <-.
  exists numarr, cube, wl. repeat split; assumption.
Defined.

(** ** The bad pixel mask *)

Section Mask.

Variable badpix : Z -> pyobj -> extern ndarray.

(** X12: when [BadPixelMask] makes no mask.  With the flag off it logs one
    line and returns [False]; with the flag on and no bias frames assigned to
    the exposure it logs three lines and returns [False]; in both cases
    nothing but the log changes.  With the flag on and bias frames assigned,
    a bias slot that holds no array ([None] before [MasterBias] has run, or
    a string) makes it raise [AttributeError] before [badpix] is called. *)
Theorem mask_is_skipped_or_needs_bias (det : Z) (w : world) :
  BadPixelMask badpix false det w
  = Ret false (logged Info "Not preparing a bad pixel mask" w) /\
  (_idx_bias (self w) = [] ->
   BadPixelMask badpix true det w
   = Ret false (logged Info "Not preparing a bad pixel mask"
                 (logged Warn "No bias frames available to determine bad pixel mask"
                   (logged Info "Preparing a bad pixel mask" w)))) /\
  (forall o, _idx_bias (self w) <> [] -> slot_at a_msbias det w = Some o ->
             (forall l, o <> PyArr l) ->
   exists m, BadPixelMask badpix true det w
             = Raise (AttributeError m) (logged Info "Preparing a bad pixel mask" w)).
Proof.
  split; [reflexivity|]. split.
  - intros Hidx. unfold BadPixelMask.
    rewrite (bind_Ret _ _ _ _ _ (msg_logged _ _ _)). rewrite bind_gets.
    cbn [self logged]. rewrite Hidx. reflexivity.
  - intros o Hidx Hs Hno. unfold BadPixelMask.
    rewrite (bind_Ret _ _ _ _ _ (msg_logged _ _ _)). rewrite bind_gets.
    cbn [self logged]. destruct (_idx_bias (self w)) as [|i idx]; [congruence|].
    cbn [length Nat.eqb].
    set (w1 := logged Info "Preparing a bad pixel mask" w).
    assert (Hg : getslot a_msbias (det - 1) w1 = Ret o w1) by (now apply (getslot_at a_msbias det w1)).
    rewrite (GetMasterFrame_copy "bias" a_msbias det eq_refl).
    destruct o as [|s|l].
    + eexists. erewrite bind_Raise; [reflexivity|].
      rewrite (bind_Ret _ _ _ _ _ Hg). reflexivity.
    + eexists. erewrite bind_Raise; [reflexivity|].
      rewrite (bind_Ret _ _ _ _ _ Hg). reflexivity.
    + now destruct (Hno l).
Qed.

(** X13: when [BadPixelMask] makes a mask.  With the flag on, bias frames
    assigned, the master bias an array [b] and a valid detector number,
    [badpix] is handed a new copy of the master bias; with its answer [mask]
    the step returns [True], the bad-pixel slot refers to a private copy of
    [mask], the master bias is untouched, and one line is logged. *)
Theorem mask_is_built_from_a_bias_copy (det : Z) (w : world) (b mask : ndarray)
        (Hidx : _idx_bias (self w) <> [])
        (Hbias : arr_at a_msbias det w = Some b)
        (Hslot : is_Some (slot_at a_bpix det w))
        (Hbad : forall w0, heap w0 !! length (heap w) = Some b ->
                           badpix det (PyArr (length (heap w))) w0 = inr mask) :
  exists w',
    BadPixelMask badpix true det w = Ret true w' /\
    arr_at a_bpix det w' = Some mask /\
    arr_at a_msbias det w' = Some b /\
    heap w' = heap w ++ [b; mask; mask] /\
    slot_at a_bpix det w' = Some (PyArr (length (heap w) + 2)) /\
    msgs w' = msgs w ++ [(Info, "Preparing a bad pixel mask")].
Proof.
  destruct (arr_at_slot _ _ _ _ Hbias) as (lb & Hsb & Hlb).
  destruct Hslot as [ob Hob]. destruct (slot_at_index _ _ _ _ Hob) as (k & Hk & _).
  set (wa := logged Info "Preparing a bad pixel mask" w).
  set (wb := with_heap (heap wa ++ [b]) wa).
  set (wc := with_heap (heap wb ++ [mask]) wb).
  set (wd := put_slot a_bpix k (PyArr (length (heap wc))) (with_heap (heap wc ++ [mask]) wc)).
  assert (Hlen : length (heap wc) = (length (heap w) + 2)%nat).
  { unfold wc, wb, wa. cbn. rewrite !length_app. cbn. lia. }
  assert (Hrun : BadPixelMask badpix true det w = Ret true wd).
  { unfold BadPixelMask.
    rewrite (bind_Ret _ _ _ _ _ (msg_logged _ _ _)). fold wa. rewrite bind_gets.
    change (_idx_bias (self wa)) with (_idx_bias (self w)).
    destruct (_idx_bias (self w)) as [|i idx]; [congruence|]. cbn [length Nat.eqb].
    rewrite (GetMasterFrame_copy "bias" a_msbias det eq_refl).
    erewrite bind_Ret.
    2:{ erewrite bind_Ret by (apply (getslot_at a_msbias det wa); exact Hsb).
        apply py_copy_arr. exact Hlb. }
    fold wb.
    erewrite bind_Ret.
    2:{ unfold call_arr. erewrite bind_Ret; [reflexivity|].
        unfold call. change (length (heap wa)) with (length (heap w)).
        rewrite Hbad; [reflexivity|]. unfold wb. cbn [heap with_heap].
        apply lookup_snoc_new. }
    fold wc.
    erewrite bind_Ret.
    2:{ unfold SetFrame. eapply copy_into_slot; [exact Hk|].
        unfold wc. cbn [heap with_heap]. apply lookup_snoc_new. }
    reflexivity. }
  exists wd. split; [exact Hrun|].
  split; [unfold wd; apply arr_at_put_same; [exact Hk|apply lookup_snoc_new]|].
  split.
  { unfold arr_at, slot_at in *.
    change (slots_of a_msbias wd) with (slots_of a_msbias w).
    destruct (py_index _ _); [|discriminate]. rewrite Hsb.
    unfold wd, wc, wb, wa. cbn [heap put_slot with_self with_heap logged].
    rewrite <- !app_assoc. now apply lookup_app_l_Some. }
  split; [unfold wd, wc, wb, wa; cbn; now rewrite <- !app_assoc|].
  split; [|reflexivity].
  rewrite <- Hlen. unfold wd. apply slot_at_put_same. exact Hk.
Qed.

End Mask.

Lemma mask_is_skipped_or_needs_bias_witness :
  exists m, BadPixelMask (fun _ _ _ => inr amp23) true 1
                         (fresh 1 (argflag0 (CInt 1) true "bias"))
            = Raise (AttributeError m)
                    (logged Info "Preparing a bad pixel mask"
                            (fresh 1 (argflag0 (CInt 1) true "bias"))).
Proof.
  apply (proj2 (proj2 (mask_is_skipped_or_needs_bias (fun _ _ _ => inr amp23) 1
                         (fresh 1 (argflag0 (CInt 1) true "bias")))) PyNone).
  - discriminate.
  - reflexivity.
  - intros l. discriminate.
Defined.

Lemma mask_is_built_from_a_bias_copy_witness :
  exists w',
    BadPixelMask (fun _ _ _ => inr amp23) true 1
                 (put_slot a_msbias 0 (PyArr 0) (loaded (argflag0 (CInt 1) true "bias")))
    = Ret true w' /\
    arr_at a_bpix 1 w' = Some amp23.
Proof.
  destruct (mask_is_built_from_a_bias_copy (fun _ _ _ => inr amp23) 1
              (put_slot a_msbias 0 (PyArr 0) (loaded (argflag0 (CInt 1) true "bias")))
              arc23 amp23)
    as (w' & H1 & H2 & _).
  - discriminate.
  - reflexivity.
  - now exists PyNone.
  - reflexivity.
  - exists w'. now split.
Defined.

(** ** The constructor *)

Lemma exn_bind_inv {A B} (m : exn + A) (k : A -> exn + B) b :
  m ≫= k = inr b -> exists a, m = inr a /\ k a = inr b.
Proof. destruct m as [e|a]; [discriminate|]. intros H. now exists a. Qed.

Lemma item_inv {A} (l : list A) i x :
  item l i = inr x -> exists k, py_index (length l) i = Some k /\ l !! k = Some x.
Proof.
  unfold item. destruct (py_index _ _) as [k|]; [|discriminate].
  destruct (l !! k) eqn:E; [|discriminate]. intros [= <-]. now exists k.
Qed.

Lemma py_index_last n : py_index n (-1) = Some (pred n) \/ (n = 0%nat /\ py_index n (-1) = None).
Proof.
  unfold py_index. cbn [Z.leb Z.compare andb].
  destruct (Z.leb_spec (- Z.of_nat n) (-1)); cbn [andb].
  - left. f_equal. lia.
  - right. split; [lia|reflexivity].
Qed.

Lemma mapM_exn_lookup {A B} (f : A -> exn + B) (l : list A) (r : list B) :
  mapM f l = inr r ->
  length r = length l /\
  forall i y, r !! i = Some y -> exists x, l !! i = Some x /\ f x = inr y.
Proof.
  revert r. induction l as [|x l IH]; intros r; cbn [mapM].
  - intros [= <-]. split; [reflexivity|]. intros i y H. discriminate.
  - intros H. apply exn_bind_inv in H as (y & Hy & H).
    apply exn_bind_inv in H as (ys & Hys & H). injection H as <-.
    destruct (IH ys Hys) as (Hlen & Hidx).
    split; [cbn; now rewrite Hlen|].
    intros [|i] z Hz.
    + injection Hz as <-. now exists x.
    + now apply Hidx.
Qed.

Lemma py_remove_clean c s : has_char c (py_remove c s) = false.
Proof.
  unfold has_char, py_remove. rewrite String.list_ascii_of_string_of_list_ascii.
  induction (String.list_ascii_of_string s) as [|x l IH]; [reflexivity|].
  cbn [filter list_filter]. unfold filter in *. cbn.
  destruct (Ascii.eqb_spec x c) as [->|Hne]; cbn.
  - rewrite decide_False by (cbn; tauto). exact IH.
  - rewrite decide_True by (cbn; tauto). cbn.
    destruct (Ascii.eqb_spec c x) as [->|_]; [congruence|]. exact IH.
Qed.

Section NewExposure.

Variable datetime : Type.
Variable mjd_isot : float -> exn + string.
Variable strptime : string -> exn + datetime.
Variable strftime : datetime -> string.
Variable PdfPages : string -> exn + unit.

Lemma init_fields plotsdir snum af spect fd c :
  init datetime mjd_isot strptime strftime PdfPages plotsdir snum af spect fd = inr c ->
  exists idx_bias nonlin target,
    (idx_bias <> [] -> reduce_usebias af = "bias" \/ reduce_usebias af = "dark") /\
    mapM (fun det : nat =>
            d ← item (spect_det spect) (Z.of_nat det - 1);
            d' ← item (spect_det spect) (Z.of_nat det - 1);
            mret (saturation d * nonlinear d')%float) (range (mosaic_ndet spect)) = inr nonlin /\
    _idx_bias (c_self c) = idx_bias /\ _nonlinear (c_self c) = nonlin /\
    _argflag (c_self c) = af /\ _det (c_self c) = spect_det spect /\
    _transpose (c_self c) = false /\ _dispaxis (c_self c) = None /\
    (forall a, slot a (_frames (c_self c)) = replicate (Z.to_nat (mosaic_ndet spect)) PyNone) /\
    _nspec (c_self c) = replicate (Z.to_nat (mosaic_ndet spect)) None /\
    _nspat (c_self c) = replicate (Z.to_nat (mosaic_ndet spect)) None /\
    c_target_name c = py_remove " "%char target /\
    c_qa c = plotsdir +:+ "/QA_" +:+ c_basename c +:+ ".pdf".
Proof.
  unfold init. intros H.
  apply exn_bind_inv in H as (idx_sci & _ & H).
  apply exn_bind_inv in H as (idx_arcs & _ & H).
  apply exn_bind_inv in H as (tr0 & _ & H).
  apply exn_bind_inv in H as (idx_bias & Hbias & H).
  apply exn_bind_inv in H as (idx_trace & _ & H).
  apply exn_bind_inv in H as (idx_flat & _ & H).
  apply exn_bind_inv in H as (basename & _ & H).
  apply exn_bind_inv in H as (scidx & _ & H).
  apply exn_bind_inv in H as (target & _ & H).
  cbv zeta in H.
  apply exn_bind_inv in H as ([] & _ & H).
  apply exn_bind_inv in H as (nonlin & Hnl & H).
  injection H as <-. cbn.
  exists idx_bias, nonlin, target.
  split.
  { intros Hne.
    destruct (String.eqb_spec (reduce_usebias af) "bias") as [E|_]; [now left|].
    destruct (String.eqb_spec (reduce_usebias af) "dark") as [E|_]; [now right|].
    injection Hbias as <-. congruence. }
  split; [exact Hnl|].
  repeat split. intros a. now destruct a.
Qed.

(** X14: the per-detector saturation levels that [__init__] computes are
    rotated by one.  [self._nonlinear] has one entry per detector, but entry
    [i + 1] is the level (saturation times nonlinear fraction) of detector
    entry [i], and entry 0 is the level of the last entry of
    [spect['det']]: the list comprehension indexes [det-1] with [det]
    running from 0. *)
Theorem nonlinear_levels_are_rotated (plotsdir : string) (snum : Z) (af : ArgFlag)
        (spect : Spect) (fd : Headers) (c : Constructed)
        (Hinit : init datetime mjd_isot strptime strftime PdfPages plotsdir snum af spect fd = inr c) :
  length (_nonlinear (c_self c)) = Z.to_nat (mosaic_ndet spect) /\
  (forall i x, _nonlinear (c_self c) !! S i = Some x ->
     exists d, spect_det spect !! i = Some d /\ x = linear_limit d) /\
  (forall x, _nonlinear (c_self c) !! 0%nat = Some x ->
     exists d, last (spect_det spect) = Some d /\ x = linear_limit d).
Proof.
  destruct (init_fields _ _ _ _ _ _ Hinit) as (ib & nl & tg & _ & Hnl & _ & -> & _).
  apply mapM_exn_lookup in Hnl as (Hlen & Hidx).
  unfold range in *. rewrite length_seq in Hlen.
  split; [exact Hlen|]. split.
  - intros i x Hx. destruct (Hidx _ _ Hx) as (n & Hn & Hf).
    apply lookup_seq in Hn as (-> & _). cbn [Nat.add] in Hf.
    apply exn_bind_inv in Hf as (d & Hd & Hf).
    apply exn_bind_inv in Hf as (d' & Hd' & Hf).
    assert (d' = d) by congruence. subst d'. injection Hf as <-.
    apply item_inv in Hd as (k & Hk & Hd).
    apply py_index_nonneg in Hk; [|lia]. replace k with i in Hd by lia.
    now exists d.
  - intros x Hx. destruct (Hidx _ _ Hx) as (n & Hn & Hf).
    apply lookup_seq in Hn as (-> & _). cbn [Nat.add] in Hf.
    apply exn_bind_inv in Hf as (d & Hd & Hf).
    apply exn_bind_inv in Hf as (d' & Hd' & Hf).
    assert (d' = d) by congruence. subst d'. injection Hf as <-.
    apply item_inv in Hd as (k & Hk & Hd). change (Z.of_nat 0 - 1) with (-1) in Hk.
    destruct (py_index_last (length (spect_det spect))) as [E|[_ E]]; [|congruence].
    assert (k = pred (length (spect_det spect))) by congruence. subst k.
    exists d. split; [|reflexivity]. now rewrite last_lookup.
Qed.

(** X15: what a new exposure starts from.  When [__init__] returns, every one
    of the eight slot lists and both pixel-count lists hold [ndet] times
    [None], the frames are not marked transposed and no dispersion axis is
    set; bias frames are assigned only when [usebias] is 'bias' or 'dark';
    the target name holds no blank; and the QA file is
    [plotsdir/QA_<basename>.pdf]. *)
Theorem new_exposure_is_empty (plotsdir : string) (snum : Z) (af : ArgFlag)
        (spect : Spect) (hd : Headers) (fd : FitsDict) (c : Constructed)
        (Hinit : init datetime mjd_isot strptime strftime PdfPages plotsdir snum af spect hd = inr c) :
  (forall a, slots_of a (start c fd) = replicate (Z.to_nat (mosaic_ndet spect)) PyNone) /\
  (forall a det, 1 <= det <= mosaic_ndet spect -> slot_at a det (start c fd) = Some PyNone) /\
  _nspec (c_self c) = replicate (Z.to_nat (mosaic_ndet spect)) None /\
  _nspat (c_self c) = replicate (Z.to_nat (mosaic_ndet spect)) None /\
  _transpose (c_self c) = false /\ _dispaxis (c_self c) = None /\
  heap (start c fd) = [] /\
  (_idx_bias (c_self c) <> [] -> reduce_usebias af = "bias" \/ reduce_usebias af = "dark") /\
  has_char " "%char (c_target_name c) = false /\
  c_qa c = plotsdir +:+ "/QA_" +:+ c_basename c +:+ ".pdf".
Proof.
  destruct (init_fields _ _ _ _ _ _ Hinit)
    as (ib & nl & tg & Hb & _ & Hib & _ & _ & _ & Ht & Hd & Hs & Hns & Hnp & Htg & Hqa).
  split; [intros a; apply Hs|].
  split.
  { intros a det Hdet. unfold slot_at, slots_of. cbn [start self]. rewrite Hs.
    rewrite length_replicate, py_index_in by lia.
    apply lookup_replicate_2. lia. }
  repeat split; try assumption.
  - rewrite Hib. exact Hb.
  - rewrite Htg. apply py_remove_clean.
Qed.

End NewExposure.

Lemma nonlinear_levels_are_rotated_witness :
  exists c,
    init string mjd_isot0 strptime0 strftime0 PdfPages0 "Plots" 0 (argflag0 (CInt 1) true "bias")
         spect0 headers0 = inr c /\
    _nonlinear (c_self c) = [linear_limit detpar1; linear_limit detpar0] /\
    length (_nonlinear (c_self c)) = 2%nat.
Proof.
  assert (Hrun : { c | init string mjd_isot0 strptime0 strftime0 PdfPages0 "Plots" 0
                            (argflag0 (CInt 1) true "bias") spect0 headers0 = inr c }).
  { eexists. vm_compute. reflexivity. }
  destruct Hrun as [c Hc]. exists c. split; [exact Hc|].
  split.
  - vm_compute in Hc. injection Hc as <-. vm_compute. reflexivity.
  - exact (proj1 (nonlinear_levels_are_rotated string mjd_isot0 strptime0 strftime0 PdfPages0
                    "Plots" 0 (argflag0 (CInt 1) true "bias") spect0 headers0 c Hc)).
Defined.

Lemma new_exposure_is_empty_witness :
  exists c,
    init string mjd_isot0 strptime0 strftime0 PdfPages0 "Plots" 0 (argflag0 (CInt 1) true "bias")
         spect0 headers0 = inr c /\
    c_target_name c = "HD1234" /\
    c_qa c = "Plots/QA_2015Jan01T10:20:30.5.pdf" /\
    has_char " "%char (c_target_name c) = false.
Proof.
  assert (Hrun : { c | init string mjd_isot0 strptime0 strftime0 PdfPages0 "Plots" 0
                            (argflag0 (CInt 1) true "bias") spect0 headers0 = inr c }).
  { eexists. vm_compute. reflexivity. }
  destruct Hrun as [c Hc]. exists c. split; [exact Hc|].
  destruct (new_exposure_is_empty string mjd_isot0 strptime0 strftime0 PdfPages0
              "Plots" 0 (argflag0 (CInt 1) true "bias") spect0 headers0
              (fitsdict (fresh 2 (argflag0 (CInt 1) true "bias"))) c Hc)
    as (_ & _ & _ & _ & _ & _ & _ & _ & Hclean & _).
  split; [|split; [|exact Hclean]].
  - vm_compute in Hc. injection Hc as <-. reflexivity.
  - vm_compute in Hc. injection Hc as <-. reflexivity.
Defined.

(** ** The geometry step, beyond the transposing branch *)

Lemma detect_axis_is dispdir det w ax :
  axis_is dispdir det w ax ->
  detect_axis dispdir det w = Ret tt (with_self (with_dispaxis (Some ax)) w).
Proof.
  intros [[Hc Hz]|[Hc (o & Ho & Hd)]]; unfold detect_axis; rewrite bind_gets, Hc.
  - destruct Hz as [-> | ->]; reflexivity.
  - rewrite (bind_Ret _ _ _ _ _ (getslot_at _ _ _ _ Ho)). rewrite bind_gets.
    unfold call. munfold. now rewrite Hd.
Qed.

Lemma swap_loop_upto (a b : list Z) (m : nat) :
  forall i w,
    (i + m <= length a)%nat -> (i + m <= length b)%nat ->
    naxis0 (fitsdict w) = take i b ++ drop i a ->
    naxis1 (fitsdict w) = take i a ++ drop i b ->
    for_each (seq i m) swap_naxis w
    = Ret tt (with_fits {| naxis0 := take (i + m) b ++ drop (i + m) a;
                           naxis1 := take (i + m) a ++ drop (i + m) b |} w).
Proof.
  induction m as [|m IH]; intros i w Him Hab H0 H1.
  - cbn. rewrite Nat.add_0_r, <- H0, <- H1, fits_eta, with_fits_id. reflexivity.
  - destruct (lookup_lt_is_Some_2 a i) as [x Hx]; [lia|].
    destruct (lookup_lt_is_Some_2 b i) as [y Hy]; [lia|].
    assert (Hla : length (take i a) = i) by (apply length_take_le; lia).
    assert (Hlb : length (take i b) = i) by (apply length_take_le; lia).
    assert (G0 : naxis0 (fitsdict w) !! i = Some x).
    { rewrite H0, lookup_app_r by lia. rewrite Hlb, Nat.sub_diag, lookup_drop.
      now rewrite Nat.add_0_r. }
    assert (G1 : naxis1 (fitsdict w) !! i = Some y).
    { rewrite H1, lookup_app_r by lia. rewrite Hla, Nat.sub_diag, lookup_drop.
      now rewrite Nat.add_0_r. }
    cbn [seq for_each]. rewrite (bind_Ret _ _ _ _ _ (swap_naxis_ok _ _ _ _ G0 G1)).
    rewrite IH; cbn [with_fits fitsdict naxis0 naxis1 self heap msgs]; try lia.
    + replace (S i + m)%nat with (i + S m)%nat by lia. reflexivity.
    + rewrite H0. eapply insert_take_drop; eassumption.
    + rewrite H1. eapply insert_take_drop; eassumption.
Qed.

Lemma for_each_app {A} (xs ys : list A) (body : A -> M unit) w :
  for_each (xs ++ ys) body w = (for_each xs body;; for_each ys body) w.
Proof.
  revert w. induction xs as [|x xs IH]; intros w; [reflexivity|].
  cbn [app for_each]. munfold. destruct (body x w) as [[] w1|e w1]; [apply IH|reflexivity].
Qed.

Lemma swap_naxis_short i w x :
  naxis0 (fitsdict w) !! i = Some x -> (length (naxis1 (fitsdict w)) <= i)%nat ->
  swap_naxis i w = Raise IndexError w.
Proof.
  intros G0 G1. unfold swap_naxis. rewrite bind_gets.
  rewrite (bind_Ret _ _ _ _ _ (getitem_nat _ _ _ _ G0)).
  erewrite bind_Raise; [reflexivity|]. apply getitem_None.
  apply py_index_out. lia.
Qed.

(** X16: the keyword loop runs over [naxis0] and indexes [naxis1] with the
    same counter.  When [naxis1] is at least as long, the loop completes:
    the first [len(naxis0)] entries are exchanged and the further entries of
    [naxis1] stay where they are.  When [naxis1] is shorter, the loop raises
    [IndexError] at the first index [naxis1] lacks, and the entries before
    it stay exchanged. *)
Theorem keyword_swap_follows_naxis0 (w : world) :
  ((length (naxis0 (fitsdict w)) <= length (naxis1 (fitsdict w)))%nat ->
   exists w', swap_keywords w = Ret tt w' /\
     naxis0 (fitsdict w') = take (length (naxis0 (fitsdict w))) (naxis1 (fitsdict w)) /\
     naxis1 (fitsdict w')
     = naxis0 (fitsdict w) ++ drop (length (naxis0 (fitsdict w))) (naxis1 (fitsdict w)) /\
     self w' = self w /\ heap w' = heap w /\ msgs w' = msgs w) /\
  ((length (naxis1 (fitsdict w)) < length (naxis0 (fitsdict w)))%nat ->
   swap_keywords w = Raise IndexError (with_fits (half_swapped (fitsdict w)) w)).
Proof.
  split.
  - intros H. exists (with_fits (swap_fits (fitsdict w)) w).
    split; [now apply swap_keywords_ok|]. repeat split.
  - intros H. unfold swap_keywords. rewrite bind_gets.
    remember (naxis0 (fitsdict w)) as a eqn:Ea. remember (naxis1 (fitsdict w)) as b eqn:Eb.
    replace (length a) with (length b + (length a - length b))%nat by lia.
    rewrite seq_app, for_each_app. cbn [Nat.add].
    erewrite bind_Ret.
    2:{ apply (swap_loop_upto a b); cbn [Nat.add]; try lia; rewrite take_0, drop_0; cbn [app]; now subst. }
    cbn [Nat.add]. rewrite (take_ge b), (drop_ge b) by lia.
    destruct (length a - length b)%nat as [|m] eqn:Hm; [lia|].
    cbn [seq for_each].
    destruct (lookup_lt_is_Some_2 a (length b)) as [x Hx]; [lia|].
    erewrite bind_Raise.
    2:{ apply swap_naxis_short with x; cbn [with_fits fitsdict naxis0 naxis1].
        - rewrite lookup_app_r by lia. rewrite Nat.sub_diag, lookup_drop.
          now rewrite Nat.add_0_r.
        - rewrite length_app, length_take. cbn [length]. lia. }
    unfold half_swapped. rewrite <- Ea, <- Eb. now rewrite app_nil_r.
Qed.

Lemma keyword_swap_follows_naxis0_witness :
  swap_keywords (with_fits {| naxis0 := [2; 2; 2]; naxis1 := [3; 3] |}
                           (fresh 1 (argflag0 (CInt 1) true "bias")))
  = Raise IndexError (with_fits {| naxis0 := [3; 3; 2]; naxis1 := [2; 2] |}
                                (fresh 1 (argflag0 (CInt 1) true "bias"))).
Proof.
  apply (proj2 (keyword_swap_follows_naxis0
                  (with_fits {| naxis0 := [2; 2; 2]; naxis1 := [3; 3] |}
                             (fresh 1 (argflag0 (CInt 1) true "bias"))))).
  cbn. lia.
Defined.

Lemma msgs_flip_slot a det w : msgs (flip_slot a det w) = msgs w.
Proof.
  unfold flip_slot, retarget. destruct (arr_at _ _ _); [|reflexivity].
  now destruct (py_index _ _).
Qed.

Lemma msgs_flip_params det w : msgs (flip_params det w) = msgs w.
Proof.
  unfold flip_params, put_det. destruct (det_at _ _); [|reflexivity].
  now destruct (py_index _ _).
Qed.

Lemma msgs_transposed det w :
  msgs (transposed det w)
  = msgs w ++ [(Info, "Transposing frames and keywords");
               (Work, "Transpose gain and readnoise frames")].
Proof.
  unfold transposed. cbn [msgs with_self logged].
  rewrite msgs_flip_params. cbn [msgs with_fits].
  rewrite !msgs_flip_slot. cbn [msgs with_self logged].
  now rewrite <- app_assoc.
Qed.

Lemma msgs_put_npix det w : msgs (put_npix det w) = msgs w.
Proof.
  unfold put_npix. destruct (arr_at _ _ _) as [a|]; [|reflexivity].
  destruct (shape a) as [|? [|? [|? ?]]]; try reflexivity.
  destruct (py_index _ _); [|reflexivity]. now destruct (py_index _ _).
Qed.

Section Geometry.

Variable dispdir : pyobj -> cfgval -> extern Z.

(** X17: the geometry step needs the master arc.  On an exposure whose arc
    slot is still [None], with the axis configured (0 or 1) or detected,
    [GetDispersionDirection] raises [AttributeError] when it reads the
    shape of the arc; by then the axis has been recorded on the exposure,
    and nothing else has changed.  With no axis configured the detection
    routine is handed [None]. *)
Theorem geometry_needs_the_arc (det : Z) (w : world) (ax : Z)
        (Hnone : slot_at a_msarc det w = Some PyNone)
        (Haxis : axis_is dispdir det w ax) :
  GetDispersionDirection dispdir det w
  = Raise (AttributeError "'NoneType' object has no attribute 'shape'")
          (with_self (with_dispaxis (Some ax)) w) /\
  (trace_disp_direction (_argflag (self w)) = CNone ->
   dispdir PyNone (trace_disp_window (_argflag (self w))) w = inr ax).
Proof.
  split.
  - unfold GetDispersionDirection.
    rewrite (bind_Ret _ _ _ _ _ (detect_axis_is _ _ _ _ Haxis)).
    set (w1 := with_self (with_dispaxis (Some ax)) w).
    erewrite bind_Raise; [reflexivity|].
    unfold check_longest.
    rewrite (bind_Ret _ _ _ _ _ (getslot_at a_msarc det w1 _ Hnone)). reflexivity.
  - intros Hc. destruct Haxis as [[Hc' _]|[_ (o & Ho & Hd)]]; [congruence|].
    assert (o = PyNone) by congruence. now subst o.
Qed.

(** X18: a dispersion axis other than 1 transposes nothing.  With a
    two-dimensional arc of shape [(r, c)] and the axis coming out as [ax <> 1],
    [GetDispersionDirection] returns the headers unchanged; every slot,
    every array, the detector parameters and the transpose flag are as
    before; the axis is recorded, [_nspec] and [_nspat] of the detector
    become [r] and [c], and the only possible log line is the warning,
    given exactly when [ax = 0] and [c >= r]. *)
Theorem other_axes_transpose_nothing (det : Z) (w : world) (ax : Z) (a : ndarray)
        (r c k k' : nat)
        (Haxis : axis_is dispdir det w ax) (Hne : ax <> 1)
        (Harc : arr_at a_msarc det w = Some a) (Hshape : shape a = [r; c])
        (Hk : py_index (length (_nspec (self w))) (det - 1) = Some k)
        (Hk' : py_index (length (_nspat (self w))) (det - 1) = Some k') :
  exists w',
    GetDispersionDirection dispdir det w = Ret (fitsdict w) w' /\
    same_slots w w' /\ heap w' = heap w /\ fitsdict w' = fitsdict w /\
    _det (self w') = _det (self w) /\ _transpose (self w') = _transpose (self w) /\
    _dispaxis (self w') = Some ax /\
    _nspec (self w') = <[k := Some r]> (_nspec (self w)) /\
    _nspat (self w') = <[k' := Some c]> (_nspat (self w)) /\
    msgs w' = msgs w ++ (if negb (c <? r)%nat && (ax =? 0)
                         then [(Warn, msg_shorter)] else []).
Proof.
  set (w1 := with_self (with_dispaxis (Some ax)) w).
  set (w2 := warn_if (negb (c <? r)%nat && (ax =? 0)) w1).
  assert (A1 : arr_at a_msarc det w1 = Some a) by exact Harc.
  assert (E2 : _frames (self w2) = _frames (self w) /\ heap w2 = heap w /\
               self w2 = self w1 /\ fitsdict w2 = fitsdict w).
  { unfold w2. destruct (_ && _); repeat split. }
  destruct E2 as (F2 & H2 & S2 & D2).
  assert (A2 : arr_at a_msarc det w2 = Some a).
  { now rewrite (arr_at_same_store _ _ _ _ F2 H2). }
  assert (Hrun : GetDispersionDirection dispdir det w = Ret (fitsdict w) (put_npix det w2)).
  { unfold GetDispersionDirection.
    rewrite (bind_Ret _ _ _ _ _ (detect_axis_is _ _ _ _ Haxis)). fold w1.
    rewrite (bind_Ret _ _ _ _ _ (check_longest_ok _ _ _ _ _ _ A1 Hshape)).
    replace (if (c <? r)%nat then warn_if (is_axis (_dispaxis (self w1)) 1) w1
             else warn_if (is_axis (_dispaxis (self w1)) 0) w1) with w2.
    2:{ unfold w2. cbn [w1 self with_self with_dispaxis _dispaxis is_axis].
        destruct (c <? r)%nat; cbn [negb andb].
        - destruct (Z.eqb_spec ax 1); [lia|reflexivity].
        - reflexivity. }
    unfold get_dispaxis. rewrite bind_gets. rewrite S2.
    cbn [w1 self with_self with_dispaxis _dispaxis is_axis].
    destruct (Z.eqb_spec ax 1) as [|_]; [lia|].
    erewrite bind_Ret by reflexivity.
    erewrite bind_Ret.
    2:{ apply set_npix_ok with a r c; [exact A2|exact Hshape| |]; rewrite S2; cbn; eauto. }
    unfold gets. pose proof (put_npix_frame det w2) as (_ & _ & -> & _). now rewrite D2. }
  exists (put_npix det w2). split; [exact Hrun|].
  pose proof (put_npix_frame det w2) as (P1 & P2 & P3 & P4 & P5 & P6 & _).
  split; [unfold same_slots; now rewrite P1|].
  split; [now rewrite P2|]. split; [now rewrite P3|].
  split; [now rewrite P4, S2|]. split; [now rewrite P5, S2|]. split; [now rewrite P6, S2|].
  unfold put_npix. rewrite A2, Hshape, S2.
  cbn [w1 self with_self with_dispaxis _nspec _nspat].
  rewrite Hk, Hk'. cbn.
  rewrite S2. cbn. repeat split.
  unfold w2. destruct (_ && _); cbn; [reflexivity|now rewrite app_nil_r].
Qed.

(** X19: after a transposing call the pixel counts are those of the
    transposed arc.  For a ready detector whose arc has shape [(r, c)] and
    whose axis comes out as 1, [GetDispersionDirection] leaves [_nspec] of
    the detector at [c] and [_nspat] at [r]; the log gains the warning
    exactly when [c < r], then the two lines of the transposing branch. *)
Theorem pixel_counts_follow_the_flip (det : Z) (w : world) (a : ndarray) (r c k k' : nat)
        (Hready : ready det w) (Haxis : axis_one dispdir det w)
        (Harc : arr_at a_msarc det w = Some a) (Hshape : shape a = [r; c])
        (Hk : py_index (length (_nspec (self w))) (det - 1) = Some k)
        (Hk' : py_index (length (_nspat (self w))) (det - 1) = Some k') :
  exists fd w',
    GetDispersionDirection dispdir det w = Ret fd w' /\
    _nspec (self w') = <[k := Some c]> (_nspec (self w)) /\
    _nspat (self w') = <[k' := Some r]> (_nspat (self w)) /\
    msgs w' = msgs w ++ (if (c <? r)%nat then [(Warn, msg_shorter)] else [])
                     ++ [(Info, "Transposing frames and keywords");
                         (Work, "Transpose gain and readnoise frames")].
Proof.
  exists (fitsdict (normalized det w)), (normalized det w).
  split; [now apply normalize_runs|].
  unfold normalized.
  set (w1 := with_self (with_dispaxis (Some 1)) w).
  assert (A1 : arr_at a_msarc det w1 = Some a) by exact Harc.
  assert (Hlr : longer_rows det w1 = (c <? r)%nat).
  { unfold longer_rows. now rewrite A1, Hshape. }
  rewrite Hlr.
  set (w2 := warn_if (c <? r)%nat w1).
  assert (E2 : _frames (self w2) = _frames (self w) /\ heap w2 = heap w /\
               self w2 = self w1).
  { unfold w2. destruct (c <? r)%nat; repeat split. }
  destruct E2 as (F2 & H2 & S2).
  assert (A2 : arr_at a_msarc det (transposed det w2) = Some (T a)).
  { apply (transposed_arr a_msarc). now rewrite (arr_at_same_store _ _ _ _ F2 H2). }
  pose proof (transposed_frame det w2) as (_ & _ & _ & Tns & Tnp & _).
  assert (Hm : msgs (put_npix det (transposed det w2))
               = msgs w ++ (if (c <? r)%nat then [(Warn, msg_shorter)] else [])
                        ++ [(Info, "Transposing frames and keywords");
                            (Work, "Transpose gain and readnoise frames")]).
  { rewrite msgs_put_npix, msgs_transposed. unfold w2.
    destruct (c <? r)%nat; cbn; [now rewrite <- app_assoc|reflexivity]. }
  split; [|split; [|exact Hm]].
  - unfold put_npix. rewrite A2, shape_T, Hshape. cbn [rev app].
    rewrite Tns, Tnp, S2. cbn [w1 self with_self with_dispaxis _nspec _nspat].
    rewrite Hk, Hk'. cbn [self with_self with_npix _nspec _nspat].
    now rewrite Tns, S2.
  - unfold put_npix. rewrite A2, shape_T, Hshape. cbn [rev app].
    rewrite Tns, Tnp, S2. cbn [w1 self with_self with_dispaxis _nspec _nspat].
    rewrite Hk, Hk'. cbn [self with_self with_npix _nspec _nspat].
    now rewrite Tnp, S2.
Qed.

End Geometry.

Lemma geometry_needs_the_arc_witness :
  GetDispersionDirection (dispdir_const 0) 1 (fresh 1 (argflag0 (CInt 1) true "arc"))
  = Raise (AttributeError "'NoneType' object has no attribute 'shape'")
          (with_self (with_dispaxis (Some 1)) (fresh 1 (argflag0 (CInt 1) true "arc"))).
Proof.
  apply (geometry_needs_the_arc (dispdir_const 0) 1 (fresh 1 (argflag0 (CInt 1) true "arc")) 1).
  - reflexivity.
  - left. split; [reflexivity|now right].
Defined.

Lemma other_axes_transpose_nothing_witness :
  exists w',
    GetDispersionDirection (dispdir_const 1) 1 (loaded (argflag0 (CInt 0) true "bias"))
    = Ret (fitsdict (loaded (argflag0 (CInt 0) true "bias"))) w' /\
    same_slots (loaded (argflag0 (CInt 0) true "bias")) w' /\
    msgs w' = [(Warn, msg_shorter)].
Proof.
  destruct (other_axes_transpose_nothing (dispdir_const 1) 1
              (loaded (argflag0 (CInt 0) true "bias")) 0 arc23 2 3 0 0)
    as (w' & H1 & H2 & _ & _ & _ & _ & _ & _ & _ & H3).
  - left. split; [reflexivity|now left].
  - lia.
  - reflexivity.
  - reflexivity.
  - reflexivity.
  - reflexivity.
  - exists w'. split; [exact H1|]. split; [exact H2|exact H3].
Defined.

Lemma pixel_counts_follow_the_flip_witness :
  exists fd w',
    GetDispersionDirection (dispdir_const 0) 1 (loaded (argflag0 (CInt 1) true "bias"))
    = Ret fd w' /\
    _nspec (self w') = [Some 3%nat] /\ _nspat (self w') = [Some 2%nat].
Proof.
  destruct (pixel_counts_follow_the_flip (dispdir_const 0) 1
              (loaded (argflag0 (CInt 1) true "bias")) arc23 2 3 0 0)
    as (fd & w' & H1 & H2 & H3 & _).
  - apply loaded_ready.
  - now left.
  - reflexivity.
  - reflexivity.
  - reflexivity.
  - reflexivity.
  - exists fd, w'. split; [exact H1|]. split; [exact H2|exact H3].
Defined.

(** ** The generic spectrograph class *)

Section RawFrames.

Import SpectrographClass.

Variable fits_open : string -> exn + list hdu.
Variable par_len : DetectorPar -> nat.

Lemma load_raw_frame_inv raw_file disp ext img head :
  load_raw_frame fits_open raw_file disp (Some ext) = inr (img, head) ->
  exists hdus h h0 raw,
    fits_open raw_file = inr hdus /\ item hdus ext = inr h /\ item hdus 0 = inr h0 /\
    hdu_data h = Some raw /\ head = hdu_header h0 /\
    img = (if disp =? 1 then T (astype_float raw) else astype_float raw).
Proof.
  unfold load_raw_frame, load_raw_img_head. intros H.
  apply exn_bind_inv in H as ([raw_img head0] & H1 & H).
  apply exn_bind_inv in H1 as (hdus & Ho & H1).
  apply exn_bind_inv in H1 as (h & Hh & H1).
  apply exn_bind_inv in H1 as (h0 & Hh0 & H1).
  injection H1 as <- <-.
  destruct (hdu_data h) as [raw|] eqn:Hd; [|discriminate].
  injection H as <- <-.
  now exists hdus, h, h0, raw.
Qed.

(** X20: what [load_raw_frame] returns.  It returns exactly when the file
    opens, has a unit [dataext] with an image and a unit 0; the image is then
    of float type whatever the raw type was, its shape is the raw shape,
    reversed exactly when [disp_dir] is 1, its pixel values are the raw ones
    when [disp_dir] is not 1, and the header is that of unit 0 even when the
    image comes from another unit. *)
Theorem raw_frame_is_float_and_oriented (raw_file : string) (disp ext : Z)
        (img : ndarray) (head : string) :
  load_raw_frame fits_open raw_file disp (Some ext) = inr (img, head) <->
  exists hdus h h0 raw,
    fits_open raw_file = inr hdus /\ item hdus ext = inr h /\ item hdus 0 = inr h0 /\
    hdu_data h = Some raw /\ head = hdu_header h0 /\
    dtype_of img = DFloat /\
    shape img = (if disp =? 1 then rev (shape raw) else shape raw) /\
    data img = (if disp =? 1 then transpose_data (shape raw) (data raw) else data raw).
Proof.
  split.
  - intros H. apply load_raw_frame_inv in H as (hdus & h & h0 & raw & Ho & Hh & Hh0 & Hd & -> & ->).
    exists hdus, h, h0, raw. repeat split; try assumption; destruct (disp =? 1); reflexivity.
  - intros (hdus & h & h0 & raw & Ho & Hh & Hh0 & Hd & -> & Hdt & Hsh & Hda).
    unfold load_raw_frame, load_raw_img_head. rewrite Ho. cbn.
    rewrite Hh. cbn. rewrite Hh0. cbn. rewrite Hd. cbn. do 2 f_equal.
    destruct img as [dt sh da]. cbn in *. subst dt sh da.
    destruct (disp =? 1); reflexivity.
Qed.

(** X21: [get_datasec] and [ndet] disagree on what [self.detector] is.
    With no detector set [get_datasec] raises [ValueError] and with a list
    of parameter sets it raises [TypeError], in both cases without opening
    the file, while [ndet] is 0 and the length of the list.  Whenever
    [get_datasec] returns, the detector is a single parameter set: the two
    sections are its [datasec] and [oscansec], the shape is that of the
    image in unit [dataext], reversed exactly when [dispaxis] is 1, and
    [ndet] is then the length of the parameter set. *)
Theorem datasec_needs_one_parameter_set (detector : detector_attr) (filename : string) :
  (detector = DetNone ->
   get_datasec fits_open detector filename
   = inl (ValueError "Must first define spectrograph detector parameters!") /\
   ndet par_len detector = 0%nat) /\
  (forall l, detector = DetList l ->
   get_datasec fits_open detector filename
   = inl (TypeError "Detector parameters must be specified using a DetectorPar instance.") /\
   ndet par_len detector = length l) /\
  (forall ds os sh, get_datasec fits_open detector filename = inr (ds, os, sh) ->
   exists p hdus h raw,
     detector = DetOne p /\ ndet par_len detector = par_len p /\
     ds = par_datasec p /\ os = par_oscansec p /\
     fits_open filename = inr hdus /\ item hdus (par_dataext p) = inr h /\
     hdu_data h = Some raw /\
     sh = (if par_dispaxis p =? 1 then rev (shape raw) else shape raw)).
Proof.
  split; [intros ->; now split|]. split; [intros l ->; now split|].
  intros ds os sh H. destruct detector as [|p|l]; try discriminate.
  cbn [get_datasec] in H.
  apply exn_bind_inv in H as ([temp head] & Hl & H). injection H as <- <- <-.
  apply load_raw_frame_inv in Hl as (hdus & h & h0 & raw & Ho & Hh & _ & Hd & _ & ->).
  exists p, hdus, h, raw. repeat split; try assumption.
  destruct (par_dispaxis p =? 1); reflexivity.
Qed.

End RawFrames.

Lemma raw_frame_is_float_and_oriented_witness :
  SpectrographClass.load_raw_frame fits2 "raw.fits" 1 (Some 1)
  = inr (T (SpectrographClass.astype_float amp23), "primary").
Proof.
  apply (raw_frame_is_float_and_oriented fits2 "raw.fits" 1 1).
  eexists _, _, _, amp23. repeat split; reflexivity.
Defined.

Lemma datasec_needs_one_parameter_set_witness :
  SpectrographClass.get_datasec fits2 (SpectrographClass.DetOne par0) "raw.fits"
  = inr (["[1:2,1:3]"], ["[1:2,4:5]"], [3; 2]%nat) /\
  exists p, SpectrographClass.DetOne par0 = SpectrographClass.DetOne p /\
            SpectrographClass.ndet (fun _ => 4%nat) (SpectrographClass.DetOne par0) = 4%nat.
Proof.
  split; [reflexivity|].
  destruct (proj2 (proj2 (datasec_needs_one_parameter_set fits2 (fun _ => 4%nat)
                            (SpectrographClass.DetOne par0) "raw.fits"))
              ["[1:2,1:3]"] ["[1:2,4:5]"] [3; 2]%nat eq_refl)
    as (p & _ & _ & _ & Hp & Hn & _).
  exists p. split; [exact Hp|]. reflexivity.
Defined.

(** ** The quick-look script *)

Section TypeBits.

Variable bits : Type.
Variable basename : string -> string.

Lemma py_list_index_lt x l i : py_list_index x l = inr i -> (i < length l)%nat.
Proof.
  revert i. induction l as [|y l IH]; intros i; cbn [py_list_index]; [discriminate|].
  destruct (String.eqb y x); [intros [= <-]; cbn; lia|].
  intros H. apply exn_bind_inv in H as (k & Hk & H). injection H as <-.
  specialize (IH k Hk). cbn. lia.
Qed.

Lemma py_list_index_lookup x l i : py_list_index x l = inr i -> l !! i = Some x.
Proof.
  revert i. induction l as [|y l IH]; intros i; cbn [py_list_index]; [discriminate|].
  destruct (String.eqb_spec y x) as [->|_]; [now intros [= <-]|].
  intros H. apply exn_bind_inv in H as (k & Hk & H). injection H as <-.
  now apply IH.
Qed.

Lemma take_rows_total (file_bits : list bits) (asrt : list nat) :
  Forall (fun i => i < length file_bits)%nat asrt ->
  exists r, take_rows bits file_bits asrt = inr r.
Proof.
  unfold take_rows. induction 1 as [|i asrt Hi _ (r & IH)]; cbn [mapM]; [now eexists|].
  destruct (lookup_lt_is_Some_2 file_bits i Hi) as [b Hb]. rewrite Hb. cbn.
  rewrite IH. cbn. now eexists.
Qed.

Lemma take_rows_lookup (file_bits : list bits) (asrt : list nat) r :
  take_rows bits file_bits asrt = inr r ->
  length r = length asrt /\
  forall j i, asrt !! j = Some i -> is_Some (r !! j) /\ r !! j = file_bits !! i.
Proof.
  unfold take_rows. intros H. apply mapM_exn_lookup in H as (Hlen & Hidx).
  split; [exact Hlen|]. intros j i Hj.
  destruct (lookup_lt_is_Some_2 r j) as [b Hb].
  { rewrite Hlen. now apply lookup_lt_Some with i. }
  destruct (Hidx j b Hb) as (i' & Hi' & Hf).
  assert (i' = i) by congruence. subst i'.
  destruct (file_bits !! i) as [b'|]; [|discriminate]. injection Hf as ->.
  split; [now exists b|exact Hb].
Qed.

(** X22: the type bits reach the table through the wrong permutation unless
    it is its own inverse.  [asrt[j]] is the table row of data file [j], and
    the script hands [file_bits[asrt]] to [set_frame_types]: position [j]
    of that array holds the bits of data file [asrt[j]].  With one table row
    per data file and pairwise distinct bits, the array exists, and the row
    of every data file carries that file's bits exactly when
    [asrt[asrt[j]] = j] for every [j]. *)
Theorem type_bits_need_a_self_inverse_sort (filenames data_files : list string)
        (file_bits : list bits) (asrt : list nat)
        (Hrows : sort_rows basename filenames data_files = inr asrt)
        (Htable : length filenames = length data_files)
        (Hbits : length file_bits = length data_files)
        (Hdistinct : NoDup file_bits) :
  exists r,
    frame_type_bits bits basename filenames data_files file_bits = inr r /\
    length r = length data_files /\
    (forall j i, asrt !! j = Some i -> r !! j = file_bits !! i) /\
    (rows_typed asrt file_bits r <-> self_inverse asrt).
Proof.
  pose proof Hrows as Hrows'. unfold sort_rows in Hrows'.
  apply mapM_exn_lookup in Hrows' as (Hlen & Hidx).
  assert (Hin : forall j i, asrt !! j = Some i -> (i < length data_files)%nat).
  { intros j i Hj. destruct (Hidx j i Hj) as (f & _ & Hf).
    apply py_list_index_lt in Hf. lia. }
  destruct (take_rows_total file_bits asrt) as [r Hr].
  { apply Forall_lookup. intros j i Hj. rewrite Hbits. now apply Hin with j. }
  destruct (take_rows_lookup _ _ _ Hr) as (Hrl & Hrv).
  exists r.
  split; [unfold frame_type_bits; rewrite Hrows; exact Hr|].
  split; [lia|].
  split; [intros j i Hj; now apply Hrv|].
  unfold rows_typed, self_inverse. split.
  - intros Hok j i Hj.
    destruct (lookup_lt_is_Some_2 asrt i) as [i' Hi']; [rewrite Hlen; now apply Hin with j|].
    destruct (Hrv i i' Hi') as (_ & E1). specialize (Hok j i Hj).
    assert (E : file_bits !! i' = file_bits !! j) by congruence.
    destruct (lookup_lt_is_Some_2 file_bits j) as [b Hb].
    { rewrite Hbits, <- Hlen. now apply lookup_lt_Some with i. }
    rewrite Hb in E.
    now rewrite (NoDup_lookup _ _ _ _ Hdistinct E Hb) in Hi'.
  - intros Hinv j i Hj. destruct (Hrv i j (Hinv j i Hj)) as (_ & E). exact E.
Qed.

End TypeBits.

Lemma type_bits_need_a_self_inverse_sort_witness :
  frame_type_bits Z id ["flat.fits"; "sci.fits"; "arc.fits"]
                  ["arc.fits"; "flat.fits"; "sci.fits"] [1; 2; 3]
  = inr [3; 1; 2] /\
  ~ rows_typed [2; 0; 1]%nat [1; 2; 3] [3; 1; 2].
Proof.
  destruct (type_bits_need_a_self_inverse_sort Z id
              ["flat.fits"; "sci.fits"; "arc.fits"] ["arc.fits"; "flat.fits"; "sci.fits"]
              [1; 2; 3] [2; 0; 1]%nat eq_refl eq_refl eq_refl)
    as (r & Hr & _ & _ & Hiff).
  { apply (bool_decide_unpack (NoDup [1; 2; 3])). vm_compute. reflexivity. }
  assert (r = [3; 1; 2]) by (vm_compute in Hr; congruence). subst r.
  split; [reflexivity|].
  intros Hok. apply Hiff in Hok. specialize (Hok 0%nat 2%nat eq_refl). discriminate.
Defined.

(** ** Transposing twice *)

















Section TwoCalls.

Variable dispdir : pyobj -> cfgval -> extern Z.


End TwoCalls.


(** ** Building the flat field and the arc *)

Section Builds.

Variable load_frames :
  list Z -> Z -> string -> option pyobj -> option bool -> option bool -> extern ndarray.
Variable match_frames : pyobj -> float -> bool -> string -> satlevel -> extern (list ndarray).
Variable comb_frames : pyobj -> Z -> string -> option (list nat) -> kwargs -> extern ndarray.
Variable load_master : string -> bool -> option string -> extern ndarray.
Variable flatnorm : Z -> pyobj -> extern (ndarray * ndarray).
Variable np_array_ragged : list pyobj -> extern ndarray.

Lemma lookup_past {A} (h l : list A) i : (h ++ l) !! (length h + i)%nat = l !! i.
Proof. rewrite lookup_app_r by lia. f_equal. lia. Qed.

Lemma call_arr_ok (f : extern ndarray) x w :
  f w = inr x -> call_arr f w = Ret (PyArr (length (heap w))) (with_heap (heap w ++ [x]) w).
Proof. intros H. unfold call_arr, call, alloc. munfold. now rewrite H. Qed.

(** X24: the main path of [MasterFlatField].  With flat-fielding on, an
    empty pixel-flat slot, [useflat] 'pixflat' or 'blzflat', no frame
    matching, and collaborators that answer with the frames [f], the
    combined flat [m] and the pair (normalized flat [nrm], blaze [blaze]),
    the step returns [True]; the stored bias value itself is what
    [load_frames] receives; the blaze, the pixel flat and the normalized
    flat are stored as private copies, in that order, so that seven arrays
    are created in all; and a second call finds both flats and returns
    [False] without normalizing again. *)
Theorem flat_is_built_with_its_blaze (det : Z) (w : world) (bias : pyobj)
        (f m nrm blaze : ndarray)
        (Hon : reduce_flatfield (_argflag (self w)) = true)
        (Hnone : slot_at a_mspixflat det w = Some PyNone)
        (Hmode : reduce_useflat (_argflag (self w)) = "pixflat" \/
                 reduce_useflat (_argflag (self w)) = "blzflat")
        (Hmatch : PrimFloat.ltb 0 (reduce_flatmatch (_argflag (self w))) = false)
        (Hbias : slot_at a_msbias det w = Some bias)
        (Hnrm : is_Some (slot_at a_mspixflatnrm det w))
        (Hblz : is_Some (slot_at a_msblaze det w))
        (Hload : forall w0, load_frames (_idx_flat (self w)) det "pixel flat" (Some bias) None
                              (Some (_transpose (self w))) w0 = inr f)
        (Hcomb : forall w0, comb_frames (PyArr (length (heap w))) det "pixel flat" None
                              (pixflat_comb (_argflag (self w))) w0 = inr m)
        (Hflat : forall w0, flatnorm det (PyArr (S (length (heap w)))) w0 = inr (nrm, blaze)) :
  exists w',
    MasterFlatField load_frames match_frames comb_frames load_master flatnorm
                    np_array_ragged det w = Ret true w' /\
    arr_at a_mspixflat det w' = Some m /\
    arr_at a_mspixflatnrm det w' = Some nrm /\
    arr_at a_msblaze det w' = Some blaze /\
    heap w' = heap w ++ [f; m; nrm; blaze; blaze; m; nrm] /\
    slot_at a_msblaze det w' = Some (PyArr (length (heap w) + 4)) /\
    slot_at a_mspixflat det w' = Some (PyArr (length (heap w) + 5)) /\
    slot_at a_mspixflatnrm det w' = Some (PyArr (length (heap w) + 6)) /\
    MasterFlatField load_frames match_frames comb_frames load_master flatnorm
                    np_array_ragged det w'
    = Ret false (logged Info "An identical master pixflat frame already exists" w').
Proof.
  destruct (slot_at_index _ _ _ _ Hnone) as (kp & Hkp & _).
  destruct Hnrm as [on Hnrm]. destruct (slot_at_index _ _ _ _ Hnrm) as (kn & Hkn & _).
  destruct Hblz as [ob Hblz]. destruct (slot_at_index _ _ _ _ Hblz) as (kb & Hkb & _).
  set (uf := reduce_useflat (_argflag (self w))) in *.
  set (w0 := logged Info ("Preparing a master pixel flat frame with " +:+ uf) w).
  remember (heap w) as h eqn:Eh.
  set (w1 := with_heap (h ++ [f; m; nrm; blaze]) w0).
  set (w2 := put_slot a_msblaze kb (PyArr (length h + 4)) (with_heap (h ++ [f; m; nrm; blaze; blaze]) w0)).
  set (w3 := put_slot a_mspixflat kp (PyArr (length h + 5))
               (with_heap (h ++ [f; m; nrm; blaze; blaze; m]) w2)).
  set (w4 := put_slot a_mspixflatnrm kn (PyArr (length h + 6))
               (with_heap (h ++ [f; m; nrm; blaze; blaze; m; nrm]) w3)).
  assert (Hflag : (String.eqb uf "pixflat" || String.eqb uf "blzflat") = true).
  { destruct Hmode as [->| ->]; reflexivity. }
  assert (Hrun : MasterFlatField load_frames match_frames comb_frames load_master flatnorm
                   np_array_ragged det w = Ret true w4).
  { unfold MasterFlatField. rewrite bind_gets, Hon.
    rewrite (bind_Ret _ _ _ _ _ (getslot_at _ _ _ _ Hnone)).
    fold uf. rewrite Hflag.
    erewrite bind_Ret.
    2:{ rewrite (bind_Ret _ _ _ _ _ (msg_logged _ _ _)). fold w0.
        rewrite bind_gets.
        erewrite bind_Ret by (apply (getslot_at a_msbias det w0); exact Hbias).
        rewrite bind_gets.
        change (_idx_flat (self w0)) with (_idx_flat (self w)).
        change (_transpose (self w0)) with (_transpose (self w)).
        erewrite bind_Ret by (apply call_arr_ok; apply Hload).
        change (_argflag (self w0)) with (_argflag (self w)) in *.
        rewrite Hmatch.
        apply call_arr_ok. cbn [heap with_heap w0 logged]. rewrite <- Eh. apply Hcomb. }
    cbn [heap with_heap w0 logged]. rewrite <- !Eh.
    rewrite length_app. cbn [length]. rewrite Nat.add_1_r.
    erewrite bind_Ret by (unfold call; rewrite Hflat; reflexivity).
    cbv beta iota.
    erewrite bind_Ret by reflexivity.
    erewrite bind_Ret by reflexivity.
    cbn [heap with_heap]. rewrite <- !app_assoc. cbn [app].
    erewrite bind_Ret.
    2:{ unfold SetFrame. eapply copy_into_slot; [exact Hkb|].
        cbn [heap with_heap]. rewrite length_app. cbn [length].
        rewrite lookup_past. reflexivity. }
    cbn [heap with_heap]. rewrite !length_app. cbn [length]. rewrite <- !app_assoc. cbn [app].
    rewrite (SetMasterFrame_copy "pixflat" a_mspixflat _ det eq_refl).
    erewrite bind_Ret.
    2:{ eapply copy_into_slot; [exact Hkp|].
        cbn [heap with_heap put_slot with_self].
        replace (S (length h)) with (length h + 1)%nat by lia.
        rewrite lookup_past. reflexivity. }
    cbn [heap with_heap put_slot with_self]. rewrite !length_app. cbn [length].
    rewrite <- !app_assoc. cbn [app].
    rewrite (SetMasterFrame_copy "normpixflat" a_mspixflatnrm _ det eq_refl).
    erewrite bind_Ret.
    2:{ eapply copy_into_slot; [exact Hkn|].
        cbn [heap with_heap put_slot with_self].
        rewrite lookup_past. reflexivity. }
    cbn [heap with_heap put_slot with_self]. rewrite !length_app. cbn [length].
    rewrite <- !app_assoc. cbn [app].
    unfold w4, w3, w2, put_slot, with_heap, with_self. cbn.
    replace (length h + 4 + 1)%nat with (length h + 5)%nat by lia.
    replace (length h + 5 + 1)%nat with (length h + 6)%nat by lia.
    reflexivity. }
  assert (S4n : slot_at a_mspixflatnrm det w4 = Some (PyArr (length h + 6))).
  { unfold w4. apply slot_at_put_same. exact Hkn. }
  assert (S4p : slot_at a_mspixflat det w4 = Some (PyArr (length h + 5))).
  { change (slot_at a_mspixflat det w4) with (slot_at a_mspixflat det w3).
    unfold w3. apply slot_at_put_same. exact Hkp. }
  assert (S4b : slot_at a_msblaze det w4 = Some (PyArr (length h + 4))).
  { change (slot_at a_msblaze det w4) with (slot_at a_msblaze det w2).
    unfold w2. apply slot_at_put_same. exact Hkb. }
  assert (H4 : heap w4 = h ++ [f; m; nrm; blaze; blaze; m; nrm]) by reflexivity.
  exists w4. split; [exact Hrun|].
  split; [unfold arr_at; rewrite S4p, H4, lookup_app_r by lia;
          replace (length h + 5 - length h)%nat with 5%nat by lia; reflexivity|].
  split; [unfold arr_at; rewrite S4n, H4, lookup_app_r by lia;
          replace (length h + 6 - length h)%nat with 6%nat by lia; reflexivity|].
  split; [unfold arr_at; rewrite S4b, H4, lookup_app_r by lia;
          replace (length h + 4 - length h)%nat with 4%nat by lia; reflexivity|].
  split; [exact H4|]. split; [exact S4b|]. split; [exact S4p|]. split; [exact S4n|].
  unfold MasterFlatField. rewrite bind_gets.
  change (_argflag (self w4)) with (_argflag (self w)). rewrite Hon.
  rewrite (bind_Ret _ _ _ _ _ (getslot_at _ _ _ _ S4p)).
  rewrite (bind_Ret _ _ _ _ _ (msg_logged _ _ _)).
  erewrite bind_Ret by (apply (getslot_at a_mspixflatnrm det); exact S4n).
  reflexivity.
Qed.

Lemma store_built (a : attr) (ftype : string) (det : Z) (k : nat) (line : string)
      (f m : ndarray) (w : world) :
  kind_attr ftype = Some a ->
  py_index (length (slots_of a w)) (det - 1) = Some k ->
  (SetMasterFrame (PyArr (length (heap w ++ [f]))) ftype det true;; ret true)
    (with_heap ((heap w ++ [f]) ++ [m]) (logged Info line w))
  = Ret true (built a k line f m w).
Proof.
  intros Hkind Hk.
  rewrite (SetMasterFrame_copy _ _ _ _ Hkind).
  erewrite bind_Ret.
  2:{ eapply copy_into_slot; [exact Hk|]. cbn [heap with_heap logged].
      apply lookup_snoc_new. }
  unfold built, put_slot, with_heap, with_self. cbn.
  rewrite !length_app, <- !app_assoc. cbn.
  replace (length (heap w) + 1 + 1)%nat with (length (heap w) + 2)%nat by lia. reflexivity.
Qed.

Lemma arr_at_built a det k line f m w :
  py_index (length (slots_of a w)) (det - 1) = Some k ->
  arr_at a det (built a k line f m w) = Some m.
Proof.
  intros Hk. unfold built. apply arr_at_put_same; [exact Hk|].
  rewrite lookup_past. reflexivity.
Qed.

(** X25: the main paths of [MasterArc] and [MasterTrace].  With an empty
    slot, the mode 'arc' (for the trace: 'trace' or 'blzflat'), no frame
    matching, and collaborators that answer with the frames [f] and the
    combined master [m], each step logs one line, creates three arrays and
    returns [True] with a private copy of [m] in its slot.  [load_frames] is
    handed the value of the bias slot as it is stored; the trace step also
    passes the trim flag and the exposure's transpose flag, the arc step
    passes neither. *)
Theorem arc_and_trace_are_built_alike (det : Z) (w : world) (bias : pyobj) (f m : ndarray)
        (k : nat)
        (Hbias : slot_at a_msbias det w = Some bias) :
  (slot_at a_msarc det w = Some PyNone ->
   py_index (length (slots_of a_msarc w)) (det - 1) = Some k ->
   reduce_usearc (_argflag (self w)) = "arc" ->
   PrimFloat.ltb 0 (reduce_arcmatch (_argflag (self w))) = false ->
   (forall w0, load_frames (_idx_arcs (self w)) det "arc" (Some bias) None None w0 = inr f) ->
   (forall w0, comb_frames (PyArr (length (heap w))) det "arc" None
                           (arc_comb (_argflag (self w))) w0 = inr m) ->
   MasterArc load_frames comb_frames load_master det w
   = Ret true (built a_msarc k "Preparing a master arc frame" f m w) /\
   arr_at a_msarc det (built a_msarc k "Preparing a master arc frame" f m w) = Some m) /\
  (slot_at a_mstrace det w = Some PyNone ->
   py_index (length (slots_of a_mstrace w)) (det - 1) = Some k ->
   reduce_usetrace (_argflag (self w)) = "trace" \/
   reduce_usetrace (_argflag (self w)) = "blzflat" ->
   PrimFloat.ltb 0 (reduce_flatmatch (_argflag (self w))) = false ->
   (forall w0, load_frames (_idx_trace (self w)) det "trace" (Some bias)
                           (Some (reduce_trim (_argflag (self w))))
                           (Some (_transpose (self w))) w0 = inr f) ->
   (forall w0, comb_frames (PyArr (length (heap w))) det "trace" None
                           (trace_comb (_argflag (self w))) w0 = inr m) ->
   let line := "Preparing a master trace frame with " +:+ reduce_usetrace (_argflag (self w)) in
   MasterTrace load_frames match_frames comb_frames load_master det w
   = Ret true (built a_mstrace k line f m w) /\
   arr_at a_mstrace det (built a_mstrace k line f m w) = Some m).
Proof.
  split.
  - intros Hnone Hk Hmode Hmatch Hload Hcomb. split; [|now apply arr_at_built].
    unfold MasterArc. rewrite (bind_Ret _ _ _ _ _ (getslot_at _ _ _ _ Hnone)).
    rewrite bind_gets, Hmode. cbn [String.eqb Ascii.eqb Bool.eqb].
    erewrite bind_Ret.
    2:{ rewrite (bind_Ret _ _ _ _ _ (msg_logged _ _ _)). rewrite bind_gets.
        erewrite bind_Ret by (apply (getslot_at a_msbias det); exact Hbias).
        erewrite bind_Ret by (apply call_arr_ok; apply Hload).
        cbn [self logged with_heap]. rewrite Hmatch.
        apply call_arr_ok. apply Hcomb. }
    exact (store_built a_msarc "arc" det k _ f m w eq_refl Hk).
  - intros Hnone Hk Hmode Hmatch Hload Hcomb line. split; [|now apply arr_at_built].
    assert (Hflag : (String.eqb (reduce_usetrace (_argflag (self w))) "trace"
                     || String.eqb (reduce_usetrace (_argflag (self w))) "blzflat") = true).
    { destruct Hmode as [->| ->]; reflexivity. }
    unfold MasterTrace. rewrite (bind_Ret _ _ _ _ _ (getslot_at _ _ _ _ Hnone)).
    rewrite bind_gets. cbv zeta. rewrite Hflag.
    erewrite bind_Ret.
    2:{ rewrite (bind_Ret _ _ _ _ _ (msg_logged _ _ _)). rewrite bind_gets.
        erewrite bind_Ret by (apply (getslot_at a_msbias det); exact Hbias).
        rewrite bind_gets.
        erewrite bind_Ret by (apply call_arr_ok; apply Hload).
        cbn [self logged with_heap]. rewrite Hmatch.
        apply call_arr_ok. apply Hcomb. }
    exact (store_built a_mstrace "trace" det k _ f m w eq_refl Hk).
Qed.

End Builds.

Lemma flat_is_built_with_its_blaze_witness :
  exists w',
    MasterFlatField (frames_const arc23) no_match (comb_const amp23) no_master flatnorm_const
                    no_ragged 1 (fresh 1 (argflag0 (CInt 1) true "bias")) = Ret true w' /\
    arr_at a_mspixflat 1 w' = Some amp23 /\
    arr_at a_mspixflatnrm 1 w' = Some arc23 /\
    arr_at a_msblaze 1 w' = Some amp23.
Proof.
  destruct (flat_is_built_with_its_blaze (frames_const arc23) no_match (comb_const amp23)
              no_master flatnorm_const no_ragged 1 (fresh 1 (argflag0 (CInt 1) true "bias"))
              PyNone arc23 amp23 arc23 amp23)
    as (w' & H1 & H2 & H3 & H4 & _); try reflexivity.
  - now left.
  - now exists PyNone.
  - now exists PyNone.
  - exists w'. repeat split; assumption.
Defined.

Lemma arc_and_trace_are_built_alike_witness :
  MasterArc (frames_const arc23) (comb_const amp23) no_master 1
            (fresh 1 (argflag0 (CInt 1) true "arc"))
  = Ret true (built a_msarc 0 "Preparing a master arc frame" arc23 amp23
                    (fresh 1 (argflag0 (CInt 1) true "arc"))).
Proof.
  apply (proj1 (arc_and_trace_are_built_alike (frames_const arc23) no_match (comb_const amp23)
                  no_master 1 (fresh 1 (argflag0 (CInt 1) true "arc")) PyNone arc23 amp23
                  0%nat eq_refl)); reflexivity.
Defined.

(** ** The NIRSPEC mask *)

Lemma pixel_column i j c : (j < c)%nat -> ((i * c + j) mod c = j)%nat.
Proof.
  intros H. rewrite Nat.add_comm, Nat.Div0.mod_add. now apply Nat.mod_small.
Qed.

Lemma pixel_in_range i j r c : (i < r)%nat -> (j < c)%nat -> (i * c + j < r * c)%nat.
Proof. intros Hi Hj. nia. Qed.

Lemma nirspec_mask_lookup r c i j :
  (i < r)%nat -> (j < c)%nat ->
  data (Spectrographs.set_columns (fun j => 1000 <=? j)%nat 1%float
          (Spectrographs.set_columns (fun j => j <? 20)%nat 1%float (np_zeros DFloat [r; c])))
    !! (i * c + j)%nat
  = Some (edge_value j).
Proof.
  intros Hi Hj. unfold Spectrographs.set_columns, np_zeros. cbn [shape data dtype_of].
  rewrite !list_lookup_imap.
  rewrite lookup_replicate_2.
  2:{ cbn [size_of fold_right]. rewrite Nat.mul_1_r. now apply pixel_in_range. }
  cbn [fmap option_fmap option_map]. rewrite (pixel_column _ _ _ Hj).
  unfold edge_value. destruct (j <? 20)%nat, (1000 <=? j)%nat; reflexivity.
Qed.

(** X26: what the NIRSPEC [bpm] leaves on the instance.  When a caller has
    set [self.shape] to [(r, c)], the call logs one line, returns [None]
    whatever [shape] argument it is given, and binds [self.bpm] to a float
    array of shape [(r, c)] whose pixel in column [j] is 1 when [j < 20] or
    [j >= 1000] and 0 otherwise, in every row.  A second call through the
    instance then finds the array in place of the method and raises
    [TypeError], leaving the instance as it is. *)
Theorem nirspec_mask_marks_the_edges (r c : nat) (arg : option (list nat)) :
  let self := nirspec_with_shape [r; c] in
  let after := snd (call_bpm self arg) in
  fst (call_bpm self arg) = inr None /\
  Spectrographs.inst_log after = ["Custom bad pixel mask for NIRSPEC"] /\
  (exists m, Spectrographs.inst_bpm after = Some m /\
             shape m = [r; c] /\ dtype_of m = DFloat /\
             forall i j, (i < r)%nat -> (j < c)%nat ->
                         data m !! (i * c + j)%nat = Some (edge_value j)) /\
  call_bpm after arg = (inl (TypeError "'numpy.ndarray' object is not callable"), after).
Proof.
  cbv zeta. unfold call_bpm, nirspec_with_shape, Spectrographs.KeckNIRSPEC_bpm.
  cbn [Spectrographs.inst_bpm Spectrographs.inst_shape Spectrographs.inst_log
       Spectrographs.spectrograph Spectrographs.tuple_item lookup list_lookup fst snd app].
  split; [reflexivity|]. split; [reflexivity|]. split; [|reflexivity].
  eexists. split; [reflexivity|].
  split; [reflexivity|]. split; [reflexivity|].
  intros i j Hi Hj. now apply nirspec_mask_lookup.
Qed.

(** ** Detector numbers and the flat loaded by name *)

Section Edges.

Variable load_frames :
  list Z -> Z -> string -> option pyobj -> option bool -> option bool -> extern ndarray.
Variable match_frames : pyobj -> float -> bool -> string -> satlevel -> extern (list ndarray).
Variable comb_frames : pyobj -> Z -> string -> option (list nat) -> kwargs -> extern ndarray.
Variable load_master : string -> bool -> option string -> extern ndarray.
Variable flatnorm : Z -> pyobj -> extern (ndarray * ndarray).
Variable np_array_ragged : list pyobj -> extern ndarray.
Variable badpix : Z -> pyobj -> extern ndarray.

(** X27: a detector number outside the exposure is refused by the first
    read.  When [det - 1] is no index of the slot list, [MasterBias],
    [MasterArc], [MasterTrace] and, with flat-fielding on,
    [MasterFlatField] raise [IndexError] at once and change nothing, not
    even the log; [BadPixelMask] with the flag off does not look at [det]
    and returns [False]. *)
Theorem unknown_detector_is_refused_first (det : Z) (w : world) :
  (py_index (length (slots_of a_msbias w)) (det - 1) = None ->
   MasterBias load_frames comb_frames load_master det w = Raise IndexError w) /\
  (py_index (length (slots_of a_msarc w)) (det - 1) = None ->
   MasterArc load_frames comb_frames load_master det w = Raise IndexError w) /\
  (py_index (length (slots_of a_mstrace w)) (det - 1) = None ->
   MasterTrace load_frames match_frames comb_frames load_master det w = Raise IndexError w) /\
  (py_index (length (slots_of a_mspixflat w)) (det - 1) = None ->
   reduce_flatfield (_argflag (self w)) = true ->
   MasterFlatField load_frames match_frames comb_frames load_master flatnorm
                   np_array_ragged det w = Raise IndexError w) /\
  BadPixelMask badpix false det w
  = Ret false (logged Info "Not preparing a bad pixel mask" w).
Proof.
  split; [|split; [|split; [|split]]].
  - intros H. unfold MasterBias. now rewrite (bind_Raise _ _ _ _ _ (getslot_None _ _ _ H)).
  - intros H. unfold MasterArc. now rewrite (bind_Raise _ _ _ _ _ (getslot_None _ _ _ H)).
  - intros H. unfold MasterTrace. now rewrite (bind_Raise _ _ _ _ _ (getslot_None _ _ _ H)).
  - intros H Hon. unfold MasterFlatField. rewrite bind_gets, Hon.
    now rewrite (bind_Raise _ _ _ _ _ (getslot_None _ _ _ H)).
  - reflexivity.
Qed.

(** X28: a pixel flat loaded by name is named by [usepixflat], not by
    [useflat].  With flat-fielding on, an empty pixel-flat slot and
    [useflat] neither 'pixflat' nor 'blzflat', [MasterFlatField] reads the
    entry [usepixflat]: when it is missing the step raises [KeyError] and
    changes nothing; when it is [name], the loader is asked for
    [masterdir/name], and its failure is the failure of the step, with
    nothing changed. *)
Theorem flat_by_name_uses_usepixflat (det : Z) (w : world)
        (Hon : reduce_flatfield (_argflag (self w)) = true)
        (Hnone : slot_at a_mspixflat det w = Some PyNone)
        (Hpix : reduce_useflat (_argflag (self w)) <> "pixflat")
        (Hblz : reduce_useflat (_argflag (self w)) <> "blzflat") :
  (reduce_usepixflat (_argflag (self w)) = None ->
   MasterFlatField load_frames match_frames comb_frames load_master flatnorm
                   np_array_ragged det w = Raise (KeyError "usepixflat") w) /\
  (forall name e,
     reduce_usepixflat (_argflag (self w)) = Some name ->
     load_master (run_masterdir (_argflag (self w)) +:+ "/" +:+ name) true None w = inl e ->
     MasterFlatField load_frames match_frames comb_frames load_master flatnorm
                     np_array_ragged det w = Raise e w) /\
  (forall name p e,
     reduce_usepixflat (_argflag (self w)) = Some name ->
     load_master (run_masterdir (_argflag (self w)) +:+ "/" +:+ name) true None w = inr p ->
     flatnorm det (PyArr (length (heap w))) (with_heap (heap w ++ [p]) w) = inl e ->
     MasterFlatField load_frames match_frames comb_frames load_master flatnorm
                     np_array_ragged det w = Raise e (with_heap (heap w ++ [p]) w)).
Proof.
  assert (Hflag : (String.eqb (reduce_useflat (_argflag (self w))) "pixflat"
                   || String.eqb (reduce_useflat (_argflag (self w))) "blzflat") = false).
  { destruct (String.eqb_spec (reduce_useflat (_argflag (self w))) "pixflat"); [contradiction|].
    destruct (String.eqb_spec (reduce_useflat (_argflag (self w))) "blzflat"); [contradiction|].
    reflexivity. }
  split; [|split].
  - intros Hk. unfold MasterFlatField. rewrite bind_gets, Hon.
    rewrite (bind_Ret _ _ _ _ _ (getslot_at _ _ _ _ Hnone)). rewrite Hflag, Hk.
    reflexivity.
  - intros name e Hk Hl. unfold MasterFlatField. rewrite bind_gets, Hon.
    rewrite (bind_Ret _ _ _ _ _ (getslot_at _ _ _ _ Hnone)). rewrite Hflag, Hk.
    erewrite bind_Raise; [reflexivity|].
    unfold call_arr. erewrite bind_Raise; [reflexivity|]. unfold call. now rewrite Hl.
  - intros name p e Hk Hl Hf. unfold MasterFlatField. rewrite bind_gets, Hon.
    rewrite (bind_Ret _ _ _ _ _ (getslot_at _ _ _ _ Hnone)). rewrite Hflag, Hk.
    erewrite bind_Ret by (apply call_arr_ok; exact Hl).
    erewrite bind_Raise; [reflexivity|]. unfold call. now rewrite Hf.
Qed.

End Edges.

Lemma unknown_detector_is_refused_first_witness :
  MasterArc no_frames no_comb no_master 2 (fresh 1 (argflag0 (CInt 1) true "arc"))
  = Raise IndexError (fresh 1 (argflag0 (CInt 1) true "arc")).
Proof.
  apply (proj1 (proj2 (unknown_detector_is_refused_first no_frames no_match no_comb no_master
                         flatnorm_const no_ragged (fun _ _ _ => inl (External "badpix")) 2
                         (fresh 1 (argflag0 (CInt 1) true "arc"))))).
  reflexivity.
Defined.

Lemma flat_by_name_uses_usepixflat_witness :
  MasterFlatField no_frames no_match no_comb no_master flatnorm_const no_ragged 1
                  (fresh 1 (with_useflat "flat_2015" None (argflag0 (CInt 1) true "bias")))
  = Raise (KeyError "usepixflat")
          (fresh 1 (with_useflat "flat_2015" None (argflag0 (CInt 1) true "bias"))).
Proof.
  apply (proj1 (flat_by_name_uses_usepixflat no_frames no_match no_comb no_master
                  flatnorm_const no_ragged 1
                  (fresh 1 (with_useflat "flat_2015" None (argflag0 (CInt 1) true "bias")))
                  eq_refl eq_refl ltac:(discriminate) ltac:(discriminate))).
  reflexivity.
Defined.
